(** * list-gen-bot: content extraction, aggregation and rendering

    A shallow embedding of [list-gen-bot.py].  Wiki text is a list of
    characters, the wiki itself is a total map from page titles to page
    text (a page that does not exist reads as the empty text) together
    with the log of the saves made, and the four regular expressions of
    the script are terms of a small backtracking matcher that follows
    the priorities of Python's [re] module (leftmost start, greedy
    repetition, backtracking into earlier choices). *)

From Stdlib Require Import Ascii String List Bool Arith Lia Sorted Permutation.
Import ListNotations.

Set Implicit Arguments.

(** Text: Python [str] values, one [ascii] per character. *)
Definition str := list ascii.

Definition lit (s : string) : str := list_ascii_of_string s.

Definition nl : ascii := "010"%char.

(* ================================================================= *)
(** ** Python built-ins used by the script *)

Module Py.

Fixpoint str_eqb (a b : str) : bool :=
  match a, b with
  | [], [] => true
  | x :: a', y :: b' => Ascii.eqb x y && str_eqb a' b'
  | _, _ => false
  end.

(** [s.split('\n')]: never empty, the empty text gives [['']]. *)
Fixpoint split_nl (s : str) : list str :=
  match s with
  | [] => [[]]
  | c :: r =>
      if Ascii.eqb c nl then [] :: split_nl r
      else match split_nl r with
           | l :: ls => (c :: l) :: ls
           | [] => [[c]]
           end
  end.

(** ['\n'.join(ls)]. *)
Fixpoint join_nl (ls : list str) : str :=
  match ls with
  | [] => []
  | [l] => l
  | l :: ls' => l ++ nl :: join_nl ls'
  end.

(** [s.lstrip(c)], [s.rstrip(c)] and [s.strip(c)] for a single character. *)
Fixpoint lstrip (c : ascii) (s : str) : str :=
  match s with
  | x :: s' => if Ascii.eqb x c then lstrip c s' else s
  | [] => []
  end.

Definition rstrip (c : ascii) (s : str) : str := rev (lstrip c (rev s)).

Definition strip (c : ascii) (s : str) : str := rstrip c (lstrip c s).

(** Comparison of strings: by code point, a proper prefix first. *)
Fixpoint str_leb (a b : str) : bool :=
  match a, b with
  | [], _ => true
  | _ :: _, [] => false
  | x :: a', y :: b' =>
      let nx := nat_of_ascii x in
      let ny := nat_of_ascii y in
      if nx <? ny then true
      else if ny <? nx then false
      else str_leb a' b'
  end.

(** [sorted(ls)]: a stable sort; insertion after the last element that
    is not greater keeps equal elements in their order. *)
Fixpoint insert_sorted (x : str) (ls : list str) : list str :=
  match ls with
  | [] => [x]
  | y :: ls' => if str_leb y x then y :: insert_sorted x ls' else x :: ls
  end.

Definition sorted (ls : list str) : list str :=
  fold_left (fun acc x => insert_sorted x acc) ls [].

(** [del l[start:stop]] for bounds that are [None] or non-negative. *)
Definition del_slice (A : Type) (l : list A) (start stop : option nat) : list A :=
  let a := match start with Some a => a | None => 0 end in
  let b := match stop with Some b => b | None => length l end in
  firstn a l ++ skipn (Nat.max a b) l.

(** Truth value of an [int or None] and of a [str or None]. *)
Definition truthy_int (o : option nat) : bool :=
  match o with Some (S _) => true | _ => false end.

Definition truthy_str (o : option str) : bool :=
  match o with Some (_ :: _) => true | _ => false end.

End Py.

(* ================================================================= *)
(** ** The regular expressions: a backtracking matcher *)

Module Re.

Inductive regex : Type :=
| Eps
| Lit (c : ascii)              (* an escaped or plain literal character *)
| Dot                          (* [.]: any character but a newline *)
| NotLit (c : ascii)           (* [[^c]] *)
| Seq (a b : regex)
| Star (a : regex)             (* greedy [*] *)
| Opt (a : regex)              (* greedy [?] *)
| Group (n : nat) (a : regex)  (* capturing group number [n] *)
| Bol                          (* [^] *)
| Eol.                         (* [$] *)

(** Greedy [+]. *)
Definition Plus (a : regex) : regex := Seq a (Star a).

(** A literal string. *)
Fixpoint Lits (s : str) : regex :=
  match s with
  | [] => Eps
  | c :: s' => Seq (Lit c) (Lits s')
  end.

(** The matcher's state: the position reached, the character before it,
    the text still to read and the groups captured so far (the most
    recent capture of a group first). *)
Record mstate : Type := MState {
  pos : nat;
  prev : option ascii;
  rest : str;
  marks : list (nat * str)
}.

Definition advance (st : mstate) : mstate :=
  match rest st with
  | c :: r => MState (S (pos st)) (Some c) r (marks st)
  | [] => st
  end.

Definition set_mark (n : nat) (from to : mstate) : mstate :=
  MState (pos to) (prev to) (rest to)
         ((n, firstn (pos to - pos from) (rest from)) :: marks to).

Definition at_bol (multiline : bool) (st : mstate) : bool :=
  match prev st with
  | None => true
  | Some c => multiline && Ascii.eqb c nl
  end.

Definition at_eol (multiline : bool) (st : mstate) : bool :=
  match rest st with
  | [] => true
  | c :: r => Ascii.eqb c nl && (multiline || match r with [] => true | _ => false end)
  end.

Section Matcher.

Variable multiline : bool.

(** The loop of a greedy repetition: as many iterations of [body] as
    possible first, each step of backtracking gives one up.  An
    iteration that reads nothing is refused; [fuel] exceeds the length
    of the text left, so it never runs out. *)
Definition star_loop
  (body : mstate -> (mstate -> option mstate) -> option mstate)
  (k : mstate -> option mstate) : nat -> mstate -> option mstate :=
  fix loop (fuel : nat) (st : mstate) {struct fuel} : option mstate :=
    match fuel with
    | 0 => k st
    | S fuel' =>
        match body st (fun st' =>
                         if length (rest st') <? length (rest st)
                         then loop fuel' st' else None) with
        | Some e => Some e
        | None => k st
        end
    end.

(** [rmatch r st k]: match [r] at [st] and hand every way of doing so,
    in the order of preference, to the continuation [k] until one
    succeeds. *)
Fixpoint rmatch (r : regex) (st : mstate) (k : mstate -> option mstate)
  {struct r} : option mstate :=
  match r with
  | Eps => k st
  | Lit c =>
      match rest st with
      | x :: _ => if Ascii.eqb x c then k (advance st) else None
      | [] => None
      end
  | Dot =>
      match rest st with
      | x :: _ => if Ascii.eqb x nl then None else k (advance st)
      | [] => None
      end
  | NotLit c =>
      match rest st with
      | x :: _ => if Ascii.eqb x c then None else k (advance st)
      | [] => None
      end
  | Seq a b => rmatch a st (fun st' => rmatch b st' k)
  | Star a => star_loop (rmatch a) k (S (length (rest st))) st
  | Opt a =>
      match rmatch a st k with
      | Some e => Some e
      | None => k st
      end
  | Group n a => rmatch a st (fun st' => k (set_mark n st st'))
  | Bol => if at_bol multiline st then k st else None
  | Eol => if at_eol multiline st then k st else None
  end.

(** A match object: where the match starts and the state at its end. *)
Record rmatch_obj : Type := MatchObj {
  m_start : nat;
  m_end : mstate
}.

(** [pattern.search]: the first position, from the current one on, at
    which the pattern matches. *)
Fixpoint search_at (r : regex) (p : nat) (pv : option ascii) (s : str)
  {struct s} : option rmatch_obj :=
  match rmatch r (MState p pv s []) Some with
  | Some e => Some (MatchObj p e)
  | None =>
      match s with
      | [] => None
      | c :: s' => search_at r (S p) (Some c) s'
      end
  end.

Definition search (r : regex) (s : str) : option rmatch_obj :=
  search_at r 0 None s.

(** [m.group(n)]; every group of the patterns below takes part in every
    match, so the default is never used. *)
Fixpoint lookup_mark (n : nat) (ms : list (nat * str)) : str :=
  match ms with
  | [] => []
  | (i, s) :: ms' => if i =? n then s else lookup_mark n ms'
  end.

Definition group (m : rmatch_obj) (n : nat) : str :=
  lookup_mark n (marks (m_end m)).

(** [pattern.sub(repl, string)] with a function [repl]: the matches are
    found left to right, each search starting where the last match
    ended; the text between matches is copied.  After an empty match
    the next character is copied and the search moves on. *)
Fixpoint sub_at (fuel : nat) (r : regex) (repl : rmatch_obj -> str)
  (p : nat) (pv : option ascii) (s : str) {struct fuel} : str :=
  match fuel with
  | 0 => s
  | S fuel' =>
      match search_at r p pv s with
      | None => s
      | Some m =>
          let e := m_end m in
          let before := firstn (m_start m - p) s in
          if pos e =? m_start m then
            match rest e with
            | [] => before ++ repl m
            | c :: s' =>
                before ++ repl m ++ c :: sub_at fuel' r repl (S (pos e)) (Some c) s'
            end
          else before ++ repl m ++ sub_at fuel' r repl (pos e) (prev e) (rest e)
      end
  end.

Definition sub (r : regex) (repl : rmatch_obj -> str) (s : str) : str :=
  sub_at (S (length s)) r repl 0 None s.

End Matcher.

End Re.

(* ================================================================= *)
(** ** The wiki: pages and page objects *)

(** One call of [page.save(summary)]. *)
Record save_entry : Type := SaveEntry {
  s_title : str;
  s_text : str;
  s_summary : str
}.

(** The site: the text of every page and the saves made so far, the
    latest first. *)
Record Site : Type := MkSite {
  pages : str -> str;
  saves : list save_entry
}.

(** A [pywikibot.Page] object: its title and the text assigned to it, if
    any; reading [page.text] before any assignment loads the stored text. *)
Record Page : Type := MkPage {
  p_title : str;
  p_text : option str
}.

Definition page_text (w : Site) (p : Page) : str :=
  match p_text p with
  | Some t => t
  | None => pages w (p_title p)
  end.

Definition page_set_text (p : Page) (t : str) : Page :=
  MkPage (p_title p) (Some t).

Definition page_save (w : Site) (p : Page) (summary : str) : Site :=
  let t := page_text w p in
  MkSite (fun name => if Py.str_eqb name (p_title p) then t else pages w name)
         (SaveEntry (p_title p) t summary :: saves w).

(* ================================================================= *)
(** ** Constants and patterns *)

Definition PAGES_TO_GO_THROUGH : nat := 25.

Definition STORAGE_PAGE : str := lit "Powerpedia:ListGenBotInfo".

Declare Scope re_scope.
Delimit Scope re_scope with re.
Notation "a ;; b" := (Re.Seq a b) (at level 61, right associativity) : re_scope.

(** [list_content_start]: the text [{{ListGenBot-SourceStart|], group 1
    of one or more characters of the line, then [}}]. *)
Definition list_content_start : Re.regex :=
  (Re.Lits (lit "{{ListGenBot-SourceStart|") ;;
   Re.Group 1 (Re.Plus Re.Dot) ;;
   Re.Lits (lit "}}"))%re.

(** [list_content_end]: the text [{{ListGenBot-SourceEnd}}]. *)
Definition list_content_end : Re.regex :=
  Re.Lits (lit "{{ListGenBot-SourceEnd}}").

(** [list_render_template], compiled with [re.MULTILINE].  Group 1 is
    the open marker: [{{ListGenBot-List], group 2 (any characters of the
    line, greedy), [Start|], group 3 (one or more characters, greedy),
    [}}].  Then one or more times the rest of a line with its newline,
    then any characters of a line, then group 4, the close marker:
    [{{ListGenBot-List], group 5 (any characters of the line, greedy),
    [End}}]. *)
Definition list_render_template : Re.regex :=
  (Re.Group 1 (Re.Lits (lit "{{ListGenBot-List") ;;
               Re.Group 2 (Re.Star Re.Dot) ;;
               Re.Lits (lit "Start|") ;;
               Re.Group 3 (Re.Plus Re.Dot) ;;
               Re.Lits (lit "}}")) ;;
   Re.Plus (Re.Star Re.Dot ;; Re.Lit nl) ;;
   Re.Star Re.Dot ;;
   Re.Group 4 (Re.Lits (lit "{{ListGenBot-List") ;;
               Re.Group 5 (Re.Star Re.Dot) ;;
               Re.Lits (lit "End}}")))%re.

(** [title_search]: at the start of the text, group 1 of one or more
    [=], group 2 of any characters but [=], group 3 of one or more [=],
    an optional space, the end of the text. *)
Definition title_search : Re.regex :=
  (Re.Bol ;;
   Re.Group 1 (Re.Plus (Re.Lit "="%char)) ;;
   Re.Group 2 (Re.Star (Re.NotLit "="%char)) ;;
   Re.Group 3 (Re.Plus (Re.Lit "="%char)) ;;
   Re.Opt (Re.Lit " "%char) ;;
   Re.Eol)%re.

(* ================================================================= *)
(** ** The bot *)

Definition _get_page (page_name : str) : Page := MkPage page_name None.

Definition _get_page_text (w : Site) (page_name : str) : list str :=
  Py.split_nl (page_text w (_get_page page_name)).

Definition _find_list_content_start (line : str) : option str :=
  match Re.search false list_content_start line with
  | Some res => Some (Re.group res 1)
  | None => None
  end.

Definition _find_list_content_end (line : str) : bool :=
  match Re.search false list_content_end line with
  | Some _ => true
  | None => false
  end.

Definition _find_title (line : str) : bool :=
  match Re.search false title_search line with
  | Some _ => true
  | None => false
  end.

(** The loop of step 1 of [_add_to_list]: [(start, end)] when the loop
    is left, by [break] or at the end of the lines.  [end] is only set
    where [start] is a positive number, so [line_no - 1] is not
    negative. *)
Fixpoint find_section (section : str) (lines : list str) (line_no : nat)
  (start : option nat) : option nat * option nat :=
  match lines with
  | [] => (start, None)
  | line :: lines' =>
      if Py.str_eqb line section then
        find_section section lines' (S line_no) (Some line_no)
      else if Py.truthy_int start && _find_title line then
        (start, Some (line_no - 1))
      else find_section section lines' (S line_no) start
  end.

(** Step 1 of [_add_to_list]: the lines left once the old section is cut. *)
Definition remove_section (section : str) (page_lines : list str) : list str :=
  match find_section section page_lines 0 None with
  | (Some start, Some end_) => Py.del_slice page_lines (Some start) (Some (end_ + 1))
  | (start, None) => Py.del_slice page_lines start None
  | (None, Some _) => page_lines
  end.

(** Step 2 of [_add_to_list]. *)
Definition add_content (section : str) (content page_lines : list str) : list str :=
  match content with
  | [] => page_lines
  | _ :: _ => (page_lines ++ [section]) ++ content
  end.

Definition section_of (title : str) : str := lit "==" ++ title ++ lit "==".

Definition list_page_name (list_name : str) : str := lit "ListGenBot " ++ list_name.

(** The lines of the list page after [_add_to_list], before they are joined. *)
Definition added_lines (page_lines content : list str) (section : str) : list str :=
  add_content (section_of section) content
              (remove_section (section_of section) page_lines).

Definition _add_to_list (w : Site) (content : list str) (section list_name : str) : Site :=
  let section' := section_of section in
  let page_name := list_page_name list_name in
  let page_lines := _get_page_text w page_name in
  (* step 1: remove the content that was previously in the section *)
  let page_lines := remove_section section' page_lines in
  (* step 2: add new content *)
  let page_lines := add_content section' content page_lines in
  let page := _get_page page_name in
  let page := page_set_text page (Py.join_nl page_lines) in
  page_save w page (lit "Add list content to list").

(** [_render_list]: the replacement for one match of [list_render_template]. *)
Definition render_lines (w : Site) (start end_ list_name : str) : list str :=
  let page_name := list_page_name list_name in
  if Py.str_eqb start end_ then
    if Py.str_eqb start (lit "Sectioned") then
      map (fun line =>
             if negb (_find_title line) then line
             else lit "===([[" ++ Py.strip "="%char line ++ lit "]])===")
          (_get_page_text w page_name)
    else if Py.str_eqb start (lit "Alphabetical") then
      Py.sorted (filter (fun x => negb (_find_title x)) (_get_page_text w page_name))
    else []
  else [].

Definition _render_list (w : Site) (m : Re.rmatch_obj) : str :=
  let beginning_text := Re.group m 1 in
  let start := Re.group m 2 in
  let list_name := Re.group m 3 in
  let ending_text := Re.group m 4 in
  let end_ := Re.group m 5 in
  let page_lines := render_lines w start end_ list_name in
  let list_text := Py.join_nl page_lines in
  beginning_text ++ nl :: list_text ++ nl :: ending_text.

(** The render pass: [list_render_template.sub(self._render_list, text)]. *)
Definition render (w : Site) (text : str) : str :=
  Re.sub true list_render_template (_render_list w) text.

(** The scanner's variables inside the loop of [main_function]. *)
Record scan_state : Type := MkScan {
  in_list : option str;
  list_content : list str;
  site : Site
}.

(** One turn of the loop [for line in page_lines]. *)
Definition scan_line (page : str) (st : scan_state) (line : str) : scan_state :=
  match in_list st with
  | Some ((_ :: _) as name) =>
      if _find_list_content_end line then
        MkScan None [] (_add_to_list (site st) (list_content st) page name)
      else if negb (_find_title line) then
        MkScan (in_list st) (list_content st ++ [line]) (site st)
      else st
  | _ => MkScan (_find_list_content_start line) (list_content st) (site st)
  end.

Definition scan_lines (page : str) (st : scan_state) (page_lines : list str) : scan_state :=
  fold_left (scan_line page) page_lines st.

(** The last five statements of [main_function]: the page object is given
    the new text, and only then compared with it. *)
Definition render_page (w : Site) (page_name : str) : Site :=
  let page := _get_page page_name in
  let new_text := render w (page_text w page) in
  let page := page_set_text page new_text in
  if negb (Py.str_eqb (page_text w page) new_text)
  then page_save w page (lit "Render lists")
  else w.

Definition main_function (w : Site) (page : str) : Site :=
  let page_lines := _get_page_text w page in
  let st := scan_lines page (MkScan None [] w) page_lines in
  render_page (site st) page.

Section Bot.

(** The title of the page that holds the cursor, and the enumerator of
    the wiki ([allpages] from a title on, at most [PAGES_TO_GO_THROUGH]
    titles), which is outside the script. *)
Variable reference_page_title : str.
Variable _pages_from : Site -> str -> list str.

Definition _get_page_start (w : Site) : str :=
  hd [] (Py.split_nl (page_text w (_get_page reference_page_title))).

Definition _set_page_start (w : Site) (new_start : str) : Site :=
  let page := _get_page reference_page_title in
  let page := page_set_text page new_start in
  page_save w page (lit "Store new page from last execution.").

(** The loop of [run]: the last title seen and the site after it. *)
Definition run_pages (w : Site) (pages_to_run : list str) : str * Site :=
  fold_left (fun acc page => (page, main_function (snd acc) page))
            pages_to_run ([], w).

Definition run (w : Site) : Site :=
  let start_page_title := _get_page_start w in
  let pages_to_run := _pages_from w start_page_title in
  let '(last_page_seen, w') := run_pages w pages_to_run in
  if length pages_to_run <? PAGES_TO_GO_THROUGH
  then _set_page_start w' []
  else _set_page_start w' last_page_seen.

End Bot.

(* ================================================================= *)
(** ** Sample pages *)

Module Sample.

(** A list page with two sections. *)
Definition list_X : str := lit "==A==
banana
apple
==B==
cherry".

(** A page whose render directive opens as [Sectioned] and closes as
    [Alphabetical]. *)
Definition mismatched : str := lit "{{ListGenBot-ListSectionedStart|X}}
old body
{{ListGenBot-ListAlphabeticalEnd}}".

(** A page with one well-formed directive whose body is stale. *)
Definition stale : str := lit "intro
{{ListGenBot-ListAlphabeticalStart|X}}
old body
{{ListGenBot-ListAlphabeticalEnd}}
outro".

(** A page with two well-formed directives. *)
Definition two_directives : str := lit "{{ListGenBot-ListSectionedStart|X}}
first body
{{ListGenBot-ListSectionedEnd}}
between
{{ListGenBot-ListAlphabeticalStart|X}}
second body
{{ListGenBot-ListAlphabeticalEnd}}".

(** A page that opens a content block and never closes it. *)
Definition unterminated : str := lit "intro
{{ListGenBot-SourceStart|X}}
pear
plum".

Definition wiki : Site :=
  MkSite (fun name =>
            if Py.str_eqb name (lit "ListGenBot X") then list_X
            else if Py.str_eqb name (lit "Mismatched") then mismatched
            else if Py.str_eqb name (lit "Stale") then stale
            else if Py.str_eqb name (lit "Two") then two_directives
            else if Py.str_eqb name (lit "Unterminated") then unterminated
            else [])
         [].

(** An enumerator that answers with the same titles whatever it is asked. *)
Definition enumerate (titles : list str) (w : Site) (start : str) : list str := titles.

Definition short_batch : list str := [lit "Stale"; lit "Unterminated"].

Definition full_batch : list str :=
  map (fun n => lit "Page " ++ [ascii_of_nat (65 + n)]) (seq 0 PAGES_TO_GO_THROUGH).

End Sample.

(* ================================================================= *)
(** ** Reading the render pattern off a text

    The definitions below say, without the matcher, where a match of
    [list_render_template] starts and ends and what its groups are.
    The proofs about the render pass go through them; that the matcher
    computes the same is proved further down ([match_at_spec]). *)

(** The state [n] characters further on. *)
Fixpoint skip (n : nat) (st : Re.mstate) : Re.mstate :=
  match n with
  | 0 => st
  | S n' => skip n' (Re.advance st)
  end.

(** [u.startswith(s)]. *)
Fixpoint prefixb (s u : str) : bool :=
  match s, u with
  | [], _ => true
  | c :: s', x :: u' => Ascii.eqb x c && prefixb s' u'
  | _ :: _, [] => false
  end.

(** The number of characters before the first newline (or the end). *)
Fixpoint line_len (u : str) : nat :=
  match u with
  | [] => 0
  | c :: u' => if Ascii.eqb c nl then 0 else S (line_len u')
  end.

(** The first answer of [f n], [f (n - 1)], ..., [f 0]. *)
Fixpoint first_down (A : Type) (f : nat -> option A) (n : nat) : option A :=
  match f n with
  | Some e => Some e
  | None =>
      match n with
      | 0 => None
      | S n' => first_down f n'
      end
  end.

(** The greatest index up to [n] at which [p] holds. *)
Fixpoint last_idx (p : nat -> bool) (n : nat) : option nat :=
  if p n then Some n
  else match n with
       | 0 => None
       | S n' => last_idx p n'
       end.

Definition no_nl (x : str) : Prop := line_len x = length x.

(** The shape of [list_render_template], with its four literal texts
    left open. *)
Definition template (L1 ST CL EN : str) : Re.regex :=
  (Re.Group 1 (Re.Lits L1 ;;
               Re.Group 2 (Re.Star Re.Dot) ;;
               Re.Lits ST ;;
               Re.Group 3 (Re.Plus Re.Dot) ;;
               Re.Lits CL) ;;
   Re.Plus (Re.Star Re.Dot ;; Re.Lit nl) ;;
   Re.Star Re.Dot ;;
   Re.Group 4 (Re.Lits L1 ;;
               Re.Group 5 (Re.Star Re.Dot) ;;
               Re.Lits EN))%re.

Definition is_some (A : Type) (o : option A) : bool :=
  match o with Some _ => true | None => false end.

Section Template.

Variables L1 ST CL EN : str.

(** *** What the pattern picks, read off the text

    Each function looks for the greatest index at which the rest of
    the pattern can still match: greedy repetition prefers the longest
    text, and gives characters back only when what follows fails. *)

(** After the [L1] of a close marker: where group 5 ends. *)
Definition has_end (y1 : str) : option nat :=
  last_idx (fun i => prefixb EN (skipn i y1)) (line_len y1).

(** A close marker starts here. *)
Definition closeable (y : str) : bool :=
  prefixb L1 y && is_some (has_end (skipn (length L1) y)).

(** The last place of [v] where a close marker starts. *)
Definition find_close (v : str) : option nat :=
  last_idx (fun m => closeable (skipn m v)) (length v).

(** After the open marker: the line ends with a newline and a close
    marker follows somewhere after it. *)
Definition after_ok (w : str) : bool :=
  (line_len w <? length w) && is_some (find_close (skipn (S (line_len w)) w)).

(** After [ST]: group 3 may end at [i]. *)
Definition g3_ok (c : str) (i : nat) : bool :=
  (1 <=? i) && prefixb CL (skipn i c) && after_ok (skipn (i + length CL) c).

Definition find_g3 (c : str) : option nat := last_idx (g3_ok c) (line_len c).

(** After the [L1] of an open marker: group 2 may end at [i]. *)
Definition g2_ok (a : str) (i : nat) : bool :=
  prefixb ST (skipn i a) && is_some (find_g3 (skipn (i + length ST) a)).

Definition find_g2 (a : str) : option nat := last_idx (g2_ok a) (line_len a).

(** The pattern matches at the start of [u]. *)
Definition matchable (u : str) : bool :=
  prefixb L1 u && is_some (find_g2 (skipn (length L1) u)).

(** The states the matcher goes through on its successful path. *)
Definition st_a (st0 : Re.mstate) : Re.mstate := skip (length L1) st0.

Definition st_c (st0 : Re.mstate) (i2 : nat) : Re.mstate :=
  skip (length ST) (Re.set_mark 2 (st_a st0) (skip i2 (st_a st0))).

Definition st_e1 (st0 : Re.mstate) (i2 i3 : nat) : Re.mstate :=
  Re.set_mark 1 st0
    (skip (length CL) (Re.set_mark 3 (st_c st0 i2) (skip i3 (st_c st0 i2)))).

Definition st_f (e1 : Re.mstate) (m : nat) : Re.mstate :=
  skip (S (line_len (Re.rest e1)) + m) e1.

Definition st_close (f : Re.mstate) (i5 : nat) : Re.mstate :=
  Re.set_mark 4 f
    (skip (length EN)
          (Re.set_mark 5 (skip (length L1) f) (skip i5 (skip (length L1) f)))).

(** The close marker at [f], if there is one. *)
Definition close_at (f : Re.mstate) : option Re.mstate :=
  if prefixb L1 (Re.rest f)
  then match has_end (skipn (length L1) (Re.rest f)) with
       | Some i5 => Some (st_close f i5)
       | None => None
       end
  else None.

(** The rest of the match after the open marker. *)
Definition after_at (e1 : Re.mstate) : option Re.mstate :=
  if line_len (Re.rest e1) <? length (Re.rest e1)
  then match find_close (skipn (S (line_len (Re.rest e1))) (Re.rest e1)) with
       | Some m => close_at (st_f e1 m)
       | None => None
       end
  else None.

(** The whole match at [st0]. *)
Definition match_at (st0 : Re.mstate) : option Re.mstate :=
  if prefixb L1 (Re.rest st0)
  then match find_g2 (Re.rest (st_a st0)) with
       | Some i2 =>
           match find_g3 (Re.rest (st_c st0 i2)) with
           | Some i3 => after_at (st_e1 st0 i2 i3)
           | None => None
           end
       | None => None
       end
  else None.

End Template.

(** The parts of a matched text that the pattern leaves open: groups 2
    and 3, the rest of the open marker's line, the text up to the close
    marker, group 5, and what follows the match. *)
Record pieces : Type := Pieces {
  p_g2 : str;
  p_g3 : str;
  p_tail : str;
  p_mid : str;
  p_g5 : str;
  p_post : str
}.

Section PiecesOfText.

Variables L1 ST CL EN : str.

Definition t_y1 (q : pieces) : str := p_g5 q ++ EN ++ p_post q.
Definition t_y (q : pieces) : str := L1 ++ t_y1 q.
Definition t_v (q : pieces) : str := p_mid q ++ t_y q.
Definition t_w (q : pieces) : str := p_tail q ++ nl :: t_v q.
Definition t_c (q : pieces) : str := p_g3 q ++ CL ++ t_w q.
Definition t_a (q : pieces) : str := p_g2 q ++ ST ++ t_c q.
Definition t_u (q : pieces) : str := L1 ++ t_a q.

(** Groups 1 and 4. *)
Definition t_g1 (q : pieces) : str := L1 ++ p_g2 q ++ ST ++ p_g3 q ++ CL.
Definition t_g4 (q : pieces) : str := L1 ++ p_g5 q ++ EN.

(** The pieces are the ones the pattern picks. *)
Definition picks (q : pieces) : Prop :=
  no_nl (p_tail q) /\
  find_g2 L1 ST CL EN (t_a q) = Some (length (p_g2 q)) /\
  find_g3 L1 CL EN (t_c q) = Some (length (p_g3 q)) /\
  find_close L1 EN (t_v q) = Some (length (p_mid q)) /\
  has_end EN (t_y1 q) = Some (length (p_g5 q)).

Definition end_state (st0 : Re.mstate) (q : pieces) : Re.mstate :=
  st_close L1 EN
    (st_f (st_e1 L1 ST CL st0 (length (p_g2 q)) (length (p_g3 q))) (length (p_mid q)))
    (length (p_g5 q)).

(** The groups of a match with pieces [q]. *)
Definition marks_of (q : pieces) : list (nat * str) :=
  [(4, t_g4 q); (5, p_g5 q); (1, t_g1 q); (3, p_g3 q); (2, p_g2 q)].

End PiecesOfText.

(** The pieces of the text after the span of [q] has been replaced by
    the open marker, a body and the close marker. *)
Definition rerendered (q : pieces) (body : str) : pieces :=
  Pieces (p_g2 q) (p_g3 q) [] (body ++ [nl]) (p_g5 q) (p_post q).

Section Replacement.

(** The body between the markers, from groups 2, 5 and 3. *)
Variable body_of : str -> str -> str -> str.

(** A replacement of the form of [_render_list]: the open marker, a
    body computed from the groups, the close marker. *)
Definition repl_of (m : Re.rmatch_obj) : str :=
  Re.group m 1 ++ nl :: body_of (Re.group m 2) (Re.group m 5) (Re.group m 3)
    ++ nl :: Re.group m 4.

End Replacement.

Definition open_lit : str := lit "{{ListGenBot-List".
Definition start_lit : str := lit "Start|".
Definition braces_lit : str := lit "}}".
Definition end_lit : str := lit "End}}".

(** The body [_render_list] puts between the markers. *)
Definition list_text (w : Site) (start end_ list_name : str) : str :=
  Py.join_nl (render_lines w start end_ list_name).

(* ================================================================= *)
(** ** Shapes of lines and of pages *)

(** [x] occurs in [s]. *)
Definition occurs (x s : str) : Prop := exists pre post, s = pre ++ x ++ post.

(** The number of leading characters that satisfy [p]. *)
Fixpoint run_len (p : ascii -> bool) (u : str) : nat :=
  match u with
  | [] => 0
  | c :: u' => if p c then S (run_len p u') else 0
  end.

Definition is_eq_sign (c : ascii) : bool := Ascii.eqb c "="%char.

(** The texts [title_search] accepts: one or more [=], a part without
    [=], one or more [=], then nothing, a space, a newline, or a space
    and a newline. *)
Definition title_shape (line : str) : Prop :=
  exists a b c sp,
    line = repeat "="%char a ++ b ++ repeat "="%char c ++ sp /\
    1 <= a /\ 1 <= c /\
    Forall (fun x => x <> "="%char) b /\
    (sp = [] \/ sp = [" "%char] \/ sp = [nl] \/ sp = [" "%char; nl]).

(** The titles of the list pages. *)
Definition is_list_page (name : str) : bool := prefixb (lit "ListGenBot ") name.

(** The open and close texts of a content block. *)
Definition source_start_lit : str := lit "{{ListGenBot-SourceStart|".
Definition source_end_lit : str := lit "{{ListGenBot-SourceEnd}}".

Definition close_lit : str := lit "}}".

(** [line] holds a content-start marker for [name] after [pre]. *)
Definition content_start_at (line pre name post : str) : Prop :=
  line = pre ++ source_start_lit ++ name ++ close_lit ++ post /\
  name <> [] /\ no_nl name.

(** The name that a content-start marker at the head of [u] gives: the
    longest part of the line after the open text that is followed by
    the close text. *)
Definition start_name_at (u : str) : option str :=
  if prefixb source_start_lit u then
    let v := skipn (length source_start_lit) u in
    match line_len v with
    | 0 => None
    | S n =>
        match last_idx (fun i => prefixb close_lit (skipn (S i) v)) n with
        | Some i => Some (firstn (S i) v)
        | None => None
        end
    end
  else None.

(** What may follow the closing [=] of a title: an optional space, then
    the end of the text or a newline that ends it. *)
Definition title_tail (sp : str) : bool :=
  match sp with
  | [] => true
  | [c] => Ascii.eqb c " "%char || Ascii.eqb c nl
  | [c; d] => Ascii.eqb c " "%char && Ascii.eqb d nl
  | _ => false
  end.

(** A save made by [_add_to_list]. *)
Definition upsert_save (s : save_entry) : Prop :=
  is_list_page (s_title s) = true /\ s_summary s = lit "Add list content to list".

(** A render directive at the head of [u]: the open marker with its
    two parts on one line, the rest of that line, a newline, any text,
    and a close marker on one line. *)
Definition directive_at (L1 ST CL EN : str) (u : str) : Prop :=
  exists g2 g3 tail mid g5 post,
    u = L1 ++ g2 ++ ST ++ g3 ++ CL ++ tail ++ nl :: mid ++ L1 ++ g5 ++ EN ++ post /\
    no_nl g2 /\ g3 <> [] /\ no_nl g3 /\ no_nl tail /\ no_nl g5.

(** [text] holds a render directive. *)
Definition directive_shape (text : str) : Prop :=
  exists pre u,
    text = pre ++ u /\ directive_at open_lit start_lit braces_lit end_lit u.

(** [text] holds a close marker of a render directive. *)
Definition close_marker_in (text : str) : Prop :=
  exists x g y, text = x ++ open_lit ++ g ++ end_lit ++ y /\ no_nl g.

(** The order of [sorted]. *)
Definition str_le (a b : str) : Prop := Py.str_leb a b = true.





(* ================================================================= *)
(** * Properties *)

(** ** Lists, strings and sites *)

Lemma skipn_length_app (A : Type) (x y : list A) : skipn (length x) (x ++ y) = y.
Proof. induction x as [|c x IH]; simpl; [reflexivity|exact IH]. Qed.

Lemma skipn_length_app_add (A : Type) (x y : list A) (k : nat) :
  skipn (length x + k) (x ++ y) = skipn k y.
Proof. induction x as [|c x IH]; simpl; [reflexivity|exact IH]. Qed.

Lemma firstn_length_app (A : Type) (x y : list A) : firstn (length x) (x ++ y) = x.
Proof. induction x as [|c x IH]; simpl; [reflexivity|f_equal; exact IH]. Qed.

Lemma skipn_le_app (A : Type) (x y : list A) (k : nat) :
  k <= length x -> skipn k (x ++ y) = skipn k x ++ y.
Proof.
  intros H. rewrite skipn_app. replace (k - length x) with 0 by lia. reflexivity.
Qed.

Lemma str_eqb_refl (a : str) : Py.str_eqb a a = true.
Proof.
  induction a as [|x a IH]; simpl; [reflexivity|].
  rewrite Ascii.eqb_refl. exact IH.
Qed.

Lemma str_eqb_eq (a b : str) : Py.str_eqb a b = true <-> a = b.
Proof.
  split.
  - revert b. induction a as [|x a IH]; intros [|y b]; simpl; try discriminate.
    + reflexivity.
    + intros H. apply andb_true_iff in H. destruct H as [Hx Hab].
      apply Ascii.eqb_eq in Hx. subst y. f_equal. apply IH. exact Hab.
  - intros ->. apply str_eqb_refl.
Qed.

Lemma str_eqb_neq (a b : str) : Py.str_eqb a b = false <-> a <> b.
Proof.
  split.
  - intros H E. apply str_eqb_eq in E. congruence.
  - intros H. destruct (Py.str_eqb a b) eqn:E; [|reflexivity].
    apply str_eqb_eq in E. contradiction.
Qed.

Lemma pages_page_save_same (w : Site) (p : Page) (summary : str) :
  pages (page_save w p summary) (p_title p) = page_text w p.
Proof. simpl. rewrite str_eqb_refl. reflexivity. Qed.

Lemma pages_page_save_other (w : Site) (p : Page) (summary name : str) :
  name <> p_title p -> pages (page_save w p summary) name = pages w name.
Proof.
  intros H. simpl. apply str_eqb_neq in H. rewrite H. reflexivity.
Qed.

(** ** The embedding on sample inputs *)

Example heading_lines :
  map _find_title [lit "==A=="; lit "= A = "; lit "=="; lit "==A==  "; lit "=";
                   lit "x==A=="; lit "==a=b=="]
  = [true; true; true; false; false; false; false].
Proof. vm_compute. reflexivity. Qed.

Example content_start_name :
  _find_list_content_start (lit "see {{ListGenBot-SourceStart|Fruit}} here")
  = Some (lit "Fruit").
Proof. vm_compute. reflexivity. Qed.

Example sorted_lines :
  Py.sorted [lit "banana"; lit "apple"; lit "cherry"; lit "app"]
  = [lit "app"; lit "apple"; lit "banana"; lit "cherry"].
Proof. vm_compute. reflexivity. Qed.

Example alphabetical_render :
  render Sample.wiki (lit "{{ListGenBot-ListAlphabeticalStart|X}}
{{ListGenBot-ListAlphabeticalEnd}}")
  = lit "{{ListGenBot-ListAlphabeticalStart|X}}
apple
banana
cherry
{{ListGenBot-ListAlphabeticalEnd}}".
Proof. vm_compute. reflexivity. Qed.

Example sectioned_render :
  render Sample.wiki (lit "{{ListGenBot-ListSectionedStart|X}}
{{ListGenBot-ListSectionedEnd}}")
  = lit "{{ListGenBot-ListSectionedStart|X}}
===([[A]])===
banana
apple
===([[B]])===
cherry
{{ListGenBot-ListSectionedEnd}}".
Proof. vm_compute. reflexivity. Qed.

(** A page with one closed content block: the block is merged into the
    list page under the heading of the source title; the heading line
    inside the block is skipped. *)
Example scan_and_merge :
  let w := MkSite (fun name => if Py.str_eqb name (lit "T")
                               then lit "{{ListGenBot-SourceStart|Foo}}
pear
== sub ==
plum
{{ListGenBot-SourceEnd}}"
                               else []) [] in
  pages (main_function w (lit "T")) (lit "ListGenBot Foo") = lit "==T==
pear
plum".
Proof. vm_compute. reflexivity. Qed.

(** ** The render step of [main_function] *)

(** The comparison that guards [page.save('Render lists')] reads back the
    text that was just assigned, so the guard is never true. *)
Lemma render_page_never_saves (w : Site) (page_name : str) :
  render_page w page_name = w.
Proof.
  unfold render_page, page_set_text, page_text. simpl.
  rewrite str_eqb_refl. reflexivity.
Qed.

(** ** The scanner *)

Lemma scan_lines_app (page : str) (st : scan_state) (l1 l2 : list str) :
  scan_lines page st (l1 ++ l2) = scan_lines page (scan_lines page st l1) l2.
Proof. unfold scan_lines. apply fold_left_app. Qed.

(** A line that is not a content-end marker never calls [_add_to_list]. *)
Lemma scan_line_no_end (page : str) (st : scan_state) (line : str) :
  _find_list_content_end line = false ->
  site (scan_line page st line) = site st.
Proof.
  intros Hend. unfold scan_line.
  destruct (in_list st) as [[|c name]|]; simpl; try reflexivity.
  rewrite Hend. destruct (negb (_find_title line)); reflexivity.
Qed.

(** Inside a block, a line that is not a content-end marker leaves the
    scanner inside the same block. *)
Lemma scan_line_stays_inside (page : str) (st : scan_state) (line name : str) :
  name <> [] ->
  in_list st = Some name ->
  _find_list_content_end line = false ->
  in_list (scan_line page st line) = Some name.
Proof.
  intros Hne Hin Hend. unfold scan_line. rewrite Hin.
  destruct name as [|c name]; [contradiction|].
  rewrite Hend. destruct (negb (_find_title line)); simpl; auto.
Qed.

Lemma scan_lines_no_end (page : str) (rest : list str) :
  Forall (fun l => _find_list_content_end l = false) rest ->
  forall st, site (scan_lines page st rest) = site st.
Proof.
  induction 1 as [|line rest Hline _ IH]; intros st; [reflexivity|].
  unfold scan_lines in *. simpl. rewrite IH.
  apply scan_line_no_end. exact Hline.
Qed.

Lemma scan_lines_stays_inside (page : str) (name : str) (rest : list str) :
  name <> [] ->
  Forall (fun l => _find_list_content_end l = false) rest ->
  forall st, in_list st = Some name ->
             in_list (scan_lines page st rest) = Some name.
Proof.
  intros Hne. induction 1 as [|line rest Hline _ IH]; intros st Hin; [exact Hin|].
  unfold scan_lines in *. simpl. apply IH.
  apply scan_line_stays_inside; assumption.
Qed.

(** ** Claims about the scanner *)

(** C8: when the lines of a page are [pre ++ line :: rest], the scanner
    is outside any block after [pre], [line] is a content-start marker
    and no line of [rest] is a content-end marker, the block opened by
    [line] is still open at the end of the page, the scan has made no
    call of [_add_to_list] for it (the site, pages and saves, is the one
    reached after [pre]), and the whole of [main_function] leaves the
    site as it was after [pre]: the accumulated lines are dropped. *)
Theorem unterminated_block_is_dropped
  (w : Site) (page name : str) (pre rest : list str) (line : str) :
  _get_page_text w page = pre ++ line :: rest ->
  Py.truthy_str (in_list (scan_lines page (MkScan None [] w) pre)) = false ->
  _find_list_content_start line = Some name ->
  name <> [] ->
  Forall (fun l => _find_list_content_end l = false) rest ->
  let before := scan_lines page (MkScan None [] w) pre in
  let final := scan_lines page (MkScan None [] w) (pre ++ line :: rest) in
  in_list final = Some name /\
  site final = site before /\
  main_function w page = site before.
Proof.
  intros Htext Hout Hstart Hname Hrest before final.
  assert (Hopen : scan_line page before line
                  = MkScan (Some name) (list_content before) (site before)).
  { unfold scan_line. fold before in Hout.
    destruct (in_list before) as [[|c n]|]; simpl in Hout;
      try discriminate; rewrite Hstart; reflexivity. }
  assert (Hfinal : final = scan_lines page (scan_line page before line) rest).
  { unfold final. rewrite scan_lines_app. reflexivity. }
  assert (Hsite : site final = site before).
  { rewrite Hfinal, scan_lines_no_end by exact Hrest. rewrite Hopen. reflexivity. }
  split; [|split].
  - rewrite Hfinal. apply scan_lines_stays_inside; try assumption.
    rewrite Hopen. reflexivity.
  - exact Hsite.
  - unfold main_function. rewrite Htext. fold final.
    rewrite render_page_never_saves. exact Hsite.
Qed.

Lemma unterminated_block_is_dropped_witness :
  let w := Sample.wiki in
  let page := lit "Unterminated" in
  let before := scan_lines page (MkScan None [] w) [lit "intro"] in
  let final := scan_lines page (MkScan None [] w)
                 ([lit "intro"] ++ lit "{{ListGenBot-SourceStart|X}}" :: [lit "pear"; lit "plum"]) in
  in_list final = Some (lit "X") /\
  site final = site before /\
  main_function w page = site before.
Proof.
  apply (@unterminated_block_is_dropped Sample.wiki (lit "Unterminated") (lit "X")
           [lit "intro"] [lit "pear"; lit "plum"] (lit "{{ListGenBot-SourceStart|X}}")).
  - reflexivity.
  - reflexivity.
  - reflexivity.
  - discriminate.
  - repeat constructor.
Defined.

(** C10: inside a content block, a line that matches the content-start
    marker and is neither a content-end marker nor a heading is appended
    as it is to the accumulated lines; the scanner stays in the same
    block, under the list name it had, and the site is not touched. *)
Theorem start_marker_inside_block_is_content
  (page : str) (w : Site) (name other : str) (acc : list str) (line : str) :
  name <> [] ->
  _find_list_content_start line = Some other ->
  _find_list_content_end line = false ->
  _find_title line = false ->
  scan_line page (MkScan (Some name) acc w) line
  = MkScan (Some name) (acc ++ [line]) w.
Proof.
  intros Hname _ Hend Htitle. unfold scan_line. simpl.
  destruct name as [|c name]; [contradiction|].
  rewrite Hend, Htitle. reflexivity.
Qed.

Lemma start_marker_inside_block_is_content_witness :
  scan_line (lit "Doc") (MkScan (Some (lit "X")) [lit "pear"] Sample.wiki)
            (lit "{{ListGenBot-SourceStart|Y}}")
  = MkScan (Some (lit "X")) ([lit "pear"] ++ [lit "{{ListGenBot-SourceStart|Y}}"]) Sample.wiki.
Proof.
  apply (@start_marker_inside_block_is_content (lit "Doc") Sample.wiki (lit "X") (lit "Y")
           [lit "pear"] (lit "{{ListGenBot-SourceStart|Y}}")).
  - discriminate.
  - reflexivity.
  - reflexivity.
  - reflexivity.
Defined.

(** ** Claims about the batch runner *)

Lemma last_cons (A : Type) (l : list A) (a d : A) : last (a :: l) d = last l a.
Proof.
  revert a d. induction l as [|b l IH]; intros a d; [reflexivity|].
  change (last (a :: b :: l) d) with (last (b :: l) d).
  rewrite (IH b d), (IH b a). reflexivity.
Qed.

Lemma run_pages_fst (titles : list str) (w : Site) (seen : str) :
  fst (fold_left (fun acc page => (page, main_function (snd acc) page))
                 titles (seen, w))
  = last titles seen.
Proof.
  revert w seen. induction titles as [|t titles IH]; intros w seen; [reflexivity|].
  simpl fold_left. rewrite IH. symmetry. apply last_cons.
Qed.

Lemma pages_set_page_start (ref : str) (w : Site) (new_start : str) :
  pages (_set_page_start ref w new_start) ref = new_start.
Proof.
  unfold _set_page_start. rewrite (pages_page_save_same w). reflexivity.
Qed.

(** C9: after [run], the text of the cursor page is empty when the
    enumerator gave fewer than [PAGES_TO_GO_THROUGH] titles, and is the
    last title of the batch when it gave exactly that many. *)
Theorem cursor_after_run
  (reference_page_title : str) (_pages_from : Site -> str -> list str) (w : Site) :
  let titles := _pages_from w (_get_page_start reference_page_title w) in
  let w' := run reference_page_title _pages_from w in
  (length titles < PAGES_TO_GO_THROUGH -> pages w' reference_page_title = []) /\
  (length titles = PAGES_TO_GO_THROUGH ->
   pages w' reference_page_title = last titles []).
Proof.
  intros titles w'.
  assert (Hrun : w' = if length titles <? PAGES_TO_GO_THROUGH
                      then _set_page_start reference_page_title
                             (snd (run_pages w titles)) []
                      else _set_page_start reference_page_title
                             (snd (run_pages w titles)) (last titles [])).
  { unfold w', run. fold titles.
    rewrite <- (run_pages_fst titles w []).
    change (fold_left _ titles ([], w)) with (run_pages w titles).
    destruct (run_pages w titles); reflexivity. }
  rewrite Hrun. split; intros Hlen.
  - apply Nat.ltb_lt in Hlen. rewrite Hlen. apply pages_set_page_start.
  - assert (Hge : (length titles <? PAGES_TO_GO_THROUGH) = false)
      by (apply Nat.ltb_ge; lia).
    rewrite Hge. apply pages_set_page_start.
Qed.

Lemma cursor_after_run_witness :
  pages (run STORAGE_PAGE (Sample.enumerate Sample.short_batch) Sample.wiki) STORAGE_PAGE = [] /\
  pages (run STORAGE_PAGE (Sample.enumerate Sample.full_batch) Sample.wiki) STORAGE_PAGE
  = lit "Page Y".
Proof.
  split.
  - apply (proj1 (@cursor_after_run STORAGE_PAGE (Sample.enumerate Sample.short_batch)
                    Sample.wiki)).
    unfold Sample.enumerate, Sample.short_batch, PAGES_TO_GO_THROUGH. simpl. lia.
  - apply (proj2 (@cursor_after_run STORAGE_PAGE (Sample.enumerate Sample.full_batch)
                    Sample.wiki)).
    reflexivity.
Defined.

(** ** The section scan of [_add_to_list] *)

Lemma _add_to_list_text (w : Site) (content : list str) (section list_name : str) :
  pages (_add_to_list w content section list_name) (list_page_name list_name)
  = Py.join_nl (added_lines (_get_page_text w (list_page_name list_name))
                            content section).
Proof.
  unfold _add_to_list. rewrite pages_page_save_same. reflexivity.
Qed.

Lemma _add_to_list_other (w : Site) (content : list str) (section list_name name : str) :
  name <> list_page_name list_name ->
  pages (_add_to_list w content section list_name) name = pages w name.
Proof.
  intros H. unfold _add_to_list. apply pages_page_save_other. exact H.
Qed.

(** Lines without the heading leave [start] as it is, unless a heading
    line ends the scan. *)
Lemma find_section_none (section : str) (lines : list str) :
  ~ In section lines ->
  forall line_no, find_section section lines line_no None = (None, None).
Proof.
  induction lines as [|l lines IH]; intros Hin line_no; [reflexivity|].
  simpl. destruct (Py.str_eqb l section) eqn:E.
  - apply str_eqb_eq in E. subst l. exfalso. apply Hin. left. reflexivity.
  - apply IH. intros H. apply Hin. right. exact H.
Qed.

Lemma find_section_zero (section : str) (lines : list str) :
  ~ In section lines ->
  forall line_no, find_section section lines line_no (Some 0) = (Some 0, None).
Proof.
  induction lines as [|l lines IH]; intros Hin line_no; [reflexivity|].
  simpl. destruct (Py.str_eqb l section) eqn:E.
  - apply str_eqb_eq in E. subst l. exfalso. apply Hin. left. reflexivity.
  - apply IH. intros H. apply Hin. right. exact H.
Qed.

(** When the heading is not a line of the page, [start] stays [None]
    and [del page_lines[start:]] deletes every line. *)
Lemma remove_section_absent (section : str) (page_lines : list str) :
  ~ In section page_lines -> remove_section section page_lines = [].
Proof.
  intros H. unfold remove_section. rewrite find_section_none by exact H.
  unfold Py.del_slice. cbn [firstn app Nat.max]. apply skipn_all.
Qed.

(** When the heading is the first line and nowhere else, [start] is 0,
    which the scan takes for "not found yet": no later heading line
    ends the section and every line is deleted. *)
Lemma remove_section_first (section : str) (lines : list str) :
  ~ In section lines -> remove_section section (section :: lines) = [].
Proof.
  intros H. unfold remove_section. simpl find_section.
  rewrite str_eqb_refl, find_section_zero by exact H.
  unfold Py.del_slice. cbn [firstn app Nat.max]. apply skipn_all.
Qed.

(** Where the scan works: the heading is found after the first line. *)

Lemma find_section_skip (section : str) (before lines : list str) :
  ~ In section before ->
  forall line_no,
    find_section section (before ++ lines) line_no None
    = find_section section lines (line_no + length before) None.
Proof.
  induction before as [|l before IH]; intros Hin line_no; simpl.
  - rewrite Nat.add_0_r. reflexivity.
  - destruct (Py.str_eqb l section) eqn:E.
    + apply str_eqb_eq in E. subst l. exfalso. apply Hin. left. reflexivity.
    + rewrite IH by (intros H; apply Hin; right; exact H). f_equal. lia.
Qed.

(** The lines of a section body: not the heading, not a heading line. *)
Definition body_line (section : str) (l : str) : Prop :=
  l <> section /\ _find_title l = false.

Lemma find_section_body (section : str) (body lines : list str) (start : option nat) :
  Forall (body_line section) body ->
  forall line_no,
    find_section section (body ++ lines) line_no start
    = find_section section lines (line_no + length body) start.
Proof.
  induction 1 as [|l body [Hl Ht] _ IH]; intros line_no; simpl.
  - rewrite Nat.add_0_r. reflexivity.
  - apply str_eqb_neq in Hl. rewrite Hl, Ht, andb_false_r, IH. f_equal. lia.
Qed.

(** The section is the last one of the page: it is cut to the end. *)
Lemma remove_section_last (section : str) (before body : list str) :
  ~ In section before ->
  Forall (body_line section) body ->
  remove_section section (before ++ section :: body) = before.
Proof.
  intros Hin Hbody. unfold remove_section.
  rewrite find_section_skip by exact Hin. simpl find_section.
  rewrite str_eqb_refl.
  rewrite <- (app_nil_r body) at 1. rewrite find_section_body by exact Hbody.
  simpl find_section. unfold Py.del_slice.
  rewrite firstn_length_app. rewrite skipn_all2 by apply Nat.le_max_r.
  apply app_nil_r.
Qed.

(** The section is followed by another one: it is cut up to the next
    heading line, provided it does not start at the first line. *)
Lemma remove_section_inner (section : str) (before body : list str) (next : str)
  (after : list str) :
  before <> [] ->
  ~ In section before ->
  Forall (body_line section) body ->
  next <> section -> _find_title next = true ->
  remove_section section (before ++ section :: body ++ next :: after)
  = before ++ next :: after.
Proof.
  intros Hne Hin Hbody Hnext Htitle. unfold remove_section.
  rewrite find_section_skip by exact Hin. simpl find_section.
  rewrite str_eqb_refl, find_section_body by exact Hbody.
  simpl find_section. apply str_eqb_neq in Hnext. rewrite Hnext, Htitle.
  destruct before as [|b before]; [contradiction|].
  change (length (b :: before)) with (S (length before)). cbn [andb].
  unfold Py.del_slice.
  replace (S (length before) + length body - 0 + 1)
    with (length (b :: before) + length (section :: body)) by (simpl; lia).
  rewrite Nat.max_r by (simpl; lia).
  change (S (length before)) with (length (b :: before)).
  rewrite firstn_length_app, skipn_length_app_add.
  change (section :: body ++ next :: after)
    with ((section :: body) ++ next :: after).
  rewrite skipn_length_app. reflexivity.
Qed.

(** After the heading, the scan ends at the end of the page or at the
    first heading line. *)
Lemma find_section_after (section : str) (lines : list str) :
  ~ In section lines ->
  forall line_no start,
    1 <= line_no ->
    find_section section lines line_no (Some start) = (Some start, None) \/
    exists k, k < length lines /\
              find_section section lines line_no (Some start)
              = (Some start, Some (line_no + k - 1)).
Proof.
  induction lines as [|l lines IH]; intros Hin line_no start Hn; [left; reflexivity|].
  cbn [find_section]. destruct (Py.str_eqb l section) eqn:E.
  - apply str_eqb_eq in E. subst l. exfalso. apply Hin. left. reflexivity.
  - destruct (Py.truthy_int (Some start) && _find_title l).
    + right. exists 0. split; [simpl; lia|]. rewrite Nat.add_0_r. reflexivity.
    + destruct (IH (fun H => Hin (or_intror H)) (S line_no) start) as [H|(k & Hk & H)];
        [lia|left; exact H|].
      right. exists (S k). split; [simpl; lia|]. rewrite H. do 2 f_equal. lia.
Qed.

Lemma in_firstn (A : Type) (x : A) (k : nat) (l : list A) : In x (firstn k l) -> In x l.
Proof.
  intros H. rewrite <- (firstn_skipn k l). apply in_or_app. left. exact H.
Qed.

Lemma in_skipn (A : Type) (x : A) (k : nat) (l : list A) : In x (skipn k l) -> In x l.
Proof.
  intros H. rewrite <- (firstn_skipn k l). apply in_or_app. right. exact H.
Qed.

(** Whatever the scan finds, what is left are lines of the page. *)
Lemma in_remove_section (section : str) (page_lines : list str) (x : str) :
  In x (remove_section section page_lines) -> In x page_lines.
Proof.
  unfold remove_section, Py.del_slice.
  destruct (find_section section page_lines 0 None) as [[start|] [end_|]];
    intros H; try exact H;
    apply in_app_or in H; destruct H as [H|H];
    solve [eapply in_firstn; exact H | eapply in_skipn; exact H].
Qed.

(** The heading occurs at most once among the lines. *)
Definition at_most_once (section : str) (lines : list str) : Prop :=
  ~ In section lines \/
  exists before after, lines = before ++ section :: after /\
                       ~ In section before /\ ~ In section after.

(** Once the section is cut, the heading is gone. *)
Lemma remove_section_no_heading (section : str) (page_lines : list str) :
  at_most_once section page_lines ->
  ~ In section (remove_section section page_lines).
Proof.
  intros [H|(before & after & -> & Hb & Ha)].
  - rewrite remove_section_absent by exact H. intros [].
  - unfold remove_section. rewrite find_section_skip by exact Hb.
    simpl find_section. rewrite str_eqb_refl.
    destruct (@find_section_after section after Ha (S (length before)) (length before))
      as [E|(k & Hk & E)]; [lia| |]; rewrite E; unfold Py.del_slice.
    + rewrite firstn_length_app, skipn_all2 by apply Nat.le_max_r.
      rewrite app_nil_r. exact Hb.
    + rewrite firstn_length_app.
      replace (S (length before) + k - 1 + 1) with (length before + S k) by lia.
      rewrite Nat.max_r by lia. rewrite skipn_length_app_add. simpl skipn.
      intros H. apply in_app_or in H. destruct H as [H|H]; [exact (Hb H)|].
      apply in_skipn in H. exact (Ha H).
Qed.

(** Where upsert is idempotent: a block with at least one line, all of
    them body lines, merged into a page that holds its heading at most
    once, is merged again without any change to the lines. *)
Lemma added_lines_twice (page_lines content : list str) (title : str) :
  content <> [] ->
  Forall (body_line (section_of title)) content ->
  at_most_once (section_of title) page_lines ->
  added_lines (added_lines page_lines content title) content title
  = added_lines page_lines content title.
Proof.
  intros Hne Hbody Honce. unfold added_lines.
  pose proof (remove_section_no_heading Honce) as Hgone.
  set (kept := remove_section (section_of title) page_lines) in *.
  destruct content as [|c content]; [contradiction|].
  unfold add_content. rewrite <- !app_assoc. simpl app.
  rewrite remove_section_last by assumption. reflexivity.
Qed.

(** ** The code at the inputs where it leaves the specification *)

(** C2 at the page [Stale]: the rendered text differs from the stored
    text, and [main_function] neither changes the page nor saves
    anything. *)
Theorem render_result_is_not_saved :
  let w := Sample.wiki in
  let title := lit "Stale" in
  render w (pages w title) <> pages w title /\
  pages (main_function w title) title = pages w title /\
  saves (main_function w title) = [].
Proof.
  split; [|split].
  - vm_compute. discriminate.
  - vm_compute. reflexivity.
  - vm_compute. reflexivity.
Qed.

(** C3 at the list page [ListGenBot X] (sections [A] and [B]) and the
    block of source [C] with the line [kiwi]: the sections [A] and [B]
    are deleted; the new section is appended. *)
Theorem absent_heading_deletes_all_sections :
  remove_section (section_of (lit "C")) (Py.split_nl Sample.list_X) = [] /\
  pages (_add_to_list Sample.wiki [lit "kiwi"] (lit "C") (lit "X")) (lit "ListGenBot X")
  = lit "==C==
kiwi".
Proof. split; vm_compute; reflexivity. Qed.

(** C4 at the same list page and the empty block of source [A], whose
    section starts at the first line: the section [B] is deleted too. *)
Theorem first_section_removal_deletes_the_rest :
  find_section (section_of (lit "A")) (Py.split_nl Sample.list_X) 0 None
  = (Some 0, None) /\
  pages (_add_to_list Sample.wiki [] (lit "A") (lit "X")) (lit "ListGenBot X") = [].
Proof. split; vm_compute; reflexivity. Qed.

(** C6 at the same list page and the empty block of source [B]: one
    upsert leaves section [A], a second one deletes it. *)
Theorem empty_upsert_twice_differs_from_once :
  let once := _add_to_list Sample.wiki [] (lit "B") (lit "X") in
  let twice := _add_to_list once [] (lit "B") (lit "X") in
  pages once (lit "ListGenBot X") = lit "==A==
banana
apple" /\
  pages twice (lit "ListGenBot X") = [].
Proof. split; vm_compute; reflexivity. Qed.

(** C5 at the page [Two]: the pattern matches once, from the first open
    marker to the last close marker, and the render pass replaces that
    whole span; the first close marker and the second open marker are
    gone, and since the two modes differ the body is empty. *)
Theorem two_directives_are_one_match :
  (exists m, Re.search true list_render_template Sample.two_directives = Some m /\
             Re.m_start m = 0 /\
             Re.rest (Re.m_end m) = [] /\
             Re.group m 2 = lit "Sectioned" /\
             Re.group m 5 = lit "Alphabetical") /\
  render Sample.wiki Sample.two_directives = lit "{{ListGenBot-ListSectionedStart|X}}

{{ListGenBot-ListAlphabeticalEnd}}".
Proof.
  split.
  - eexists. split; [vm_compute; reflexivity|]. repeat split.
  - vm_compute. reflexivity.
Qed.

(* ================================================================= *)
(** * The matcher *)

Section MatcherFacts.

Variable multiline : bool.

Lemma star_loop_ext
  (body : Re.mstate -> (Re.mstate -> option Re.mstate) -> option Re.mstate)
  (k1 k2 : Re.mstate -> option Re.mstate) :
  (forall st c1 c2, (forall x, c1 x = c2 x) -> body st c1 = body st c2) ->
  (forall x, k1 x = k2 x) ->
  forall fuel st, Re.star_loop body k1 fuel st = Re.star_loop body k2 fuel st.
Proof.
  intros Hbody Hk. induction fuel as [|fuel IH]; intros st; simpl.
  - apply Hk.
  - rewrite (Hbody st _ (fun st' =>
               if length (Re.rest st') <? length (Re.rest st)
               then Re.star_loop body k2 fuel st' else None)).
    + rewrite Hk. reflexivity.
    + intros x. destruct (_ <? _); [apply IH|reflexivity].
Qed.

(** The matcher only looks at what its continuation answers. *)
Lemma rmatch_ext (r : Re.regex) :
  forall st k1 k2, (forall x, k1 x = k2 x) -> Re.rmatch multiline r st k1 = Re.rmatch multiline r st k2.
Proof.
  induction r as [| c | | c | a IHa b IHb | a IHa | a IHa | n a IHa | |];
    intros st k1 k2 Hk; [simpl | simpl | simpl | simpl | simpl | | simpl | simpl | simpl | simpl].
  - apply Hk.
  - destruct (Re.rest st) as [|x s]; [reflexivity|].
    destruct (Ascii.eqb x c); [apply Hk|reflexivity].
  - destruct (Re.rest st) as [|x s]; [reflexivity|].
    destruct (Ascii.eqb x nl); [reflexivity|apply Hk].
  - destruct (Re.rest st) as [|x s]; [reflexivity|].
    destruct (Ascii.eqb x c); [reflexivity|apply Hk].
  - apply IHa. intros x. apply IHb. exact Hk.
  - change (Re.star_loop (Re.rmatch multiline a) k1 (S (length (Re.rest st))) st
            = Re.star_loop (Re.rmatch multiline a) k2 (S (length (Re.rest st))) st).
    apply star_loop_ext; assumption.
  - rewrite (IHa st k1 k2 Hk), Hk. reflexivity.
  - apply IHa. intros x. apply Hk.
  - rewrite Hk. reflexivity.
  - rewrite Hk. reflexivity.
Qed.

(** Any fuel above the length of the text left gives the same loop. *)
Lemma star_loop_fuel (a : Re.regex) (k : Re.mstate -> option Re.mstate) :
  forall f1 f2 st,
    length (Re.rest st) < f1 -> length (Re.rest st) < f2 ->
    Re.star_loop (Re.rmatch multiline a) k f1 st = Re.star_loop (Re.rmatch multiline a) k f2 st.
Proof.
  induction f1 as [|f1 IH]; intros f2 st H1 H2; [lia|].
  destruct f2 as [|f2]; [lia|]. simpl.
  rewrite (rmatch_ext a st _ (fun st' =>
             if length (Re.rest st') <? length (Re.rest st)
             then Re.star_loop (Re.rmatch multiline a) k f2 st' else None)).
  - reflexivity.
  - intros x. destruct (_ <? _) eqn:E; [|reflexivity].
    apply Nat.ltb_lt in E. apply IH; lia.
Qed.

(** A greedy repetition: one more iteration if it reads something and
    the rest succeeds, otherwise stop here. *)
Lemma rmatch_star (a : Re.regex) (st : Re.mstate) (k : Re.mstate -> option Re.mstate) :
  Re.rmatch multiline (Re.Star a) st k
  = match Re.rmatch multiline a st (fun st' =>
                         if length (Re.rest st') <? length (Re.rest st)
                         then Re.rmatch multiline (Re.Star a) st' k else None) with
    | Some e => Some e
    | None => k st
    end.
Proof.
  change (Re.rmatch multiline (Re.Star a) st k)
    with (Re.star_loop (Re.rmatch multiline a) k (S (length (Re.rest st))) st).
  cbn [Re.star_loop].
  rewrite (rmatch_ext a st _ (fun st' =>
             if length (Re.rest st') <? length (Re.rest st)
             then Re.star_loop (Re.rmatch multiline a) k (S (length (Re.rest st'))) st'
             else None)).
  - reflexivity.
  - intros x. destruct (_ <? _) eqn:E; [|reflexivity].
    apply Nat.ltb_lt in E. apply star_loop_fuel; lia.
Qed.

End MatcherFacts.

(** ** Positions, prefixes and ordered search *)

Lemma skip_rest (n : nat) : forall st, Re.rest (skip n st) = skipn n (Re.rest st).
Proof.
  induction n as [|n IH]; intros st; [reflexivity|].
  simpl skip. rewrite IH. unfold Re.advance.
  destruct (Re.rest st) as [|c s] eqn:E; simpl.
  - rewrite E. apply skipn_nil.
  - reflexivity.
Qed.

Lemma skip_marks (n : nat) : forall st, Re.marks (skip n st) = Re.marks st.
Proof.
  induction n as [|n IH]; intros st; [reflexivity|].
  simpl skip. rewrite IH. unfold Re.advance.
  destruct (Re.rest st); reflexivity.
Qed.

Lemma skip_pos (n : nat) :
  forall st, n <= length (Re.rest st) -> Re.pos (skip n st) = Re.pos st + n.
Proof.
  induction n as [|n IH]; intros st Hn; [simpl; lia|].
  simpl skip. unfold Re.advance.
  destruct (Re.rest st) as [|c s] eqn:E; simpl in Hn; [lia|].
  rewrite IH; simpl; lia.
Qed.

Lemma skip_add (a : nat) : forall b st, skip (a + b) st = skip b (skip a st).
Proof.
  induction a as [|a IH]; intros b st; [reflexivity|].
  simpl. apply IH.
Qed.

Lemma skip_succ (n : nat) (st : Re.mstate) : skip (S n) st = Re.advance (skip n st).
Proof.
  replace (S n) with (n + 1) by lia. rewrite skip_add. reflexivity.
Qed.

Lemma prefixb_app (s u : str) : prefixb s (s ++ u) = true.
Proof.
  induction s as [|c s IH]; simpl; [reflexivity|].
  rewrite Ascii.eqb_refl. exact IH.
Qed.

Lemma prefixb_true (s u : str) :
  prefixb s u = true -> u = s ++ skipn (length s) u.
Proof.
  revert u. induction s as [|c s IH]; intros u H; [reflexivity|].
  destruct u as [|x u]; simpl in H; [discriminate|].
  apply andb_true_iff in H. destruct H as [Hx Hs].
  apply Ascii.eqb_eq in Hx. subst x. simpl. f_equal. apply IH. exact Hs.
Qed.

Lemma first_down_shift (A : Type) (f : nat -> option A) (n : nat) :
  first_down f (S n)
  = match first_down (fun i => f (S i)) n with
    | Some e => Some e
    | None => f 0
    end.
Proof.
  induction n as [|n IH].
  - simpl. destruct (f 1); [reflexivity|]. destruct (f 0); reflexivity.
  - change (first_down f (S (S n)))
      with (match f (S (S n)) with Some e => Some e | None => first_down f (S n) end).
    rewrite IH. simpl. destruct (f (S (S n))); reflexivity.
Qed.

Lemma first_down_ext (A : Type) (f g : nat -> option A) (n : nat) :
  (forall i, i <= n -> f i = g i) -> first_down f n = first_down g n.
Proof.
  induction n as [|n IH]; intros H; simpl.
  - rewrite (H 0) by lia. reflexivity.
  - rewrite (H (S n)) by lia. rewrite IH; [reflexivity|].
    intros i Hi. apply H. lia.
Qed.

Lemma first_down_none (A : Type) (f : nat -> option A) (n : nat) :
  first_down f n = None <-> (forall i, i <= n -> f i = None).
Proof.
  induction n as [|n IH]; simpl.
  - split.
    + intros H i Hi. replace i with 0 by lia. destruct (f 0); congruence.
    + intros H. rewrite (H 0) by lia. reflexivity.
  - split.
    + intros H i Hi. destruct (f (S n)) eqn:E; [discriminate|].
      destruct (Nat.eq_dec i (S n)) as [->|Hne]; [exact E|].
      apply IH; [exact H|lia].
    + intros H. rewrite (H (S n)) by lia. apply IH. intros i Hi. apply H. lia.
Qed.

Lemma first_down_some (A : Type) (f : nat -> option A) (n : nat) (e : A) :
  first_down f n = Some e <->
  exists i, i <= n /\ f i = Some e /\ forall j, i < j -> j <= n -> f j = None.
Proof.
  induction n as [|n IH]; simpl.
  - split.
    + intros H. exists 0. split; [lia|]. split.
      * destruct (f 0); congruence.
      * intros j Hj1 Hj2. lia.
    + intros (i & Hi & Hf & _). replace i with 0 in Hf by lia.
      rewrite Hf. reflexivity.
  - split.
    + intros H. destruct (f (S n)) eqn:E.
      * exists (S n). split; [lia|]. split; [congruence|]. intros j Hj1 Hj2. lia.
      * apply IH in H. destruct H as (i & Hi & Hf & Hmax).
        exists i. split; [lia|]. split; [exact Hf|].
        intros j Hj1 Hj2. destruct (Nat.eq_dec j (S n)) as [->|Hne]; [exact E|].
        apply Hmax; lia.
    + intros (i & Hi & Hf & Hmax).
      destruct (Nat.eq_dec i (S n)) as [->|Hne].
      * rewrite Hf. reflexivity.
      * rewrite (Hmax (S n)) by lia. apply IH.
        exists i. split; [lia|]. split; [exact Hf|].
        intros j Hj1 Hj2. apply Hmax; lia.
Qed.

Lemma last_idx_none (p : nat -> bool) (n : nat) :
  last_idx p n = None <-> (forall i, i <= n -> p i = false).
Proof.
  induction n as [|n IH]; simpl.
  - split.
    + intros H i Hi. replace i with 0 by lia. destruct (p 0); congruence.
    + intros H. rewrite (H 0) by lia. reflexivity.
  - split.
    + intros H i Hi. destruct (p (S n)) eqn:E; [discriminate|].
      destruct (Nat.eq_dec i (S n)) as [->|Hne]; [exact E|].
      apply IH; [exact H|lia].
    + intros H. rewrite (H (S n)) by lia. apply IH. intros i Hi. apply H. lia.
Qed.

Lemma last_idx_some (p : nat -> bool) (n i : nat) :
  last_idx p n = Some i <->
  i <= n /\ p i = true /\ forall j, i < j -> j <= n -> p j = false.
Proof.
  induction n as [|n IH]; simpl.
  - split.
    + intros H. destruct (p 0) eqn:E; [|discriminate].
      injection H as <-. split; [lia|]. split; [exact E|]. intros j Hj1 Hj2. lia.
    + intros (Hi & Hp & _). replace i with 0 in * by lia. rewrite Hp. reflexivity.
  - split.
    + intros H. destruct (p (S n)) eqn:E.
      * injection H as <-. split; [lia|]. split; [exact E|]. intros j Hj1 Hj2. lia.
      * apply IH in H. destruct H as (Hi & Hp & Hmax).
        split; [lia|]. split; [exact Hp|].
        intros j Hj1 Hj2. destruct (Nat.eq_dec j (S n)) as [->|Hne]; [exact E|].
        apply Hmax; lia.
    + intros (Hi & Hp & Hmax).
      destruct (Nat.eq_dec i (S n)) as [->|Hne].
      * rewrite Hp. reflexivity.
      * rewrite (Hmax (S n)) by lia. apply IH.
        split; [lia|]. split; [exact Hp|].
        intros j Hj1 Hj2. apply Hmax; lia.
Qed.

(** An ordered search whose answers are there exactly where [p] holds
    stops at the greatest index with [p]. *)
Lemma first_down_last_idx (A : Type) (f : nat -> option A) (p : nat -> bool) (n : nat) :
  (forall i, i <= n -> (f i = None <-> p i = false)) ->
  first_down f n = match last_idx p n with
                   | Some i => f i
                   | None => None
                   end.
Proof.
  induction n as [|n IH]; intros H; simpl.
  - destruct (p 0) eqn:E.
    + destruct (f 0); reflexivity.
    + rewrite (proj2 (H 0 (Nat.le_refl 0)) E). reflexivity.
  - destruct (p (S n)) eqn:E.
    + destruct (f (S n)) eqn:F; [reflexivity|].
      apply (H (S n)) in F; [congruence|lia].
    + rewrite (proj2 (H (S n) (Nat.le_refl _)) E). apply IH.
      intros i Hi. apply H. lia.
Qed.

Lemma first_down_split (A : Type) (f : nat -> option A) (m d : nat) :
  first_down f (S m + d)
  = match first_down (fun i => f (S m + i)) d with
    | Some e => Some e
    | None => first_down f m
    end.
Proof.
  induction d as [|d IH].
  - simpl. rewrite Nat.add_0_r. destruct (f (S m)); reflexivity.
  - replace (S m + S d) with (S (S m + d)) by lia.
    change (first_down f (S (S m + d)))
      with (match f (S (S m + d)) with
            | Some e => Some e
            | None => first_down f (S m + d)
            end).
    rewrite IH.
    change (first_down (fun i => f (S m + i)) (S d))
      with (match f (S m + S d) with
            | Some e => Some e
            | None => first_down (fun i => f (S m + i)) d
            end).
    replace (S m + S d) with (S (S m + d)) by lia.
    destruct (f (S (S m + d))); reflexivity.
Qed.

Lemma first_down_top (A : Type) (f : nat -> option A) (n : nat) :
  (forall i, i < n -> f i = None) -> first_down f n = f n.
Proof.
  intros H. destruct n as [|n]; simpl.
  - destruct (f 0); reflexivity.
  - destruct (f (S n)); [reflexivity|].
    apply first_down_none. intros i Hi. apply H. lia.
Qed.

Lemma line_len_le (u : str) : line_len u <= length u.
Proof.
  induction u as [|c u IH]; simpl; [lia|].
  destruct (Ascii.eqb c nl); lia.
Qed.

(** Before the end of the line the next character is not a newline. *)
Lemma skipn_in_line (u : str) :
  forall i, i < line_len u ->
            exists c r, skipn i u = c :: r /\ Ascii.eqb c nl = false.
Proof.
  induction u as [|x u IH]; intros i Hi; simpl in Hi; [lia|].
  destruct (Ascii.eqb x nl) eqn:E; [lia|].
  destruct i as [|i].
  - exists x, u. split; [reflexivity|exact E].
  - simpl. apply IH. lia.
Qed.

(** At the end of the line there is a newline or nothing. *)
Lemma skipn_line_len (u : str) :
  line_len u < length u -> exists r, skipn (line_len u) u = nl :: r.
Proof.
  induction u as [|x u IH]; simpl; [lia|].
  destruct (Ascii.eqb x nl) eqn:E.
  - intros _. apply Ascii.eqb_eq in E. subst x. exists u. reflexivity.
  - intros H. apply IH. lia.
Qed.

Section MatcherShapes.

Variable multiline : bool.

Lemma rmatch_seq (a b : Re.regex) (st : Re.mstate) (k : Re.mstate -> option Re.mstate) :
  Re.rmatch multiline (Re.Seq a b) st k
  = Re.rmatch multiline a st (fun st' => Re.rmatch multiline b st' k).
Proof. reflexivity. Qed.

Lemma rmatch_group (n : nat) (a : Re.regex) (st : Re.mstate)
  (k : Re.mstate -> option Re.mstate) :
  Re.rmatch multiline (Re.Group n a) st k
  = Re.rmatch multiline a st (fun st' => k (Re.set_mark n st st')).
Proof. reflexivity. Qed.

(** A literal string: it is there or it is not. *)
Lemma rmatch_Lits (s : str) :
  forall st k,
    Re.rmatch multiline (Re.Lits s) st k
    = if prefixb s (Re.rest st) then k (skip (length s) st) else None.
Proof.
  induction s as [|c s IH]; intros st k; [reflexivity|].
  change (Re.rmatch multiline (Re.Lits (c :: s)) st k)
    with (match Re.rest st with
          | x :: _ => if Ascii.eqb x c
                      then Re.rmatch multiline (Re.Lits s) (Re.advance st) k
                      else None
          | [] => None
          end).
  destruct (Re.rest st) as [|x u] eqn:E; [reflexivity|]. simpl prefixb.
  destruct (Ascii.eqb x c); [|reflexivity]. simpl andb.
  rewrite IH. unfold Re.advance at 1. rewrite E. reflexivity.
Qed.

Lemma rmatch_dot (st : Re.mstate) (k : Re.mstate -> option Re.mstate) :
  Re.rmatch multiline Re.Dot st k
  = match Re.rest st with
    | x :: _ => if Ascii.eqb x nl then None else k (Re.advance st)
    | [] => None
    end.
Proof. reflexivity. Qed.

Lemma rmatch_lit (c : ascii) (st : Re.mstate) (k : Re.mstate -> option Re.mstate) :
  Re.rmatch multiline (Re.Lit c) st k
  = match Re.rest st with
    | x :: _ => if Ascii.eqb x c then k (Re.advance st) else None
    | [] => None
    end.
Proof. reflexivity. Qed.

(** Greedy [.*]: the continuation is tried at the end of the line
    first, then one character back, and so on down to the start. *)
Lemma rmatch_star_dot (k : Re.mstate -> option Re.mstate) :
  forall u st,
    Re.rest st = u ->
    Re.rmatch multiline (Re.Star Re.Dot) st k
    = first_down (fun i => k (skip i st)) (line_len u).
Proof.
  induction u as [|x u IH]; intros st E; rewrite rmatch_star, rmatch_dot.
  - rewrite E. simpl. destruct (k st); reflexivity.
  - rewrite E. simpl line_len. destruct (Ascii.eqb x nl) eqn:Ex.
    + simpl. destruct (k st); reflexivity.
    + assert (Ea : Re.rest (Re.advance st) = u)
        by (unfold Re.advance; rewrite E; reflexivity).
      rewrite Ea. simpl length. rewrite (proj2 (Nat.ltb_lt _ _)) by lia.
      rewrite (IH (Re.advance st) Ea). rewrite first_down_shift. reflexivity.
Qed.

(** Greedy [.+]. *)
Lemma rmatch_plus_dot (k : Re.mstate -> option Re.mstate) (st : Re.mstate) :
  Re.rmatch multiline (Re.Plus Re.Dot) st k
  = match line_len (Re.rest st) with
    | 0 => None
    | S n => first_down (fun i => k (skip (S i) st)) n
    end.
Proof.
  unfold Re.Plus. rewrite rmatch_seq, rmatch_dot.
  destruct (Re.rest st) as [|x u] eqn:E; [reflexivity|]. simpl line_len.
  destruct (Ascii.eqb x nl); [reflexivity|].
  apply rmatch_star_dot. unfold Re.advance. rewrite E. reflexivity.
Qed.

(** The rest of a line with its newline: one way only. *)
Lemma rmatch_line_skip (st : Re.mstate) (k : Re.mstate -> option Re.mstate) :
  Re.rmatch multiline (Re.Seq (Re.Star Re.Dot) (Re.Lit nl)) st k
  = if line_len (Re.rest st) <? length (Re.rest st)
    then k (skip (S (line_len (Re.rest st))) st)
    else None.
Proof.
  rewrite rmatch_seq, (@rmatch_star_dot _ (Re.rest st) st eq_refl).
  rewrite first_down_top.
  - rewrite rmatch_lit, skip_rest, skip_succ.
    destruct (line_len (Re.rest st) <? length (Re.rest st)) eqn:E.
    + apply Nat.ltb_lt in E. destruct (skipn_line_len _ E) as [r Hr].
      rewrite Hr, Ascii.eqb_refl. reflexivity.
    + apply Nat.ltb_ge in E. rewrite skipn_all2 by exact E. reflexivity.
  - intros i Hi. rewrite rmatch_lit, skip_rest.
    destruct (skipn_in_line _ Hi) as (c & r & Hr & Hc). rewrite Hr, Hc. reflexivity.
Qed.

(** One or more whole lines, then any part of a line: the continuation
    is tried at every position after the first newline, the last
    position first. *)
Lemma rmatch_lines_then_dots (k : Re.mstate -> option Re.mstate) :
  forall n st,
    length (Re.rest st) <= n ->
    Re.rmatch multiline (Re.Star (Re.Seq (Re.Star Re.Dot) (Re.Lit nl))) st
              (fun st' => Re.rmatch multiline (Re.Star Re.Dot) st' k)
    = first_down (fun i => k (skip i st)) (length (Re.rest st)).
Proof.
  induction n as [|n IH]; intros st Hn.
  - rewrite rmatch_star, rmatch_line_skip.
    destruct (Re.rest st) as [|c u] eqn:E; [|simpl in Hn; lia].
    cbn [line_len length Nat.ltb Nat.leb]. rewrite (@rmatch_star_dot _ [] st E). reflexivity.
  - rewrite rmatch_star, rmatch_line_skip.
    destruct (line_len (Re.rest st) <? length (Re.rest st)) eqn:E.
    + apply Nat.ltb_lt in E.
      assert (Hlen : length (Re.rest (skip (S (line_len (Re.rest st))) st))
                     = length (Re.rest st) - S (line_len (Re.rest st)))
        by (rewrite skip_rest; apply length_skipn).
      rewrite Hlen. rewrite (proj2 (Nat.ltb_lt _ _)) by lia.
      rewrite IH by lia. rewrite Hlen.
      rewrite (@rmatch_star_dot _ (Re.rest st) st eq_refl).
      pose proof (first_down_split (fun i => k (skip i st))
                    (line_len (Re.rest st))
                    (length (Re.rest st) - S (line_len (Re.rest st)))) as Hsplit.
      replace (S (line_len (Re.rest st))
               + (length (Re.rest st) - S (line_len (Re.rest st))))
        with (length (Re.rest st)) in Hsplit by lia.
      rewrite Hsplit.
      rewrite (first_down_ext
                 (fun i => k (skip i (skip (S (line_len (Re.rest st))) st)))
                 (fun i => k (skip (S (line_len (Re.rest st)) + i) st))).
      * reflexivity.
      * intros i _. rewrite skip_add. reflexivity.
    + apply Nat.ltb_ge in E. pose proof (line_len_le (Re.rest st)) as Hle.
      rewrite (@rmatch_star_dot _ (Re.rest st) st eq_refl).
      replace (line_len (Re.rest st)) with (length (Re.rest st)) by lia.
      reflexivity.
Qed.

Lemma rmatch_mid (st : Re.mstate) (k : Re.mstate -> option Re.mstate) :
  Re.rmatch multiline
            (Re.Seq (Re.Plus (Re.Seq (Re.Star Re.Dot) (Re.Lit nl))) (Re.Star Re.Dot)) st k
  = if line_len (Re.rest st) <? length (Re.rest st)
    then first_down (fun i => k (skip (S (line_len (Re.rest st)) + i) st))
                    (length (Re.rest st) - S (line_len (Re.rest st)))
    else None.
Proof.
  change (Re.rmatch multiline
            (Re.Seq (Re.Plus (Re.Seq (Re.Star Re.Dot) (Re.Lit nl))) (Re.Star Re.Dot)) st k)
    with (Re.rmatch multiline (Re.Seq (Re.Star Re.Dot) (Re.Lit nl)) st
            (fun s1 =>
               Re.rmatch multiline (Re.Star (Re.Seq (Re.Star Re.Dot) (Re.Lit nl))) s1
                         (fun st' => Re.rmatch multiline (Re.Star Re.Dot) st' k))).
  rewrite rmatch_line_skip.
  destruct (line_len (Re.rest st) <? length (Re.rest st)) eqn:E; [|reflexivity].
  rewrite (@rmatch_lines_then_dots k (length (Re.rest st))).
  - rewrite skip_rest, length_skipn.
    apply first_down_ext. intros i _. rewrite skip_add. reflexivity.
  - rewrite skip_rest, length_skipn. lia.
Qed.

End MatcherShapes.

(* ================================================================= *)
(** * The render pattern *)

Lemma first_down_guard (A : Type) (p : nat -> bool) (h : nat -> option A) (n : nat) :
  (forall i, i <= n -> p i = true -> h i <> None) ->
  first_down (fun i => if p i then h i else None) n
  = match last_idx p n with
    | Some i => h i
    | None => None
    end.
Proof.
  intros Hh.
  rewrite (first_down_last_idx (fun i => if p i then h i else None) p).
  - destruct (last_idx p n) as [i|] eqn:E; [|reflexivity].
    apply last_idx_some in E. destruct E as (_ & Hp & _). rewrite Hp. reflexivity.
  - intros i Hi. destruct (p i) eqn:E.
    + split; [|intros H; discriminate H]. intros H. exfalso. exact (Hh i Hi E H).
    + split; reflexivity.
Qed.

Section TemplateFacts.

Variable multiline : bool.
Variables L1 ST CL EN : str.

Lemma rest_set_mark (n : nat) (from to : Re.mstate) :
  Re.rest (Re.set_mark n from to) = Re.rest to.
Proof. reflexivity. Qed.

(** The close marker. *)
Lemma close_at_spec (f : Re.mstate) :
  Re.rmatch multiline
            (Re.Group 4 (Re.Lits L1 ;; Re.Group 5 (Re.Star Re.Dot) ;; Re.Lits EN)%re)
            f Some
  = close_at L1 EN f.
Proof.
  unfold close_at.
  rewrite rmatch_group, rmatch_seq, rmatch_Lits.
  destruct (prefixb L1 (Re.rest f)); [|reflexivity].
  rewrite rmatch_seq, rmatch_group.
  rewrite (@rmatch_star_dot multiline _ (Re.rest (skip (length L1) f)) _ eq_refl).
  rewrite (first_down_ext _
             (fun i => if prefixb EN (skipn i (Re.rest (skip (length L1) f)))
                       then Some (st_close L1 EN f i) else None)).
  - rewrite first_down_guard by (intros; discriminate).
    unfold has_end. rewrite skip_rest. reflexivity.
  - intros i _. rewrite rmatch_Lits, rest_set_mark, skip_rest. reflexivity.
Qed.

Lemma close_at_none (f : Re.mstate) :
  close_at L1 EN f = None <-> closeable L1 EN (Re.rest f) = false.
Proof.
  unfold close_at, closeable.
  destruct (prefixb L1 (Re.rest f)); simpl; [|tauto].
  destruct (has_end EN (skipn (length L1) (Re.rest f))); simpl;
    split; intros H; congruence.
Qed.

(** From the end of the open marker to the end of the match. *)
Lemma after_at_spec (e1 : Re.mstate) :
  Re.rmatch multiline
            (Re.Plus (Re.Star Re.Dot ;; Re.Lit nl) ;;
             Re.Star Re.Dot ;;
             Re.Group 4 (Re.Lits L1 ;; Re.Group 5 (Re.Star Re.Dot) ;; Re.Lits EN))%re
            e1 Some
  = after_at L1 EN e1.
Proof.
  unfold after_at.
  change (Re.rmatch multiline
            (Re.Plus (Re.Star Re.Dot ;; Re.Lit nl) ;;
             Re.Star Re.Dot ;;
             Re.Group 4 (Re.Lits L1 ;; Re.Group 5 (Re.Star Re.Dot) ;; Re.Lits EN))%re
            e1 Some)
    with (Re.rmatch multiline
            (Re.Seq (Re.Plus (Re.Seq (Re.Star Re.Dot) (Re.Lit nl))) (Re.Star Re.Dot)) e1
            (fun s2 =>
               Re.rmatch multiline
                 (Re.Group 4 (Re.Lits L1 ;; Re.Group 5 (Re.Star Re.Dot) ;; Re.Lits EN)%re)
                 s2 Some)).
  rewrite rmatch_mid.
  destruct (line_len (Re.rest e1) <? length (Re.rest e1)); [|reflexivity].
  rewrite (first_down_ext _ (fun m => close_at L1 EN (st_f e1 m)))
    by (intros i _; apply close_at_spec).
  rewrite (first_down_last_idx _
             (fun m => closeable L1 EN
                         (skipn m (skipn (S (line_len (Re.rest e1))) (Re.rest e1))))).
  - unfold find_close. rewrite length_skipn. reflexivity.
  - intros m _. rewrite close_at_none. unfold st_f.
    rewrite skip_rest, skipn_skipn.
    replace (m + S (line_len (Re.rest e1))) with (S (line_len (Re.rest e1)) + m) by lia.
    reflexivity.
Qed.

Lemma find_close_closeable (v : str) (m : nat) :
  find_close L1 EN v = Some m -> closeable L1 EN (skipn m v) = true.
Proof.
  unfold find_close. intros H. apply last_idx_some in H. tauto.
Qed.

Lemma after_at_none (e1 : Re.mstate) :
  after_at L1 EN e1 = None <-> after_ok L1 EN (Re.rest e1) = false.
Proof.
  unfold after_at, after_ok.
  destruct (line_len (Re.rest e1) <? length (Re.rest e1)); cbn [andb]; [|tauto].
  destruct (find_close L1 EN (skipn (S (line_len (Re.rest e1))) (Re.rest e1)))
    as [m|] eqn:E; cbn [is_some].
  - split; [|discriminate]. intros H. apply close_at_none in H.
    apply find_close_closeable in E. unfold st_f in H.
    rewrite skip_rest in H.
    replace (S (line_len (Re.rest e1)) + m) with (m + S (line_len (Re.rest e1))) in H by lia.
    rewrite <- skipn_skipn in H. congruence.
  - tauto.
Qed.

(** Group 3 and the [CL] after it, then the rest of the pattern. *)
Lemma g3_at_spec (st0 c : Re.mstate) :
  Re.rmatch multiline (Re.Group 3 (Re.Plus Re.Dot) ;; Re.Lits CL)%re c
            (fun x => after_at L1 EN (Re.set_mark 1 st0 x))
  = match find_g3 L1 CL EN (Re.rest c) with
    | Some i3 =>
        after_at L1 EN
          (Re.set_mark 1 st0 (skip (length CL) (Re.set_mark 3 c (skip i3 c))))
    | None => None
    end.
Proof.
  set (f := fun i =>
              if (1 <=? i) && prefixb CL (skipn i (Re.rest c))
              then after_at L1 EN
                     (Re.set_mark 1 st0 (skip (length CL) (Re.set_mark 3 c (skip i c))))
              else None).
  assert (Hf : first_down f (line_len (Re.rest c))
               = match find_g3 L1 CL EN (Re.rest c) with
                 | Some i3 => f i3
                 | None => None
                 end).
  { unfold find_g3. apply first_down_last_idx. intros i _. unfold f, g3_ok.
    destruct ((1 <=? i) && prefixb CL (skipn i (Re.rest c))); cbn [andb]; [|tauto].
    rewrite after_at_none, rest_set_mark, skip_rest, rest_set_mark, skip_rest.
    rewrite skipn_skipn. replace (length CL + i) with (i + length CL) by lia.
    reflexivity. }
  assert (Hpick : match find_g3 L1 CL EN (Re.rest c) with
                  | Some i3 => f i3
                  | None => None
                  end
                  = match find_g3 L1 CL EN (Re.rest c) with
                    | Some i3 =>
                        after_at L1 EN
                          (Re.set_mark 1 st0
                             (skip (length CL) (Re.set_mark 3 c (skip i3 c))))
                    | None => None
                    end).
  { destruct (find_g3 L1 CL EN (Re.rest c)) as [i3|] eqn:E; [|reflexivity].
    unfold find_g3 in E. apply last_idx_some in E. destruct E as (_ & Hok & _).
    unfold g3_ok in Hok. apply andb_true_iff in Hok. destruct Hok as [Hok _].
    unfold f. rewrite Hok. reflexivity. }
  rewrite <- Hpick, <- Hf.
  rewrite rmatch_seq, rmatch_group, rmatch_plus_dot.
  destruct (line_len (Re.rest c)) as [|n].
  - simpl. unfold f. reflexivity.
  - rewrite first_down_shift.
    replace (f 0) with (@None Re.mstate) by reflexivity.
    rewrite (first_down_ext _ (fun i => f (S i))).
    + destruct (first_down (fun i => f (S i)) n); reflexivity.
    + intros i _. unfold f. rewrite rmatch_Lits, rest_set_mark, skip_rest.
      reflexivity.
Qed.

Lemma find_g3_after_ok (c : str) (i3 : nat) :
  find_g3 L1 CL EN c = Some i3 ->
  after_ok L1 EN (skipn (i3 + length CL) c) = true.
Proof.
  unfold find_g3. intros H. apply last_idx_some in H. destruct H as (_ & Hok & _).
  unfold g3_ok in Hok. apply andb_true_iff in Hok. tauto.
Qed.

(** The whole pattern at one position. *)
Theorem match_at_spec (st0 : Re.mstate) :
  Re.rmatch multiline (template L1 ST CL EN) st0 Some = match_at L1 ST CL EN st0.
Proof.
  unfold template, match_at.
  rewrite rmatch_seq, rmatch_group.
  rewrite (rmatch_ext multiline _ st0 _ (fun x => after_at L1 EN (Re.set_mark 1 st0 x)))
    by (intros x; apply after_at_spec).
  rewrite rmatch_seq, rmatch_Lits.
  destruct (prefixb L1 (Re.rest st0)); [|reflexivity].
  fold (st_a L1 st0).
  rewrite rmatch_seq, rmatch_group.
  rewrite (@rmatch_star_dot multiline _ (Re.rest (st_a L1 st0)) _ eq_refl).
  set (G3 := fun i2 =>
               match find_g3 L1 CL EN (Re.rest (st_c L1 ST st0 i2)) with
               | Some i3 => after_at L1 EN (st_e1 L1 ST CL st0 i2 i3)
               | None => None
               end).
  rewrite (first_down_ext _
             (fun i2 => if prefixb ST (skipn i2 (Re.rest (st_a L1 st0)))
                        then G3 i2 else None)).
  - rewrite (first_down_last_idx _ (g2_ok L1 ST CL EN (Re.rest (st_a L1 st0)))).
    + unfold find_g2.
      destruct (last_idx (g2_ok L1 ST CL EN (Re.rest (st_a L1 st0)))
                         (line_len (Re.rest (st_a L1 st0)))) as [i2|] eqn:E;
        [|reflexivity].
      apply last_idx_some in E. destruct E as (_ & Hok & _).
      unfold g2_ok in Hok. apply andb_true_iff in Hok. destruct Hok as [Hok _].
      rewrite Hok. reflexivity.
    + intros i2 _. unfold g2_ok.
      destruct (prefixb ST (skipn i2 (Re.rest (st_a L1 st0)))); cbn [andb]; [|tauto].
      assert (Hc : Re.rest (st_c L1 ST st0 i2)
                   = skipn (i2 + length ST) (Re.rest (st_a L1 st0))).
      { unfold st_c. rewrite skip_rest, rest_set_mark, skip_rest, skipn_skipn.
        f_equal. lia. }
      unfold G3. rewrite Hc.
      destruct (find_g3 L1 CL EN (skipn (i2 + length ST) (Re.rest (st_a L1 st0))))
        as [i3|] eqn:E3; cbn [is_some]; [|tauto].
      split; [|discriminate]. intros H. apply after_at_none in H.
      apply find_g3_after_ok in E3. unfold st_e1 in H.
      rewrite rest_set_mark, skip_rest, rest_set_mark, skip_rest, Hc, skipn_skipn in H.
      replace (length CL + i3) with (i3 + length CL) in H by lia. congruence.
  - intros i2 _. rewrite rmatch_seq, rmatch_Lits, rest_set_mark, skip_rest.
    destruct (prefixb ST (skipn i2 (Re.rest (st_a L1 st0)))); [|reflexivity].
    unfold G3. apply g3_at_spec.
Qed.

End TemplateFacts.

Section TemplateSearch.

Variable multiline : bool.
Variables L1 ST CL EN : str.

Lemma find_g2_g3 (a : str) (i2 : nat) :
  find_g2 L1 ST CL EN a = Some i2 ->
  exists i3, find_g3 L1 CL EN (skipn (i2 + length ST) a) = Some i3.
Proof.
  unfold find_g2. intros H. apply last_idx_some in H. destruct H as (_ & Hok & _).
  unfold g2_ok in Hok. apply andb_true_iff in Hok. destruct Hok as [_ Hok].
  destruct (find_g3 L1 CL EN (skipn (i2 + length ST) a)) as [i3|]; [|discriminate].
  exists i3. reflexivity.
Qed.

Lemma rest_st_c (st0 : Re.mstate) (i2 : nat) :
  Re.rest (st_c L1 ST st0 i2)
  = skipn (i2 + length ST) (skipn (length L1) (Re.rest st0)).
Proof.
  unfold st_c, st_a. rewrite skip_rest, rest_set_mark, !skip_rest, skipn_skipn.
  f_equal. lia.
Qed.

Lemma rest_st_e1 (st0 : Re.mstate) (i2 i3 : nat) :
  Re.rest (st_e1 L1 ST CL st0 i2 i3)
  = skipn (i3 + length CL) (Re.rest (st_c L1 ST st0 i2)).
Proof.
  unfold st_e1. rewrite rest_set_mark, skip_rest, rest_set_mark, skip_rest, skipn_skipn.
  f_equal. lia.
Qed.

(** The pattern fails at a position exactly when [matchable] says so. *)
Lemma match_at_none (st0 : Re.mstate) :
  match_at L1 ST CL EN st0 = None <-> matchable L1 ST CL EN (Re.rest st0) = false.
Proof.
  unfold match_at, matchable.
  destruct (prefixb L1 (Re.rest st0)); cbn [andb]; [|tauto].
  unfold st_a at 1. rewrite skip_rest.
  destruct (find_g2 L1 ST CL EN (skipn (length L1) (Re.rest st0))) as [i2|] eqn:E2;
    cbn [is_some]; [|tauto].
  split; [|discriminate]. intros H. exfalso.
  destruct (find_g2_g3 _ E2) as [i3 E3].
  rewrite rest_st_c, E3 in H.
  apply after_at_none in H. rewrite rest_st_e1, rest_st_c in H.
  apply find_g3_after_ok in E3. congruence.
Qed.

Lemma rmatch_template_none (st0 : Re.mstate) :
  Re.rmatch multiline (template L1 ST CL EN) st0 Some = None
  <-> matchable L1 ST CL EN (Re.rest st0) = false.
Proof. rewrite match_at_spec. apply match_at_none. Qed.

(** [search] finds nothing exactly when no position is matchable. *)
Lemma search_at_none (s : str) :
  forall p pv,
    Re.search_at multiline (template L1 ST CL EN) p pv s = None
    <-> forall j, j <= length s -> matchable L1 ST CL EN (skipn j s) = false.
Proof.
  induction s as [|c s IH]; intros p pv; cbn [Re.search_at];
    rewrite match_at_spec.
  - destruct (match_at L1 ST CL EN (Re.MState p pv [] [])) eqn:E.
    + split; [discriminate|]. intros H. exfalso.
      assert (Hn : match_at L1 ST CL EN (Re.MState p pv [] []) = None)
        by (apply match_at_none; apply (H 0); simpl; lia).
      congruence.
    + split; [|reflexivity]. intros _ j Hj. apply match_at_none in E.
      rewrite skipn_nil. exact E.
  - destruct (match_at L1 ST CL EN (Re.MState p pv (c :: s) [])) eqn:E.
    + split; [discriminate|]. intros H. exfalso.
      assert (Hn : match_at L1 ST CL EN (Re.MState p pv (c :: s) []) = None)
        by (apply match_at_none; apply (H 0); simpl; lia).
      congruence.
    + apply match_at_none in E. simpl in E. rewrite IH. split.
      * intros H [|j] Hj; [exact E|]. simpl. apply H. simpl in Hj. lia.
      * intros H j Hj. apply (H (S j)). simpl. lia.
Qed.

(** [search] finds a match at offset [k]: no earlier offset is
    matchable and the match is the one [match_at] reads at [k]. *)
Lemma search_at_some (s : str) :
  forall p pv m,
    Re.search_at multiline (template L1 ST CL EN) p pv s = Some m
    <-> exists k e,
        k <= length s /\
        (forall j, j < k -> matchable L1 ST CL EN (skipn j s) = false) /\
        m = Re.MatchObj (p + k) e /\
        match_at L1 ST CL EN (skip k (Re.MState p pv s [])) = Some e.
Proof.
  induction s as [|c s IH]; intros p pv m; cbn [Re.search_at];
    rewrite match_at_spec.
  - split.
    + intros H.
      destruct (match_at L1 ST CL EN (Re.MState p pv [] [])) as [e|] eqn:E;
        [|discriminate].
      injection H as <-. exists 0, e. rewrite Nat.add_0_r. simpl.
      split; [lia|]. split; [intros j Hj; lia|]. split; [reflexivity|exact E].
    + intros (k & e & Hk & _ & Hm & He). simpl in Hk.
      replace k with 0 in * by lia. rewrite Nat.add_0_r in Hm. simpl in He.
      rewrite He, Hm. reflexivity.
  - destruct (match_at L1 ST CL EN (Re.MState p pv (c :: s) [])) as [e|] eqn:E.
    + split.
      * intros H. injection H as <-. exists 0, e. rewrite Nat.add_0_r. simpl.
        split; [lia|]. split; [intros j Hj; lia|]. split; [reflexivity|exact E].
      * intros (k & e' & Hk & Hmin & Hm & He).
        destruct k as [|k].
        -- rewrite Nat.add_0_r in Hm. simpl in He. congruence.
        -- exfalso. specialize (Hmin 0 (Nat.lt_0_succ k)). simpl in Hmin.
           assert (Hn : match_at L1 ST CL EN (Re.MState p pv (c :: s) []) = None)
             by (apply match_at_none; exact Hmin).
           congruence.
    + rewrite IH. split.
      * intros (k & e & Hk & Hmin & Hm & He).
        exists (S k), e. simpl length. split; [lia|]. split; [|split].
        -- intros [|j] Hj; [apply match_at_none in E; exact E|].
           simpl. apply Hmin. lia.
        -- rewrite Hm. f_equal. lia.
        -- exact He.
      * intros (k & e & Hk & Hmin & Hm & He).
        destruct k as [|k]; [simpl in He; congruence|].
        exists k, e. simpl in Hk. split; [lia|]. split; [|split].
        -- intros j Hj. apply (Hmin (S j)). lia.
        -- rewrite Hm. f_equal. lia.
        -- exact He.
Qed.

End TemplateSearch.

(** ** Text without newlines *)

Lemma no_nl_nil : no_nl [].
Proof. reflexivity. Qed.

Lemma line_len_app (x y : str) : no_nl x -> line_len (x ++ y) = length x + line_len y.
Proof.
  unfold no_nl. induction x as [|c x IH]; simpl; [reflexivity|].
  destruct (Ascii.eqb c nl); intros H; [discriminate|].
  rewrite IH; [reflexivity|lia].
Qed.

Lemma line_len_app_nl (x y : str) : no_nl x -> line_len (x ++ nl :: y) = length x.
Proof.
  intros H. rewrite line_len_app by exact H. simpl. lia.
Qed.

Lemma no_nl_app (x y : str) : no_nl x -> no_nl y -> no_nl (x ++ y).
Proof.
  intros Hx Hy. unfold no_nl. rewrite line_len_app by exact Hx.
  rewrite length_app, Hy. reflexivity.
Qed.

Lemma no_nl_app_inv (x y : str) : no_nl (x ++ y) -> no_nl x /\ no_nl y.
Proof.
  unfold no_nl. induction x as [|c x IH]; simpl.
  - intros H. split; [reflexivity|exact H].
  - destruct (Ascii.eqb c nl); intros H; [discriminate|].
    destruct IH as [Hx Hy]; [lia|]. split; [lia|exact Hy].
Qed.

Lemma no_nl_firstn_line (u : str) (i : nat) : i <= line_len u -> no_nl (firstn i u).
Proof.
  unfold no_nl. revert i. induction u as [|c u IH]; intros i Hi.
  - rewrite firstn_nil. reflexivity.
  - destruct i as [|i]; [reflexivity|]. simpl in *.
    destruct (Ascii.eqb c nl); [lia|]. rewrite IH; [reflexivity|lia].
Qed.

Lemma prefixb_length (s u : str) : prefixb s u = true -> length s <= length u.
Proof.
  revert u. induction s as [|c s IH]; intros u H; simpl; [lia|].
  destruct u as [|x u]; simpl in H; [discriminate|].
  apply andb_true_iff in H. destruct H as [_ H]. apply IH in H. simpl. lia.
Qed.

Lemma prefixb_weaken (s x y : str) : prefixb s x = true -> prefixb s (x ++ y) = true.
Proof.
  revert x. induction s as [|c s IH]; intros x H; [reflexivity|].
  destruct x as [|a x]; simpl in *; [discriminate|].
  apply andb_true_iff in H. destruct H as [Ha H]. rewrite Ha. simpl. apply IH. exact H.
Qed.

(** A text without newlines that starts a line lies before its newline. *)
Lemma prefixb_in_line (s x y : str) :
  no_nl s -> prefixb s (x ++ nl :: y) = true -> prefixb s x = true.
Proof.
  unfold no_nl. revert x. induction s as [|c s IH]; intros x Hs H; [reflexivity|].
  simpl in Hs. destruct (Ascii.eqb c nl) eqn:Ec; [discriminate|].
  destruct x as [|a x]; cbn [prefixb app] in H.
  - apply andb_true_iff in H. destruct H as [Ha _].
    apply Ascii.eqb_eq in Ha. subst c. rewrite Ascii.eqb_refl in Ec. discriminate.
  - apply andb_true_iff in H. destruct H as [Ha H]. cbn [prefixb]. rewrite Ha.
    cbn [andb]. apply IH; [lia|exact H].
Qed.

Lemma skipn_firstn_split (u : str) (i : nat) (s : str) :
  prefixb s (skipn i u) = true ->
  u = firstn i u ++ s ++ skipn (i + length s) u.
Proof.
  intros H. apply prefixb_true in H.
  rewrite <- (firstn_skipn i u) at 1. f_equal.
  rewrite H at 1. f_equal. rewrite skipn_skipn. f_equal. lia.
Qed.

(** ** States along a text *)

Lemma skip_prefix (st : Re.mstate) (x y : str) :
  Re.rest st = x ++ y ->
  Re.rest (skip (length x) st) = y /\
  Re.pos (skip (length x) st) = Re.pos st + length x /\
  Re.marks (skip (length x) st) = Re.marks st.
Proof.
  intros H. split; [|split].
  - rewrite skip_rest, H. apply skipn_length_app.
  - apply skip_pos. rewrite H, length_app. lia.
  - apply skip_marks.
Qed.

Lemma set_mark_facts (n : nat) (from to : Re.mstate) (x y : str) :
  Re.rest from = x ++ y ->
  Re.pos to = Re.pos from + length x ->
  Re.rest (Re.set_mark n from to) = Re.rest to /\
  Re.pos (Re.set_mark n from to) = Re.pos to /\
  Re.marks (Re.set_mark n from to) = (n, x) :: Re.marks to.
Proof.
  intros Hr Hp. split; [reflexivity|]. split; [reflexivity|].
  unfold Re.set_mark. simpl. rewrite Hp, Hr.
  replace (Re.pos from + length x - Re.pos from) with (length x) by lia.
  rewrite firstn_length_app. reflexivity.
Qed.

(** ** A match, piece by piece *)

Section Pieces.

Variables L1 ST CL EN : str.

Lemma t_u_eq (q : pieces) : t_u L1 ST CL EN q = t_g1 L1 ST CL q ++ t_w L1 EN q.
Proof.
  unfold t_u, t_a, t_c, t_g1. rewrite <- !app_assoc. reflexivity.
Qed.

Lemma t_y_eq (q : pieces) : t_y L1 EN q = t_g4 L1 EN q ++ p_post q.
Proof.
  unfold t_y, t_y1, t_g4. rewrite <- !app_assoc. reflexivity.
Qed.

(** Where the matcher ends and what it has captured. *)
Lemma end_state_facts (st0 : Re.mstate) (q : pieces) :
  Re.rest st0 = t_u L1 ST CL EN q ->
  no_nl (p_tail q) ->
  Re.rest (end_state L1 ST CL EN st0 q) = p_post q /\
  Re.pos (end_state L1 ST CL EN st0 q)
  = Re.pos st0 + length (t_g1 L1 ST CL q) + S (length (p_tail q)) + length (p_mid q)
    + length (t_g4 L1 EN q) /\
  Re.marks (end_state L1 ST CL EN st0 q)
  = (4, t_g4 L1 EN q) :: (5, p_g5 q) :: (1, t_g1 L1 ST CL q) :: (3, p_g3 q) :: (2, p_g2 q)
      :: Re.marks st0.
Proof.
  intros Hu Htail. unfold end_state, st_close, st_f, st_e1, st_c, st_a.
  destruct (skip_prefix st0 L1 (t_a L1 ST CL EN q) Hu) as (Ra & Pa & Ma).
  set (a := skip (length L1) st0) in *.
  destruct (skip_prefix a (p_g2 q) (ST ++ t_c L1 CL EN q) Ra) as (Rb0 & Pb0 & Mb0).
  destruct (set_mark_facts 2 a (skip (length (p_g2 q)) a) _ _ Ra Pb0) as (Rb & Pb & Mb).
  set (b := Re.set_mark 2 a (skip (length (p_g2 q)) a)) in *.
  rewrite Rb0 in Rb.
  destruct (skip_prefix b ST (t_c L1 CL EN q) Rb) as (Rc & Pc & Mc).
  set (c := skip (length ST) b) in *.
  destruct (skip_prefix c (p_g3 q) (CL ++ t_w L1 EN q) Rc) as (Rd0 & Pd0 & Md0).
  destruct (set_mark_facts 3 c (skip (length (p_g3 q)) c) _ _ Rc Pd0) as (Rd & Pd & Md).
  set (d := Re.set_mark 3 c (skip (length (p_g3 q)) c)) in *.
  rewrite Rd0 in Rd.
  destruct (skip_prefix d CL (t_w L1 EN q) Rd) as (Rx & Px & Mx).
  set (x := skip (length CL) d) in *.
  assert (Hu1 : Re.rest st0 = t_g1 L1 ST CL q ++ t_w L1 EN q) by (rewrite Hu; apply t_u_eq).
  assert (Px' : Re.pos x = Re.pos st0 + length (t_g1 L1 ST CL q)).
  { rewrite Px, Pd, Pd0, Pc, Pb, Pb0, Pa. unfold t_g1. rewrite !length_app. lia. }
  destruct (set_mark_facts 1 st0 x _ _ Hu1 Px') as (Re1 & Pe1 & Me1).
  set (e1 := Re.set_mark 1 st0 x) in *.
  rewrite Rx in Re1.
  assert (Hll : line_len (Re.rest e1) = length (p_tail q)).
  { rewrite Re1. unfold t_w. apply line_len_app_nl. exact Htail. }
  rewrite Hll.
  assert (Re1' : Re.rest e1 = (p_tail q ++ nl :: p_mid q) ++ t_y L1 EN q).
  { rewrite Re1. unfold t_w, t_v. rewrite <- app_assoc. reflexivity. }
  destruct (skip_prefix e1 _ _ Re1') as (Rf & Pf & Mf).
  replace (length (p_tail q ++ nl :: p_mid q))
    with (S (length (p_tail q)) + length (p_mid q)) in Rf, Pf, Mf
    by (rewrite length_app; simpl; lia).
  set (f := skip (S (length (p_tail q)) + length (p_mid q)) e1) in *.
  destruct (skip_prefix f L1 (t_y1 EN q) Rf) as (Rg & Pg & Mg).
  set (g := skip (length L1) f) in *.
  destruct (skip_prefix g (p_g5 q) (EN ++ p_post q) Rg) as (Rh0 & Ph0 & Mh0).
  destruct (set_mark_facts 5 g (skip (length (p_g5 q)) g) _ _ Rg Ph0) as (Rh & Ph & Mh).
  set (h := Re.set_mark 5 g (skip (length (p_g5 q)) g)) in *.
  rewrite Rh0 in Rh.
  destruct (skip_prefix h EN (p_post q) Rh) as (Ri & Pi & Mi).
  set (i := skip (length EN) h) in *.
  assert (Rf' : Re.rest f = t_g4 L1 EN q ++ p_post q) by (rewrite Rf; apply t_y_eq).
  assert (Pi' : Re.pos i = Re.pos f + length (t_g4 L1 EN q)).
  { rewrite Pi, Ph, Ph0, Pg. unfold t_g4. rewrite !length_app. lia. }
  destruct (set_mark_facts 4 f i _ _ Rf' Pi') as (Re & Pe & Me).
  split; [|split].
  - rewrite Re. exact Ri.
  - rewrite Pe, Pi', Pf, Pe1, Px'. lia.
  - rewrite Me, Mi, Mh, Mh0, Mg, Mf, Me1, Mx, Md, Md0, Mc, Mb, Mb0, Ma. reflexivity.
Qed.

End Pieces.

Section PiecesOfMatch.

Variables L1 ST CL EN : str.

(** Pieces that [picks] accepts give the match. *)
Lemma picks_match_at (st0 : Re.mstate) (q : pieces) :
  Re.rest st0 = t_u L1 ST CL EN q ->
  picks L1 ST CL EN q ->
  match_at L1 ST CL EN st0 = Some (end_state L1 ST CL EN st0 q).
Proof.
  intros Hu (Htail & H2 & H3 & Hclose & H5).
  unfold match_at.
  rewrite Hu. unfold t_u at 1. rewrite prefixb_app.
  assert (Ra : Re.rest (st_a L1 st0) = t_a L1 ST CL EN q).
  { unfold st_a. rewrite skip_rest, Hu. apply skipn_length_app. }
  rewrite Ra, H2.
  assert (Rc : Re.rest (st_c L1 ST st0 (length (p_g2 q))) = t_c L1 CL EN q).
  { rewrite rest_st_c, Hu. unfold t_u. rewrite skipn_length_app.
    unfold t_a. rewrite skipn_length_app_add. apply skipn_length_app. }
  rewrite Rc, H3.
  assert (Re1 : Re.rest (st_e1 L1 ST CL st0 (length (p_g2 q)) (length (p_g3 q)))
                = t_w L1 EN q).
  { rewrite rest_st_e1, Rc. unfold t_c. rewrite skipn_length_app_add.
    apply skipn_length_app. }
  unfold after_at. rewrite Re1.
  assert (Hll : line_len (t_w L1 EN q) = length (p_tail q))
    by (apply line_len_app_nl; exact Htail).
  rewrite Hll.
  assert (Hlt : (length (p_tail q) <? length (t_w L1 EN q)) = true).
  { apply Nat.ltb_lt. unfold t_w. rewrite length_app. simpl. lia. }
  rewrite Hlt.
  assert (Hv : skipn (S (length (p_tail q))) (t_w L1 EN q) = t_v L1 EN q).
  { unfold t_w. replace (S (length (p_tail q))) with (length (p_tail q) + 1) by lia.
    rewrite skipn_length_app_add. reflexivity. }
  rewrite Hv, Hclose.
  unfold close_at.
  assert (Rf : Re.rest (st_f (st_e1 L1 ST CL st0 (length (p_g2 q)) (length (p_g3 q)))
                             (length (p_mid q)))
               = t_y L1 EN q).
  { unfold st_f. rewrite skip_rest, Re1, Hll.
    replace (S (length (p_tail q)) + length (p_mid q))
      with (length (p_mid q) + S (length (p_tail q))) by lia.
    rewrite <- skipn_skipn, Hv. apply skipn_length_app. }
  rewrite Rf. unfold t_y at 1. rewrite prefixb_app.
  unfold t_y. rewrite skipn_length_app, H5. reflexivity.
Qed.

(** A match has pieces that [picks] accepts. *)
Lemma match_at_picks (st0 e : Re.mstate) :
  match_at L1 ST CL EN st0 = Some e ->
  exists q, Re.rest st0 = t_u L1 ST CL EN q /\
            picks L1 ST CL EN q /\
            e = end_state L1 ST CL EN st0 q.
Proof.
  unfold match_at.
  destruct (prefixb L1 (Re.rest st0)) eqn:E1; [|discriminate].
  assert (Ra : Re.rest (st_a L1 st0) = skipn (length L1) (Re.rest st0))
    by (unfold st_a; apply skip_rest).
  rewrite Ra. set (a := skipn (length L1) (Re.rest st0)) in *.
  destruct (find_g2 L1 ST CL EN a) as [i2|] eqn:E2; [|discriminate].
  rewrite rest_st_c. fold a. set (c := skipn (i2 + length ST) a).
  destruct (find_g3 L1 CL EN c) as [i3|] eqn:E3; [|discriminate].
  unfold after_at. rewrite rest_st_e1, rest_st_c. fold a. fold c.
  set (w := skipn (i3 + length CL) c).
  destruct (line_len w <? length w) eqn:E4; [|discriminate].
  set (v := skipn (S (line_len w)) w).
  destruct (find_close L1 EN v) as [m|] eqn:E5; [|discriminate].
  unfold close_at.
  assert (Rf : Re.rest (st_f (st_e1 L1 ST CL st0 i2 i3) m) = skipn m v).
  { unfold st_f. rewrite skip_rest, rest_st_e1, rest_st_c. fold a. fold c. fold w.
    unfold v. rewrite skipn_skipn. f_equal. lia. }
  rewrite Rf. set (y := skipn m v).
  destruct (prefixb L1 y) eqn:E6; [|discriminate].
  set (y1 := skipn (length L1) y).
  destruct (has_end EN y1) as [i5|] eqn:E7; [|discriminate].
  intros He. injection He as <-.
  pose proof E2 as E2'. unfold find_g2 in E2'. apply last_idx_some in E2'.
  destruct E2' as (Hi2 & Hok2 & _).
  unfold g2_ok in Hok2. apply andb_true_iff in Hok2. destruct Hok2 as [HST _].
  pose proof E3 as E3'. unfold find_g3 in E3'. apply last_idx_some in E3'.
  destruct E3' as (Hi3 & Hok3 & _).
  unfold g3_ok in Hok3. apply andb_true_iff in Hok3. destruct Hok3 as [Hok3 _].
  apply andb_true_iff in Hok3. destruct Hok3 as [_ HCL].
  pose proof E5 as E5'. unfold find_close in E5'. apply last_idx_some in E5'.
  destruct E5' as (Hm & _ & _).
  pose proof E7 as E7'. unfold has_end in E7'. apply last_idx_some in E7'.
  destruct E7' as (Hi5 & HEN & _).
  apply Nat.ltb_lt in E4.
  pose proof (line_len_le a) as Hla. pose proof (line_len_le c) as Hlc.
  pose proof (line_len_le y1) as Hly.
  exists (Pieces (firstn i2 a) (firstn i3 c) (firstn (line_len w) w) (firstn m v)
                 (firstn i5 y1) (skipn (i5 + length EN) y1)).
  assert (Ey1 : t_y1 EN (Pieces (firstn i2 a) (firstn i3 c) (firstn (line_len w) w)
                                (firstn m v) (firstn i5 y1) (skipn (i5 + length EN) y1))
                = y1).
  { unfold t_y1. simpl. symmetry. apply skipn_firstn_split. exact HEN. }
  assert (Ey : forall q, t_y1 EN q = y1 -> t_y L1 EN q = y).
  { intros q Hq. unfold t_y. rewrite Hq. symmetry. apply prefixb_true. exact E6. }
  assert (Ev : forall q, p_mid q = firstn m v -> t_y1 EN q = y1 -> t_v L1 EN q = v).
  { intros q Hq1 Hq2. unfold t_v. rewrite Hq1, (Ey q Hq2). apply firstn_skipn. }
  assert (Ew : forall q, p_tail q = firstn (line_len w) w ->
                         p_mid q = firstn m v -> t_y1 EN q = y1 -> t_w L1 EN q = w).
  { intros q Hq0 Hq1 Hq2. unfold t_w. rewrite Hq0, (Ev q Hq1 Hq2).
    destruct (skipn_line_len w E4) as [r Hr].
    rewrite <- (firstn_skipn (line_len w) w) at 3. f_equal. rewrite Hr. f_equal.
    unfold v. replace (S (line_len w)) with (1 + line_len w) by lia.
    rewrite <- skipn_skipn, Hr. reflexivity. }
  set (q := Pieces (firstn i2 a) (firstn i3 c) (firstn (line_len w) w) (firstn m v)
                   (firstn i5 y1) (skipn (i5 + length EN) y1)) in *.
  assert (Hw : t_w L1 EN q = w) by (apply Ew; [reflexivity|reflexivity|exact Ey1]).
  assert (Hc : t_c L1 CL EN q = c).
  { unfold t_c. rewrite Hw. simpl. symmetry. apply skipn_firstn_split. exact HCL. }
  assert (Ha : t_a L1 ST CL EN q = a).
  { unfold t_a. rewrite Hc. simpl. symmetry. apply skipn_firstn_split. exact HST. }
  assert (Hu : Re.rest st0 = t_u L1 ST CL EN q).
  { unfold t_u. rewrite Ha. apply prefixb_true. exact E1. }
  assert (L2 : length (p_g2 q) = i2) by (simpl; apply firstn_length_le; lia).
  assert (L3 : length (p_g3 q) = i3) by (simpl; apply firstn_length_le; lia).
  assert (Lm : length (p_mid q) = m) by (simpl; apply firstn_length_le; lia).
  assert (L5 : length (p_g5 q) = i5) by (simpl; apply firstn_length_le; lia).
  split; [exact Hu|]. split.
  - unfold picks. rewrite Ha, Hc, (Ev q eq_refl Ey1), Ey1, L2, L3, Lm, L5.
    split; [|tauto]. simpl. apply no_nl_firstn_line. lia.
  - unfold end_state. rewrite L2, L3, Lm, L5. reflexivity.
Qed.

End PiecesOfMatch.

(** ** How the reading of a text changes with the text *)

Lemma last_idx_is_some (p : nat -> bool) (n i : nat) :
  i <= n -> p i = true -> is_some (last_idx p n) = true.
Proof.
  intros Hi Hp. destruct (last_idx p n) eqn:E; [reflexivity|].
  rewrite last_idx_none in E. rewrite (E i Hi) in Hp. discriminate.
Qed.

Lemma is_some_true (A : Type) (o : option A) : is_some o = true -> exists x, o = Some x.
Proof. destruct o as [x|]; [exists x; reflexivity|discriminate]. Qed.

Section Reading.

Variables L1 ST CL EN : str.
Hypothesis L1_line : no_nl L1.
Hypothesis ST_line : no_nl ST.
Hypothesis CL_line : no_nl CL.

(** What follows the open marker only counts from the next line on. *)
Lemma after_ok_line (x v : str) :
  no_nl x -> after_ok L1 EN (x ++ nl :: v) = is_some (find_close L1 EN v).
Proof.
  intros Hx. unfold after_ok. rewrite line_len_app_nl by exact Hx.
  rewrite (proj2 (Nat.ltb_lt _ _)) by (rewrite length_app; simpl; lia).
  replace (S (length x)) with (length x + 1) by lia.
  rewrite skipn_length_app_add. reflexivity.
Qed.

(** A close marker somewhere in the text. *)
Lemma find_close_exists (b y : str) :
  closeable L1 EN y = true -> is_some (find_close L1 EN (b ++ y)) = true.
Proof.
  intros H. unfold find_close. apply (last_idx_is_some _ (i := length b)).
  - rewrite length_app. lia.
  - rewrite skipn_length_app. exact H.
Qed.

(** The last close marker stays the last one when the text before it
    changes. *)
Lemma find_close_suffix (mid y : str) :
  find_close L1 EN (mid ++ y) = Some (length mid) ->
  closeable L1 EN y = true /\
  forall j, 0 < j -> j <= length y -> closeable L1 EN (skipn j y) = false.
Proof.
  unfold find_close. intros H. apply last_idx_some in H.
  destruct H as (_ & Hc & Hmax). rewrite skipn_length_app in Hc.
  split; [exact Hc|]. intros j Hj1 Hj2.
  specialize (Hmax (length mid + j)). rewrite skipn_length_app_add in Hmax.
  apply Hmax; [lia|]. rewrite length_app. lia.
Qed.

Lemma find_close_app (b y : str) :
  closeable L1 EN y = true ->
  (forall j, 0 < j -> j <= length y -> closeable L1 EN (skipn j y) = false) ->
  find_close L1 EN (b ++ y) = Some (length b).
Proof.
  intros Hc Hmax. unfold find_close. apply last_idx_some.
  split; [rewrite length_app; lia|]. split.
  - rewrite skipn_length_app. exact Hc.
  - intros j Hj1 Hj2. rewrite length_app in Hj2.
    replace j with (length b + (j - length b)) by lia.
    rewrite skipn_length_app_add. apply Hmax; lia.
Qed.

(** After an open marker there is a close marker further on. *)
Lemma after_ok_close (w : str) :
  after_ok L1 EN w = true ->
  exists j, 1 <= j /\ j <= length w /\ closeable L1 EN (skipn j w) = true.
Proof.
  unfold after_ok. intros H. apply andb_true_iff in H. destruct H as [Hlt Hs].
  apply Nat.ltb_lt in Hlt. apply is_some_true in Hs. destruct Hs as [m Hm].
  unfold find_close in Hm. apply last_idx_some in Hm. destruct Hm as (Hm & Hc & _).
  rewrite length_skipn in Hm. rewrite skipn_skipn in Hc.
  exists (m + S (line_len w)). split; [lia|]. split; [lia|exact Hc].
Qed.

Lemma matchable_close (z : str) :
  matchable L1 ST CL EN z = true ->
  exists j, 1 <= j /\ j <= length z /\ closeable L1 EN (skipn j z) = true.
Proof.
  unfold matchable. intros H. apply andb_true_iff in H. destruct H as [_ H].
  apply is_some_true in H. destruct H as [i2 H2].
  destruct (find_g2_g3 _ _ _ _ _ H2) as [i3 H3].
  apply find_g3_after_ok in H3.
  rewrite !skipn_skipn in H3.
  apply after_ok_close in H3. destruct H3 as (j & Hj1 & Hj2 & Hc).
  rewrite length_skipn in Hj2. rewrite skipn_skipn in Hc.
  exists (j + (i3 + length CL + (i2 + length ST) + length L1)).
  split; [lia|]. split; [lia|exact Hc].
Qed.

Lemma no_nl_skipn (x : str) (k : nat) : no_nl x -> no_nl (skipn k x).
Proof.
  intros H. rewrite <- (firstn_skipn k x) in H.
  apply no_nl_app_inv in H. tauto.
Qed.

(** Putting more text on the open marker's line, or another text after
    it that still holds a close marker, keeps every way to match. *)
Lemma g3_ok_extend (X T V V' : str) (i : nat) :
  no_nl X -> no_nl T -> is_some (find_close L1 EN V) = true ->
  i <= length X ->
  g3_ok L1 CL EN (X ++ nl :: V') i = true ->
  g3_ok L1 CL EN (X ++ T ++ nl :: V) i = true.
Proof.
  intros HX HT HV Hi H. unfold g3_ok in *.
  apply andb_true_iff in H. destruct H as [H Hafter].
  apply andb_true_iff in H. destruct H as [H1 HCL].
  rewrite skipn_le_app in HCL by exact Hi.
  apply prefixb_in_line in HCL; [|exact CL_line].
  pose proof (prefixb_length _ _ HCL) as Hlen. rewrite length_skipn in Hlen.
  rewrite H1. rewrite skipn_le_app by exact Hi.
  rewrite (prefixb_weaken _ _ _ HCL). cbn [andb].
  rewrite skipn_le_app by lia. rewrite app_assoc.
  rewrite after_ok_line; [exact HV|].
  apply no_nl_app; [apply no_nl_skipn; exact HX|exact HT].
Qed.

Lemma find_g3_extend (X T V V' : str) :
  no_nl X -> no_nl T -> is_some (find_close L1 EN V) = true ->
  is_some (find_g3 L1 CL EN (X ++ nl :: V')) = true ->
  is_some (find_g3 L1 CL EN (X ++ T ++ nl :: V)) = true.
Proof.
  intros HX HT HV H. apply is_some_true in H. destruct H as [i3 H].
  unfold find_g3 in *. apply last_idx_some in H. destruct H as (Hi & Hok & _).
  rewrite line_len_app_nl in Hi by exact HX.
  apply (last_idx_is_some _ (i := i3)).
  - rewrite app_assoc, line_len_app_nl by (apply no_nl_app; assumption).
    rewrite length_app. lia.
  - apply g3_ok_extend with (V' := V'); assumption.
Qed.

Lemma g2_ok_extend (X T V V' : str) (i : nat) :
  no_nl X -> no_nl T -> is_some (find_close L1 EN V) = true ->
  i <= length X ->
  g2_ok L1 ST CL EN (X ++ nl :: V') i = true ->
  g2_ok L1 ST CL EN (X ++ T ++ nl :: V) i = true.
Proof.
  intros HX HT HV Hi H. unfold g2_ok in *.
  apply andb_true_iff in H. destruct H as [HST H3].
  rewrite skipn_le_app in HST by exact Hi.
  apply prefixb_in_line in HST; [|exact ST_line].
  pose proof (prefixb_length _ _ HST) as Hlen. rewrite length_skipn in Hlen.
  rewrite skipn_le_app in H3 by lia.
  rewrite skipn_le_app by exact Hi.
  rewrite (prefixb_weaken _ _ _ HST). cbn [andb].
  rewrite skipn_le_app by lia.
  apply find_g3_extend with (V' := V'); try assumption.
  apply no_nl_skipn. exact HX.
Qed.

Lemma matchable_extend (X T V V' : str) :
  no_nl X -> no_nl T -> is_some (find_close L1 EN V) = true ->
  matchable L1 ST CL EN (X ++ nl :: V') = true ->
  matchable L1 ST CL EN (X ++ T ++ nl :: V) = true.
Proof.
  intros HX HT HV H. unfold matchable in *.
  apply andb_true_iff in H. destruct H as [HL1 H2].
  apply prefixb_in_line in HL1; [|exact L1_line].
  pose proof (prefixb_length _ _ HL1) as Hlen.
  rewrite skipn_le_app in H2 by exact Hlen.
  rewrite (prefixb_weaken _ _ _ HL1). cbn [andb].
  rewrite skipn_le_app by exact Hlen.
  apply is_some_true in H2. destruct H2 as [i2 H2].
  unfold find_g2 in *. apply last_idx_some in H2. destruct H2 as (Hi & Hok & _).
  assert (HX' : no_nl (skipn (length L1) X)) by (apply no_nl_skipn; exact HX).
  rewrite line_len_app_nl in Hi by exact HX'.
  apply (last_idx_is_some _ (i := i2)).
  - rewrite app_assoc, line_len_app_nl by (apply no_nl_app; assumption).
    rewrite length_app. lia.
  - apply g2_ok_extend with (V' := V'); assumption.
Qed.

(** When the open marker's line ends right after the marker, groups 3
    and 2 are found where they were. *)
Lemma find_g3_trunc (g3 V' : str) :
  no_nl g3 -> 1 <= length g3 -> is_some (find_close L1 EN V') = true ->
  find_g3 L1 CL EN (g3 ++ CL ++ nl :: V') = Some (length g3).
Proof.
  intros Hg3 Hne HV. unfold find_g3. apply last_idx_some.
  assert (Hll : line_len (g3 ++ CL ++ nl :: V') = length g3 + length CL).
  { rewrite app_assoc, line_len_app_nl by (apply no_nl_app; assumption).
    apply length_app. }
  rewrite Hll. split; [lia|]. split.
  - unfold g3_ok. rewrite (proj2 (Nat.leb_le _ _) Hne).
    rewrite skipn_length_app, prefixb_app. cbn [andb].
    rewrite skipn_length_app_add, skipn_length_app.
    change (nl :: V') with ([] ++ nl :: V').
    rewrite (@after_ok_line [] V' no_nl_nil). exact HV.
  - intros j Hj1 Hj2. unfold g3_ok.
    destruct (prefixb CL (skipn j (g3 ++ CL ++ nl :: V'))) eqn:E;
      [|rewrite andb_false_r; reflexivity].
    exfalso. rewrite app_assoc in E.
    rewrite skipn_le_app in E by (rewrite length_app; lia).
    apply prefixb_in_line in E; [|exact CL_line].
    apply prefixb_length in E. rewrite length_skipn, length_app in E. lia.
Qed.

Lemma find_g2_trunc (g2 g3 tail V V' : str) :
  no_nl g3 -> no_nl tail ->
  is_some (find_close L1 EN V) = true ->
  find_g2 L1 ST CL EN (g2 ++ ST ++ g3 ++ CL ++ tail ++ nl :: V) = Some (length g2) ->
  find_g3 L1 CL EN (g3 ++ CL ++ nl :: V') = Some (length g3) ->
  find_g2 L1 ST CL EN (g2 ++ ST ++ g3 ++ CL ++ nl :: V') = Some (length g2).
Proof.
  intros Hg3 Htail HV H2 H3.
  unfold find_g2 in H2. apply last_idx_some in H2. destruct H2 as (Hi & _ & Hmax).
  assert (Hg2 : no_nl g2).
  { rewrite <- (firstn_length_app g2 (ST ++ g3 ++ CL ++ tail ++ nl :: V)).
    apply no_nl_firstn_line. exact Hi. }
  assert (HX : no_nl (g2 ++ ST ++ g3 ++ CL)) by (repeat apply no_nl_app; assumption).
  assert (Ea : g2 ++ ST ++ g3 ++ CL ++ tail ++ nl :: V
               = (g2 ++ ST ++ g3 ++ CL) ++ tail ++ nl :: V)
    by (rewrite <- !app_assoc; reflexivity).
  assert (Ea' : g2 ++ ST ++ g3 ++ CL ++ nl :: V'
                = (g2 ++ ST ++ g3 ++ CL) ++ nl :: V')
    by (rewrite <- !app_assoc; reflexivity).
  assert (Hll : line_len (g2 ++ ST ++ g3 ++ CL ++ nl :: V')
                = length (g2 ++ ST ++ g3 ++ CL))
    by (rewrite Ea'; apply line_len_app_nl; exact HX).
  unfold find_g2. rewrite Hll. apply last_idx_some.
  split; [rewrite length_app; lia|]. split.
  - unfold g2_ok. rewrite skipn_length_app, prefixb_app. cbn [andb].
    rewrite skipn_length_app_add, skipn_length_app, H3. reflexivity.
  - intros j Hj1 Hj2.
    destruct (g2_ok L1 ST CL EN (g2 ++ ST ++ g3 ++ CL ++ nl :: V') j) eqn:E;
      [|reflexivity].
    exfalso. rewrite Ea' in E.
    apply (@g2_ok_extend (g2 ++ ST ++ g3 ++ CL) tail V V' j HX Htail HV Hj2) in E.
    rewrite <- Ea in E.
    rewrite Hmax in E; [discriminate|exact Hj1|].
    rewrite Ea, app_assoc, line_len_app_nl by (apply no_nl_app; assumption).
    rewrite length_app. lia.
Qed.

End Reading.

(** ** One pass of [sub] with the render pattern *)

Section Substitution.

Variable multiline : bool.
Variables L1 ST CL EN : str.

Variable repl : Re.rmatch_obj -> str.

Lemma sub_at_no_match (fuel : nat) (p : nat) (pv : option ascii) (s : str) :
  (forall j, j <= length s -> matchable L1 ST CL EN (skipn j s) = false) ->
  Re.sub_at multiline fuel (template L1 ST CL EN) repl p pv s = s.
Proof.
  intros H. destruct fuel as [|fuel]; [reflexivity|]. cbn [Re.sub_at].
  rewrite (proj2 (search_at_none multiline L1 ST CL EN s p pv) H). reflexivity.
Qed.

(** Nothing after a match can match again: the close marker of the
    match was the last one of the text. *)
Lemma post_not_matchable (q : pieces) :
  picks L1 ST CL EN q ->
  forall j, j <= length (p_post q) ->
            matchable L1 ST CL EN (skipn j (p_post q)) = false.
Proof.
  intros (_ & _ & _ & Hclose & _) j Hj.
  destruct (matchable L1 ST CL EN (skipn j (p_post q))) eqn:E; [|reflexivity].
  exfalso. apply matchable_close in E. destruct E as (i & Hi1 & Hi2 & Hc).
  rewrite length_skipn in Hi2. rewrite skipn_skipn in Hc.
  unfold t_v in Hclose. apply find_close_suffix in Hclose.
  destruct Hclose as [_ Hmax].
  specialize (Hmax (length (t_g4 L1 EN q) + (i + j))).
  rewrite t_y_eq, skipn_length_app_add, Hc in Hmax.
  assert (Hfalse : true = false); [|discriminate].
  apply Hmax; [lia|]. rewrite length_app. lia.
Qed.

(** What [search] returns, in pieces. *)
Lemma search_pieces (t : str) (m : Re.rmatch_obj) :
  Re.search multiline (template L1 ST CL EN) t = Some m ->
  exists q,
    Re.m_start m <= length t /\
    skipn (Re.m_start m) t = t_u L1 ST CL EN q /\
    picks L1 ST CL EN q /\
    (forall j, j < Re.m_start m -> matchable L1 ST CL EN (skipn j t) = false) /\
    Re.rest (Re.m_end m) = p_post q /\
    Re.m_start m < Re.pos (Re.m_end m) /\
    Re.marks (Re.m_end m) = marks_of L1 ST CL EN q.
Proof.
  unfold Re.search. intros H. apply search_at_some in H.
  destruct H as (k & e & Hk & Hmin & Hm & He). subst m. cbn [Re.m_start Re.m_end].
  rewrite Nat.add_0_l.
  apply match_at_picks in He. destruct He as (q & Hu & Hq & He).
  rewrite skip_rest in Hu. cbn [Re.rest] in Hu.
  exists q. split; [exact Hk|]. split; [exact Hu|]. split; [exact Hq|].
  split; [exact Hmin|].
  assert (Hu' : Re.rest (skip k (Re.MState 0 None t [])) = t_u L1 ST CL EN q)
    by (rewrite skip_rest; exact Hu).
  destruct Hq as (Htail & _).
  destruct (end_state_facts L1 ST CL EN _ q Hu' Htail) as (Hr & Hp & Hmk).
  rewrite <- He in Hr, Hp, Hmk.
  rewrite skip_pos in Hp by exact Hk. rewrite skip_marks in Hmk.
  cbn [Re.pos Re.marks] in Hp, Hmk.
  split; [exact Hr|]. split; [lia|exact Hmk].
Qed.

(** Pieces that [picks] accepts, at the first matchable place, are what
    [search] returns. *)
Lemma pieces_search (t : str) (k : nat) (q : pieces) :
  k <= length t ->
  skipn k t = t_u L1 ST CL EN q ->
  picks L1 ST CL EN q ->
  (forall j, j < k -> matchable L1 ST CL EN (skipn j t) = false) ->
  exists m,
    Re.search multiline (template L1 ST CL EN) t = Some m /\
    Re.m_start m = k /\
    Re.rest (Re.m_end m) = p_post q /\
    Re.m_start m < Re.pos (Re.m_end m) /\
    Re.marks (Re.m_end m) = marks_of L1 ST CL EN q.
Proof.
  intros Hk Hu Hq Hmin.
  assert (Hu' : Re.rest (skip k (Re.MState 0 None t [])) = t_u L1 ST CL EN q)
    by (rewrite skip_rest; exact Hu).
  exists (Re.MatchObj k (end_state L1 ST CL EN (skip k (Re.MState 0 None t [])) q)).
  split.
  - unfold Re.search. apply search_at_some.
    exists k, (end_state L1 ST CL EN (skip k (Re.MState 0 None t [])) q).
    split; [exact Hk|]. split; [exact Hmin|]. split; [reflexivity|].
    apply picks_match_at; assumption.
  - cbn [Re.m_start Re.m_end].
    destruct Hq as (Htail & _).
    destruct (end_state_facts L1 ST CL EN _ q Hu' Htail) as (Hr & Hp & Hmk).
    rewrite skip_pos in Hp by exact Hk. rewrite skip_marks in Hmk.
    cbn [Re.pos Re.marks] in Hp, Hmk.
    split; [reflexivity|]. split; [exact Hr|]. split; [lia|exact Hmk].
Qed.

(** The pass replaces the one match and copies the rest. *)
Lemma sub_once (t : str) (m : Re.rmatch_obj) :
  Re.search multiline (template L1 ST CL EN) t = Some m ->
  Re.sub multiline (template L1 ST CL EN) repl t
  = firstn (Re.m_start m) t ++ repl m ++ Re.rest (Re.m_end m).
Proof.
  intros H. pose proof (@search_pieces t m H) as (q & _ & _ & Hq & _ & Hr & Hp & _).
  unfold Re.sub. cbn [Re.sub_at]. unfold Re.search in H. rewrite H.
  rewrite (proj2 (Nat.eqb_neq _ _)) by lia.
  rewrite Nat.sub_0_r.
  rewrite sub_at_no_match; [reflexivity|].
  rewrite Hr. apply post_not_matchable. exact Hq.
Qed.

Lemma sub_none (t : str) :
  Re.search multiline (template L1 ST CL EN) t = None ->
  Re.sub multiline (template L1 ST CL EN) repl t = t.
Proof.
  intros H. unfold Re.sub. cbn [Re.sub_at]. unfold Re.search in H. rewrite H.
  reflexivity.
Qed.

End Substitution.

(** ** Rendering what has been rendered *)

Lemma split_line (p : str) :
  no_nl p \/ exists p1 p2, p = p1 ++ nl :: p2 /\ no_nl p1.
Proof.
  destruct (Nat.eq_dec (line_len p) (length p)) as [E|E]; [left; exact E|].
  right. pose proof (line_len_le p) as Hle.
  destruct (@skipn_line_len p ltac:(lia)) as [r Hr].
  exists (firstn (line_len p) p), r. split.
  - rewrite <- Hr. symmetry. apply firstn_skipn.
  - apply no_nl_firstn_line. lia.
Qed.

Section Rerender.

Variable multiline : bool.
Variables L1 ST CL EN : str.
Hypothesis L1_line : no_nl L1.
Hypothesis ST_line : no_nl ST.
Hypothesis CL_line : no_nl CL.

Lemma t_u_rerendered (q : pieces) (body : str) :
  t_u L1 ST CL EN (rerendered q body)
  = (t_g1 L1 ST CL q ++ nl :: body ++ nl :: t_g4 L1 EN q) ++ p_post q.
Proof.
  rewrite t_u_eq. unfold t_w, t_v. rewrite t_y_eq. simpl.
  rewrite <- !app_assoc. simpl. rewrite <- !app_assoc. reflexivity.
Qed.

Lemma picks_lines (q : pieces) :
  picks L1 ST CL EN q ->
  no_nl (p_g2 q) /\ no_nl (p_g3 q) /\ 1 <= length (p_g3 q) /\
  closeable L1 EN (t_y L1 EN q) = true.
Proof.
  intros (_ & H2 & H3 & Hclose & _).
  unfold find_g2 in H2. apply last_idx_some in H2. destruct H2 as (Hi2 & _ & _).
  unfold find_g3 in H3. apply last_idx_some in H3. destruct H3 as (Hi3 & Hok & _).
  unfold g3_ok in Hok. apply andb_true_iff in Hok. destruct Hok as [Hok _].
  apply andb_true_iff in Hok. destruct Hok as [Hne _]. apply Nat.leb_le in Hne.
  unfold t_v in Hclose. apply find_close_suffix in Hclose. destruct Hclose as [Hc _].
  split; [|split; [|split; [exact Hne|exact Hc]]].
  - rewrite <- (firstn_length_app (p_g2 q) (ST ++ t_c L1 CL EN q)).
    apply no_nl_firstn_line. exact Hi2.
  - rewrite <- (firstn_length_app (p_g3 q) (CL ++ t_w L1 EN q)).
    apply no_nl_firstn_line. exact Hi3.
Qed.

(** The replaced text is read the way the original was. *)
Lemma picks_rerendered (q : pieces) (body : str) :
  picks L1 ST CL EN q -> picks L1 ST CL EN (rerendered q body).
Proof.
  intros Hq. destruct (picks_lines Hq) as (Hg2 & Hg3 & Hne & Hc).
  destruct Hq as (Htail & H2 & H3 & Hclose & H5).
  assert (Hclose' : find_close L1 EN (t_v L1 EN (rerendered q body))
                    = Some (length (body ++ [nl]))).
  { unfold t_v in *. apply find_close_suffix in Hclose.
    destruct Hclose as [Hc' Hmax]. apply find_close_app; assumption. }
  assert (HV : is_some (find_close L1 EN (t_v L1 EN q)) = true)
    by (rewrite Hclose; reflexivity).
  assert (HV' : is_some (find_close L1 EN (t_v L1 EN (rerendered q body))) = true)
    by (rewrite Hclose'; reflexivity).
  assert (H3' : find_g3 L1 CL EN (t_c L1 CL EN (rerendered q body))
                = Some (length (p_g3 q)))
    by (apply find_g3_trunc; assumption).
  unfold picks. split; [exact no_nl_nil|]. split; [|split; [|split]].
  - apply (@find_g2_trunc L1 ST CL EN ST_line CL_line (p_g2 q) (p_g3 q) (p_tail q)
             (t_v L1 EN q) (t_v L1 EN (rerendered q body))); assumption.
  - exact H3'.
  - exact Hclose'.
  - exact H5.
Qed.

(** Before the match, nothing matches in the replaced text either. *)
Lemma not_matchable_rerendered (q : pieces) (body p : str) :
  picks L1 ST CL EN q ->
  matchable L1 ST CL EN (p ++ t_u L1 ST CL EN (rerendered q body)) = true ->
  matchable L1 ST CL EN (p ++ t_u L1 ST CL EN q) = true.
Proof.
  intros Hq H. destruct (picks_lines Hq) as (Hg2 & Hg3 & Hne & Hc).
  destruct Hq as (Htail & H2 & H3 & Hclose & H5).
  assert (HV : is_some (find_close L1 EN (t_v L1 EN q)) = true)
    by (rewrite Hclose; reflexivity).
  assert (Hg1 : no_nl (t_g1 L1 ST CL q))
    by (unfold t_g1; repeat apply no_nl_app; assumption).
  destruct (split_line p) as [Hp|(p1 & p2 & -> & Hp1)].
  - rewrite t_u_eq in *. unfold t_w at 1 in H. simpl in H.
    rewrite app_assoc in H. rewrite app_assoc. unfold t_w.
    apply (@matchable_extend L1 ST CL EN L1_line ST_line CL_line
             (p ++ t_g1 L1 ST CL q) (p_tail q) (t_v L1 EN q)
             (t_v L1 EN (rerendered q body))); try assumption.
    apply no_nl_app; assumption.
  - rewrite <- app_assoc in *. simpl in *.
    apply (@matchable_extend L1 ST CL EN L1_line ST_line CL_line
             p1 [] (p2 ++ t_u L1 ST CL EN q)
             (p2 ++ t_u L1 ST CL EN (rerendered q body))); try assumption.
    + exact no_nl_nil.
    + assert (E : p2 ++ t_u L1 ST CL EN q
                  = (p2 ++ t_g1 L1 ST CL q ++ p_tail q ++ nl :: p_mid q) ++ t_y L1 EN q).
      { rewrite t_u_eq. unfold t_w, t_v. rewrite <- !app_assoc. cbn [app].
        reflexivity. }
      rewrite E. apply find_close_exists. exact Hc.
Qed.

End Rerender.

Section SubTwice.

Variable multiline : bool.
Variables L1 ST CL EN : str.
Hypothesis L1_line : no_nl L1.
Hypothesis ST_line : no_nl ST.
Hypothesis CL_line : no_nl CL.

(** The body between the markers, from groups 2, 5 and 3. *)
Variable body_of : str -> str -> str -> str.

Lemma repl_of_marks (m : Re.rmatch_obj) (q : pieces) :
  Re.marks (Re.m_end m) = marks_of L1 ST CL EN q ->
  (repl_of body_of) m
  = t_g1 L1 ST CL q ++ nl :: body_of (p_g2 q) (p_g5 q) (p_g3 q) ++ nl :: t_g4 L1 EN q.
Proof.
  intros H. unfold repl_of, Re.group. rewrite H. reflexivity.
Qed.

(** Substituting twice gives what substituting once gives. *)
Theorem sub_twice (t : str) :
  Re.sub multiline (template L1 ST CL EN) (repl_of body_of)
         (Re.sub multiline (template L1 ST CL EN) (repl_of body_of) t)
  = Re.sub multiline (template L1 ST CL EN) (repl_of body_of) t.
Proof.
  destruct (Re.search multiline (template L1 ST CL EN) t) as [m|] eqn:E.
  - destruct (@search_pieces multiline L1 ST CL EN t m E)
      as (q & Hk & Hu & Hq & Hmin & Hr & Hp & Hmk).
    rewrite (@sub_once multiline L1 ST CL EN (repl_of body_of) t m E).
    rewrite (@repl_of_marks m q Hmk), Hr.
    set (k := Re.m_start m) in *.
    set (body := body_of (p_g2 q) (p_g5 q) (p_g3 q)).
    assert (Hlen : length (firstn k t) = k) by (apply firstn_length_le; exact Hk).
    assert (Et : (t_g1 L1 ST CL q ++ nl :: body ++ nl :: t_g4 L1 EN q) ++ p_post q
                 = t_u L1 ST CL EN (rerendered q body))
      by (symmetry; apply t_u_rerendered).
    assert (Ht : t = firstn k t ++ t_u L1 ST CL EN q)
      by (rewrite <- Hu; symmetry; apply firstn_skipn).
    set (t' := firstn k t ++ (t_g1 L1 ST CL q ++ nl :: body ++ nl :: t_g4 L1 EN q)
                 ++ p_post q).
    assert (Ht' : t' = firstn k t ++ t_u L1 ST CL EN (rerendered q body))
      by (unfold t'; rewrite Et; reflexivity).
    destruct (@pieces_search multiline L1 ST CL EN t' k (rerendered q body))
      as (m' & E' & Hs' & Hr' & Hp' & Hmk').
    + rewrite Ht', length_app. lia.
    + rewrite Ht'. rewrite <- Hlen at 1. apply skipn_length_app.
    + apply picks_rerendered; assumption.
    + intros j Hj.
      destruct (matchable L1 ST CL EN (skipn j t')) eqn:Em; [|reflexivity].
      rewrite Ht' in Em. rewrite skipn_le_app in Em by lia.
      apply (@not_matchable_rerendered L1 ST CL EN L1_line ST_line CL_line) in Em;
        [|exact Hq].
      rewrite <- skipn_le_app in Em by lia. rewrite <- Ht in Em.
      rewrite (Hmin j Hj) in Em. discriminate.
    + rewrite (@sub_once multiline L1 ST CL EN (repl_of body_of) t' m' E').
      rewrite (@repl_of_marks m' _ Hmk'), Hr', Hs'.
      unfold t' at 1. rewrite <- Hlen at 1. rewrite firstn_length_app.
      reflexivity.
  - rewrite !(@sub_none multiline L1 ST CL EN (repl_of body_of) t E). reflexivity.
Qed.

End SubTwice.

(* ================================================================= *)
(** * The render pass *)

Lemma list_render_template_is_template :
  list_render_template = template open_lit start_lit braces_lit end_lit.
Proof. reflexivity. Qed.

Lemma _render_list_is_repl (w : Site) (m : Re.rmatch_obj) :
  _render_list w m = repl_of (list_text w) m.
Proof. reflexivity. Qed.

Lemma render_is_sub (w : Site) (text : str) :
  render w text
  = Re.sub true (template open_lit start_lit braces_lit end_lit)
           (repl_of (list_text w)) text.
Proof. reflexivity. Qed.

(** The render pass rewrites at most one span: from the first open
    marker that can be matched to the last close marker. *)
Lemma render_once (w : Site) (text : str) (m : Re.rmatch_obj) :
  Re.search true list_render_template text = Some m ->
  render w text
  = firstn (Re.m_start m) text ++ _render_list w m ++ Re.rest (Re.m_end m).
Proof.
  intros H. rewrite render_is_sub.
  rewrite list_render_template_is_template in H.
  rewrite (@sub_once true open_lit start_lit braces_lit end_lit
             (repl_of (list_text w)) text m H).
  reflexivity.
Qed.

Lemma render_no_match (w : Site) (text : str) :
  Re.search true list_render_template text = None -> render w text = text.
Proof.
  intros H. rewrite render_is_sub.
  rewrite list_render_template_is_template in H.
  apply sub_none. exact H.
Qed.

(** The text a match was found in, around the two markers. *)
Lemma match_span (text : str) (m : Re.rmatch_obj) :
  Re.search true list_render_template text = Some m ->
  exists between,
    text = firstn (Re.m_start m) text ++ Re.group m 1 ++ between
             ++ Re.group m 4 ++ Re.rest (Re.m_end m) /\
    In nl between.
Proof.
  intros H. rewrite list_render_template_is_template in H.
  destruct (@search_pieces true open_lit start_lit braces_lit end_lit text m H)
    as (q & Hk & Hu & Hq & _ & Hr & _ & Hmk).
  exists (p_tail q ++ nl :: p_mid q). split.
  - unfold Re.group. rewrite Hmk, Hr. unfold marks_of. cbn [Re.lookup_mark Nat.eqb].
    rewrite <- (firstn_skipn (Re.m_start m) text) at 1. f_equal.
    rewrite Hu, t_u_eq. unfold t_w, t_v. rewrite t_y_eq.
    rewrite <- !app_assoc. reflexivity.
  - apply in_or_app. right. left. reflexivity.
Qed.

(** ** Claims about the render pass *)

(** C7: for every site (the snapshot of the list pages) and every text,
    rendering the rendered text gives the rendered text. *)
Theorem render_idempotent (w : Site) (text : str) :
  render w (render w text) = render w text.
Proof.
  rewrite !render_is_sub. apply sub_twice; reflexivity.
Qed.


(* ================================================================= *)
(** * Where upsert is idempotent *)

Lemma split_nl_line (l : str) : no_nl l -> Py.split_nl l = [l].
Proof.
  unfold no_nl. induction l as [|c l IH]; simpl; [reflexivity|].
  destruct (Ascii.eqb c nl); intros H; [discriminate|].
  rewrite IH by lia. reflexivity.
Qed.

Lemma split_nl_app (l rest : str) :
  no_nl l -> Py.split_nl (l ++ nl :: rest) = l :: Py.split_nl rest.
Proof.
  unfold no_nl. induction l as [|c l IH]; simpl; [reflexivity|].
  destruct (Ascii.eqb c nl); intros H; [discriminate|].
  rewrite IH by lia. reflexivity.
Qed.

(** The lines of a text have no newline. *)
Lemma split_nl_lines (s : str) : Forall no_nl (Py.split_nl s).
Proof.
  induction s as [|c s IH]; simpl.
  - constructor; [exact no_nl_nil|constructor].
  - destruct (Ascii.eqb c nl) eqn:E.
    + constructor; [exact no_nl_nil|exact IH].
    + destruct (Py.split_nl s) as [|l ls].
      * constructor; [|constructor].
        unfold no_nl. simpl. rewrite E. reflexivity.
      * inversion IH as [|? ? Hl Hls]. subst. constructor; [|exact Hls].
        unfold no_nl in *. simpl. rewrite E, Hl. reflexivity.
Qed.

(** Joining lines and splitting the text again gives the lines back. *)
Lemma split_join (ls : list str) :
  ls <> [] -> Forall no_nl ls -> Py.split_nl (Py.join_nl ls) = ls.
Proof.
  induction ls as [|l ls IH]; intros Hne Hls; [contradiction|].
  inversion Hls as [|? ? Hl Hrest]. subst.
  destruct ls as [|l2 ls].
  - simpl. apply split_nl_line. exact Hl.
  - change (Py.join_nl (l :: l2 :: ls)) with (l ++ nl :: Py.join_nl (l2 :: ls)).
    rewrite split_nl_app by exact Hl. f_equal. apply IH; [discriminate|exact Hrest].
Qed.

Lemma no_nl_section_of (title : str) : no_nl title -> no_nl (section_of title).
Proof.
  intros H. unfold section_of. repeat apply no_nl_app; try exact H;
    unfold no_nl; reflexivity.
Qed.

(** X15: a block with at least one line, whose lines have no newline and
    are neither heading lines nor the section heading, from a source whose
    title has no newline, merged into a list page that holds the
    heading at most once: merging it a second time changes no page. *)
Theorem upsert_twice_nonempty (w : Site) (content : list str) (title list_name : str) :
  content <> [] ->
  no_nl title ->
  Forall no_nl content ->
  Forall (body_line (section_of title)) content ->
  at_most_once (section_of title) (_get_page_text w (list_page_name list_name)) ->
  let once := _add_to_list w content title list_name in
  let twice := _add_to_list once content title list_name in
  forall name, pages twice name = pages once name.
Proof.
  intros Hne Htitle Hlines Hbody Honce once twice name.
  destruct (Py.str_eqb name (list_page_name list_name)) eqn:E.
  - apply str_eqb_eq in E. subst name. unfold twice, once.
    rewrite !_add_to_list_text.
    set (page_lines := _get_page_text w (list_page_name list_name)) in *.
    assert (Hsplit : _get_page_text (_add_to_list w content title list_name)
                                    (list_page_name list_name)
                     = added_lines page_lines content title).
    { unfold _get_page_text at 1. unfold page_text. simpl p_text. cbv iota.
      simpl p_title. rewrite _add_to_list_text. fold page_lines.
      apply split_join.
      - unfold added_lines, add_content.
        destruct content as [|c content]; [contradiction|].
        intros H. apply app_eq_nil in H. destruct H as [_ H]. discriminate.
      - unfold added_lines, add_content.
        destruct content as [|c content]; [contradiction|].
        apply Forall_app. split; [apply Forall_app; split|exact Hlines].
        + apply Forall_forall. intros x Hx. apply in_remove_section in Hx.
          pose proof (split_nl_lines (page_text w (_get_page (list_page_name list_name))))
            as Hall.
          rewrite Forall_forall in Hall. apply Hall. exact Hx.
        + constructor; [apply no_nl_section_of; exact Htitle|constructor]. }
    rewrite Hsplit, added_lines_twice by assumption. reflexivity.
  - apply str_eqb_neq in E. unfold twice.
    rewrite _add_to_list_other by exact E. reflexivity.
Qed.

Lemma upsert_twice_nonempty_witness :
  pages (_add_to_list (_add_to_list Sample.wiki [lit "kiwi"] (lit "B") (lit "X"))
                      [lit "kiwi"] (lit "B") (lit "X")) (lit "ListGenBot X")
  = pages (_add_to_list Sample.wiki [lit "kiwi"] (lit "B") (lit "X")) (lit "ListGenBot X").
Proof.
  apply (fun h1 h2 h3 h4 h5 =>
           @upsert_twice_nonempty Sample.wiki [lit "kiwi"] (lit "B") (lit "X")
             h1 h2 h3 h4 h5 (lit "ListGenBot X")).
  - discriminate.
  - reflexivity.
  - repeat constructor.
  - repeat constructor; discriminate.
  - right. exists [lit "==A=="; lit "banana"; lit "apple"], [lit "cherry"].
    split; [reflexivity|]. split.
    + simpl. intuition discriminate.
    + simpl. intuition discriminate.
Defined.

(* ================================================================= *)
(** * The other patterns *)

(** ** [search] with any pattern *)

Section SearchFacts.

Variable multiline : bool.
Variable r : Re.regex.

Lemma search_at_none_gen (s : str) :
  forall p pv,
    Re.search_at multiline r p pv s = None
    <-> forall j, j <= length s ->
                  Re.rmatch multiline r (skip j (Re.MState p pv s [])) Some = None.
Proof.
  induction s as [|c s IH]; intros p pv; cbn [Re.search_at].
  - split.
    + intros H j Hj. simpl in Hj. replace j with 0 by lia. simpl.
      destruct (Re.rmatch multiline r (Re.MState p pv [] []) Some); congruence.
    + intros H. pose proof (H 0 (Nat.le_refl _)) as H0. cbn [skip] in H0.
      rewrite H0. reflexivity.
  - destruct (Re.rmatch multiline r (Re.MState p pv (c :: s) []) Some) eqn:E.
    + split; [discriminate|]. intros H. specialize (H 0 (Nat.le_0_l _)).
      simpl in H. congruence.
    + rewrite IH. split.
      * intros H [|j] Hj; [exact E|]. apply (H j). simpl in Hj. lia.
      * intros H j Hj. apply (H (S j)). simpl. lia.
Qed.

Lemma search_at_some_gen (s : str) :
  forall p pv m,
    Re.search_at multiline r p pv s = Some m
    <-> exists k e,
        k <= length s /\
        (forall j, j < k ->
                   Re.rmatch multiline r (skip j (Re.MState p pv s [])) Some = None) /\
        m = Re.MatchObj (p + k) e /\
        Re.rmatch multiline r (skip k (Re.MState p pv s [])) Some = Some e.
Proof.
  induction s as [|c s IH]; intros p pv m; cbn [Re.search_at].
  - split.
    + intros H.
      destruct (Re.rmatch multiline r (Re.MState p pv [] []) Some) as [e|] eqn:E;
        [|discriminate].
      injection H as <-. exists 0, e. rewrite Nat.add_0_r.
      split; [simpl; lia|]. split; [intros j Hj; lia|]. split; [reflexivity|exact E].
    + intros (k & e & Hk & _ & Hm & He). simpl in Hk.
      replace k with 0 in * by lia. rewrite Nat.add_0_r in Hm. simpl in He.
      rewrite He, Hm. reflexivity.
  - destruct (Re.rmatch multiline r (Re.MState p pv (c :: s) []) Some) as [e|] eqn:E.
    + split.
      * intros H. injection H as <-. exists 0, e. rewrite Nat.add_0_r.
        split; [simpl; lia|]. split; [intros j Hj; lia|].
        split; [reflexivity|exact E].
      * intros (k & e' & Hk & Hmin & Hm & He).
        destruct k as [|k].
        -- rewrite Nat.add_0_r in Hm. simpl in He. congruence.
        -- specialize (Hmin 0 (Nat.lt_0_succ k)). simpl in Hmin. congruence.
    + rewrite IH. split.
      * intros (k & e & Hk & Hmin & Hm & He).
        exists (S k), e. simpl length. split; [lia|]. split; [|split].
        -- intros [|j] Hj; [exact E|]. apply (Hmin j). lia.
        -- rewrite Hm. f_equal. lia.
        -- exact He.
      * intros (k & e & Hk & Hmin & Hm & He).
        destruct k as [|k]; [simpl in He; congruence|].
        exists k, e. simpl in Hk. split; [lia|]. split; [|split].
        -- intros j Hj. apply (Hmin (S j)). lia.
        -- rewrite Hm. f_equal. lia.
        -- exact He.
Qed.

End SearchFacts.

(** ** Occurrences *)

Lemma occurs_prefixb (x s : str) :
  occurs x s <-> exists j, j <= length s /\ prefixb x (skipn j s) = true.
Proof.
  split.
  - intros (pre & post & ->). exists (length pre). split.
    + rewrite length_app. lia.
    + rewrite skipn_length_app. apply prefixb_app.
  - intros (j & Hj & H). apply prefixb_true in H.
    exists (firstn j s), (skipn (length x) (skipn j s)).
    rewrite <- H. symmetry. apply firstn_skipn.
Qed.

Lemma search_Lits (multiline : bool) (x line : str) :
  Re.search multiline (Re.Lits x) line <> None <-> occurs x line.
Proof.
  rewrite occurs_prefixb. unfold Re.search. split.
  - intros H.
    destruct (Re.search_at multiline (Re.Lits x) 0 None line) as [m|] eqn:E;
      [|contradiction].
    apply search_at_some_gen in E. destruct E as (k & e & Hk & _ & _ & He).
    exists k. split; [exact Hk|].
    rewrite rmatch_Lits, skip_rest in He. cbn [Re.rest] in He.
    destruct (prefixb x (skipn k line)); [reflexivity|discriminate].
  - intros (j & Hj & Hp) H. rewrite search_at_none_gen in H.
    specialize (H j Hj). rewrite rmatch_Lits, skip_rest in H. cbn [Re.rest] in H.
    rewrite Hp in H. discriminate.
Qed.

(** X1: a line is a content-end marker exactly when the end text occurs
    somewhere in it. *)
Theorem find_list_content_end_iff (line : str) :
  _find_list_content_end line = true <-> occurs source_end_lit line.
Proof.
  unfold _find_list_content_end. rewrite <- (search_Lits false).
  change list_content_end with (Re.Lits source_end_lit).
  destruct (Re.search false (Re.Lits source_end_lit) line); split; intros H;
    try reflexivity; try discriminate; try congruence.
Qed.

(** ** The content-start pattern *)

Lemma content_start_rmatch (st : Re.mstate) :
  Re.rmatch false list_content_start st Some
  = if prefixb source_start_lit (Re.rest st) then
      let st1 := skip (length source_start_lit) st in
      match line_len (Re.rest st1) with
      | 0 => None
      | S n =>
          match last_idx (fun i => prefixb close_lit (skipn (S i) (Re.rest st1))) n with
          | Some i => Some (skip (length close_lit)
                                 (Re.set_mark 1 st1 (skip (S i) st1)))
          | None => None
          end
      end
    else None.
Proof.
  change list_content_start
    with (Re.Seq (Re.Lits source_start_lit)
                 (Re.Seq (Re.Group 1 (Re.Plus Re.Dot)) (Re.Lits close_lit))).
  rewrite rmatch_seq, rmatch_Lits.
  destruct (prefixb source_start_lit (Re.rest st)); [|reflexivity].
  cbv zeta. set (st1 := skip (length source_start_lit) st).
  rewrite rmatch_seq, rmatch_group, rmatch_plus_dot.
  destruct (line_len (Re.rest st1)) as [|n] eqn:El; [reflexivity|].
  rewrite (@first_down_ext _ _
             (fun i => if prefixb close_lit (skipn (S i) (Re.rest st1))
                       then Some (skip (length close_lit)
                                       (Re.set_mark 1 st1 (skip (S i) st1)))
                       else None)).
  - apply first_down_guard. intros i _ _. discriminate.
  - intros i _. rewrite rmatch_Lits.
    replace (Re.rest (Re.set_mark 1 st1 (skip (S i) st1)))
      with (skipn (S i) (Re.rest st1)); [reflexivity|].
    unfold Re.set_mark. cbn [Re.rest]. symmetry. apply skip_rest.
Qed.

Lemma content_start_rmatch_name (k : nat) (line : str) :
  match Re.rmatch false list_content_start (skip k (Re.MState 0 None line [])) Some with
  | Some e => start_name_at (skipn k line) = Some (Re.lookup_mark 1 (Re.marks e))
  | None => start_name_at (skipn k line) = None
  end.
Proof.
  rewrite content_start_rmatch. unfold start_name_at.
  rewrite skip_rest. cbn [Re.rest].
  destruct (prefixb source_start_lit (skipn k line)) eqn:Ep; [|reflexivity].
  cbv zeta. rewrite skip_rest, skip_rest. cbn [Re.rest].
  set (v := skipn (length source_start_lit) (skipn k line)).
  destruct (line_len v) as [|n] eqn:El; [reflexivity|].
  destruct (last_idx (fun i => prefixb close_lit (skipn (S i) v)) n) as [i|] eqn:Ei;
    [|reflexivity].
  apply last_idx_some in Ei. destruct Ei as (Hi & _ & _).
  rewrite skip_marks. unfold Re.set_mark. cbn [Re.marks Re.lookup_mark].
  cbn [Nat.eqb]. rewrite skip_rest, skip_rest. cbn [Re.rest]. fold v.
  f_equal. f_equal.
  set (st1 := skip (length source_start_lit) (skip k (Re.MState 0 None line []))).
  assert (Hv : Re.rest st1 = v).
  { unfold st1. rewrite skip_rest, skip_rest. reflexivity. }
  rewrite skip_pos.
  - lia.
  - rewrite Hv. pose proof (line_len_le v). lia.
Qed.

Lemma start_name_at_some (u name : str) :
  start_name_at u = Some name <->
  exists post,
    u = source_start_lit ++ name ++ close_lit ++ post /\
    name <> [] /\ no_nl name /\
    forall name' post',
      name ++ close_lit ++ post = name' ++ close_lit ++ post' ->
      no_nl name' -> length name' <= length name.
Proof.
  unfold start_name_at. split.
  - destruct (prefixb source_start_lit u) eqn:Ep; [|discriminate].
    apply prefixb_true in Ep. cbv zeta.
    set (v := skipn (length source_start_lit) u) in *.
    destruct (line_len v) as [|n] eqn:El; [discriminate|].
    destruct (last_idx (fun i => prefixb close_lit (skipn (S i) v)) n) as [i|] eqn:Ei;
      [|discriminate].
    intros H. assert (En : firstn (S i) v = name) by congruence.
    clear H. subst name.
    apply last_idx_some in Ei. destruct Ei as (Hi & Hp & Hmax).
    pose proof (line_len_le v) as Hle.
    assert (Hlen : length (firstn (S i) v) = S i) by (rewrite length_firstn; lia).
    apply prefixb_true in Hp.
    exists (skipn (length close_lit) (skipn (S i) v)).
    rewrite <- Hp, firstn_skipn. split; [exact Ep|]. split; [|split].
    + intros E. rewrite E in Hlen. discriminate.
    + apply no_nl_firstn_line. lia.
    + intros name' post' E Hn'. rewrite Hlen.
      destruct (le_lt_dec (length name') (S i)) as [Hc|Hc]; [exact Hc|exfalso].
      destruct (length name') as [|j] eqn:Ej; [lia|].
      assert (Hj : j <= n).
      { rewrite E, line_len_app in El by exact Hn'. lia. }
      assert (Hij : i < j) by lia.
      pose proof (Hmax j Hij Hj) as Hf.
      rewrite E, <- Ej, skipn_length_app, prefixb_app in Hf. discriminate.
  - intros (post & -> & Hne & Hn & Hmax).
    rewrite prefixb_app, (skipn_length_app source_start_lit). cbv zeta.
    set (v := name ++ close_lit ++ post).
    assert (Hl : length name <= line_len v).
    { unfold v. rewrite line_len_app by exact Hn. lia. }
    assert (Hpos : length name <> 0) by (destruct name; [contradiction|discriminate]).
    set (m := length name - 1).
    assert (Hlen : length name = S m) by (unfold m; lia).
    destruct (line_len v) as [|n] eqn:El; [lia|].
    assert (Hp0 : prefixb close_lit (skipn (S m) v) = true).
    { rewrite <- Hlen. unfold v. rewrite (skipn_length_app name). apply prefixb_app. }
    destruct (last_idx (fun i => prefixb close_lit (skipn (S i) v)) n) as [i|] eqn:Ei.
    + apply last_idx_some in Ei. destruct Ei as (Hi & Hp & Hmx).
      pose proof (line_len_le v) as Hle.
      assert (Hge : m <= i).
      { destruct (le_lt_dec (m) i) as [Hc|Hc]; [exact Hc|exfalso].
        rewrite (Hmx (m)) in Hp0 by lia. discriminate. }
      apply prefixb_true in Hp.
      assert (Hfl : length (firstn (S i) v) = S i) by (rewrite length_firstn; lia).
      assert (Hle' : length (firstn (S i) v) <= length name).
      { apply (Hmax (firstn (S i) v) (skipn (length close_lit) (skipn (S i) v))).
        - rewrite <- Hp, firstn_skipn. reflexivity.
        - apply no_nl_firstn_line. lia. }
      f_equal. replace (S i) with (length name) by lia.
      unfold v. apply firstn_length_app.
    + rewrite last_idx_none in Ei. rewrite (Ei (m)) in Hp0 by lia.
      discriminate.
Qed.

Lemma start_name_at_is_some (u : str) :
  start_name_at u <> None <->
  exists name post,
    u = source_start_lit ++ name ++ close_lit ++ post /\ name <> [] /\ no_nl name.
Proof.
  split.
  - destruct (start_name_at u) as [name|] eqn:E; [|intros H; contradiction].
    intros _. apply start_name_at_some in E. destruct E as (post & Hu & Hne & Hn & _).
    exists name, post. auto.
  - intros (name & post & -> & Hne & Hn). unfold start_name_at.
    rewrite prefixb_app, (skipn_length_app source_start_lit). cbv zeta.
    set (v := name ++ close_lit ++ post).
    assert (Hl : length name <= line_len v).
    { unfold v. rewrite line_len_app by exact Hn. lia. }
    assert (Hpos : length name <> 0) by (destruct name; [contradiction|discriminate]).
    set (m := length name - 1).
    assert (Hlen : length name = S m) by (unfold m; lia).
    destruct (line_len v) as [|n] eqn:El; [lia|].
    assert (Hp0 : prefixb close_lit (skipn (S m) v) = true).
    { rewrite <- Hlen. unfold v. rewrite (skipn_length_app name). apply prefixb_app. }
    destruct (last_idx (fun i => prefixb close_lit (skipn (S i) v)) n) as [i|] eqn:Ei;
      [discriminate|].
    rewrite last_idx_none in Ei. rewrite (Ei (m)) in Hp0 by lia.
    discriminate.
Qed.

Lemma content_start_at_skipn (line pre name post : str) :
  content_start_at line pre name post ->
  length pre <= length line /\
  skipn (length pre) line = source_start_lit ++ name ++ close_lit ++ post.
Proof.
  intros (-> & _ & _). split.
  - rewrite length_app. lia.
  - apply skipn_length_app.
Qed.

(** X2: the name found on a line is the one of the leftmost
    content-start marker of the line, taken as long as the line allows;
    it is never empty and holds no newline. *)
Theorem find_list_content_start_name (line name : str) :
  _find_list_content_start line = Some name <->
  exists pre post,
    content_start_at line pre name post /\
    forall pre' name' post',
      content_start_at line pre' name' post' ->
      length pre <= length pre' /\
      (length pre' = length pre -> length name' <= length name).
Proof.
  unfold _find_list_content_start, Re.search. split.
  - destruct (Re.search_at false list_content_start 0 None line) as [m|] eqn:E;
      [|discriminate].
    intros H. injection H as <-.
    apply search_at_some_gen in E. destruct E as (k & e & Hk & Hmin & -> & He).
    pose proof (content_start_rmatch_name k line) as Hn. rewrite He in Hn.
    unfold Re.group. cbn [Re.m_end].
    set (name := Re.lookup_mark 1 (Re.marks e)) in *.
    apply start_name_at_some in Hn. destruct Hn as (post & Hu & Hne & Hnn & Hmax).
    assert (Hlen : length (firstn k line) = k) by (rewrite length_firstn; lia).
    exists (firstn k line), post. split.
    + split; [|split; assumption].
      rewrite <- Hu. symmetry. apply firstn_skipn.
    + intros pre' name' post' Hc.
      pose proof (content_start_at_skipn Hc) as (Hle & Hs).
      destruct Hc as (_ & Hne' & Hnn').
      rewrite Hlen. split.
      * destruct (le_lt_dec k (length pre')) as [Hc|Hc]; [exact Hc|exfalso].
        pose proof (content_start_rmatch_name (length pre') line) as Hn.
        rewrite (Hmin _ Hc) in Hn.
        assert (Hs' : start_name_at (skipn (length pre') line) <> None).
        { apply start_name_at_is_some. exists name', post'. auto. }
        contradiction.
      * intros El. rewrite El, Hu in Hs.
        apply app_inv_head in Hs. exact (Hmax name' post' Hs Hnn').
  - intros (pre & post & Hc & Hbest).
    pose proof (content_start_at_skipn Hc) as (Hle & Hs).
    assert (Hat : start_name_at (skipn (length pre) line) = Some name).
    { apply start_name_at_some. exists post.
      destruct Hc as (Hline & Hne & Hnn). split; [exact Hs|]. split; [exact Hne|].
      split; [exact Hnn|].
      intros name' post' E Hnn'.
      destruct (list_eq_dec ascii_dec name' []) as [->|Hne']; [simpl; lia|].
      apply (Hbest pre name' post'); [|reflexivity].
      split; [|split; assumption].
      rewrite Hline, E. reflexivity. }
    pose proof (content_start_rmatch_name (length pre) line) as Hn.
    destruct (Re.rmatch false list_content_start
                        (skip (length pre) (Re.MState 0 None line [])) Some)
      as [e|] eqn:He; [|congruence].
    assert (Hsearch : Re.search_at false list_content_start 0 None line
                      = Some (Re.MatchObj (0 + length pre) e)).
    { apply search_at_some_gen. exists (length pre), e.
      split; [exact Hle|]. split; [|split; [reflexivity|exact He]].
      intros j Hj.
      pose proof (content_start_rmatch_name j line) as Hj'.
      destruct (Re.rmatch false list_content_start
                          (skip j (Re.MState 0 None line [])) Some)
        as [e'|] eqn:He'; [exfalso|reflexivity].
      apply start_name_at_some in Hj'. destruct Hj' as (post' & Hu' & Hne' & Hnn' & _).
      assert (Hc' : content_start_at line (firstn j line)
                                     (Re.lookup_mark 1 (Re.marks e')) post').
      { split; [|split; assumption]. rewrite <- Hu'. symmetry. apply firstn_skipn. }
      apply Hbest in Hc'. rewrite length_firstn in Hc'. lia. }
    rewrite Hsearch. unfold Re.group. cbn [Re.m_end]. congruence.
Qed.

(** X3: a line opens a content block exactly when it holds the open
    text, then one or more characters without a newline, then the close
    text. *)
Theorem find_list_content_start_found (line : str) :
  _find_list_content_start line <> None <->
  exists pre name post, content_start_at line pre name post.
Proof.
  unfold _find_list_content_start, Re.search. split.
  - destruct (Re.search_at false list_content_start 0 None line) as [m|] eqn:E;
      [|intros H; contradiction].
    intros _.
    apply search_at_some_gen in E. destruct E as (k & e & Hk & _ & _ & He).
    pose proof (content_start_rmatch_name k line) as Hn. rewrite He in Hn.
    apply start_name_at_some in Hn. destruct Hn as (post & Hu & Hne & Hnn & _).
    exists (firstn k line), (Re.lookup_mark 1 (Re.marks e)), post.
    split; [|split; assumption].
    rewrite <- Hu. symmetry. apply firstn_skipn.
  - intros (pre & name & post & Hc).
    pose proof (content_start_at_skipn Hc) as (Hle & Hs).
    destruct Hc as (_ & Hne & Hnn).
    destruct (Re.search_at false list_content_start 0 None line) as [m|] eqn:E;
      [intros H; discriminate H|exfalso].
    rewrite search_at_none_gen in E. specialize (E (length pre) Hle).
    pose proof (content_start_rmatch_name (length pre) line) as Hn.
    rewrite E in Hn. revert Hn. apply start_name_at_is_some.
    exists name, post. auto.
Qed.

(** ** Repetitions of one character class *)

Lemma first_down_found (A : Type) (f : nat -> option A) (n : nat) :
  first_down f n <> None <-> exists i, i <= n /\ f i <> None.
Proof.
  split.
  - intros H. destruct (first_down f n) as [e|] eqn:E; [|contradiction].
    apply first_down_some in E. destruct E as (i & Hi & Hf & _).
    exists i. split; [exact Hi|congruence].
  - intros (i & Hi & Hf) E. rewrite first_down_none in E. exact (Hf (E i Hi)).
Qed.

Lemma run_len_le (p : ascii -> bool) (u : str) : run_len p u <= length u.
Proof.
  induction u as [|c u IH]; simpl; [lia|]. destruct (p c); simpl; lia.
Qed.

Lemma run_len_firstn (p : ascii -> bool) (u : str) :
  forall i, i <= run_len p u -> Forall (fun c => p c = true) (firstn i u).
Proof.
  induction u as [|c u IH]; intros i Hi.
  - rewrite firstn_nil. constructor.
  - destruct i as [|i]; [constructor|]. simpl in *.
    destruct (p c) eqn:Ec; [|lia]. constructor; [exact Ec|]. apply IH. lia.
Qed.

Lemma run_len_app (p : ascii -> bool) (x y : str) :
  Forall (fun c => p c = true) x -> run_len p (x ++ y) = length x + run_len p y.
Proof.
  induction 1 as [|c x Hc _ IH]; simpl; [reflexivity|].
  rewrite Hc, IH. reflexivity.
Qed.

Section ClassShapes.

Variable multiline : bool.
Variable a : Re.regex.
Variable p : ascii -> bool.

Hypothesis a_class :
  forall st k,
    Re.rmatch multiline a st k
    = match Re.rest st with
      | x :: _ => if p x then k (Re.advance st) else None
      | [] => None
      end.

(** Greedy repetition of a class: the longest run first, then shorter ones. *)
Lemma rmatch_star_class (k : Re.mstate -> option Re.mstate) :
  forall u st,
    Re.rest st = u ->
    Re.rmatch multiline (Re.Star a) st k
    = first_down (fun i => k (skip i st)) (run_len p u).
Proof.
  induction u as [|x u IH]; intros st E; rewrite rmatch_star, a_class.
  - rewrite E. simpl. destruct (k st); reflexivity.
  - rewrite E. simpl run_len. destruct (p x) eqn:Ex.
    + assert (Ea : Re.rest (Re.advance st) = u)
        by (unfold Re.advance; rewrite E; reflexivity).
      rewrite Ea. simpl length. rewrite (proj2 (Nat.ltb_lt _ _)) by lia.
      rewrite (IH (Re.advance st) Ea). rewrite first_down_shift. reflexivity.
    + simpl. destruct (k st); reflexivity.
Qed.

Lemma rmatch_plus_class (k : Re.mstate -> option Re.mstate) (st : Re.mstate) :
  Re.rmatch multiline (Re.Plus a) st k
  = match run_len p (Re.rest st) with
    | 0 => None
    | S n => first_down (fun i => k (skip (S i) st)) n
    end.
Proof.
  unfold Re.Plus. rewrite rmatch_seq, a_class.
  destruct (Re.rest st) as [|x u] eqn:E; [reflexivity|]. simpl run_len.
  destruct (p x); [|reflexivity].
  apply rmatch_star_class. unfold Re.advance. rewrite E. reflexivity.
Qed.

End ClassShapes.

Section ClassGroups.

Variable multiline : bool.
Variable a : Re.regex.
Variable p : ascii -> bool.

Hypothesis a_class :
  forall st k,
    Re.rmatch multiline a st k
    = match Re.rest st with
      | x :: _ => if p x then k (Re.advance st) else None
      | [] => None
      end.

Variable r : Re.regex.
Variable R : str -> Prop.

Hypothesis r_reads :
  forall st, Re.rmatch multiline r st Some <> None <-> R (Re.rest st).

Lemma found_group_plus (n : nat) (st : Re.mstate) :
  Re.rmatch multiline (Re.Seq (Re.Group n (Re.Plus a)) r) st Some <> None
  <-> exists i, S i <= run_len p (Re.rest st) /\ R (skipn (S i) (Re.rest st)).
Proof.
  rewrite rmatch_seq, rmatch_group, (@rmatch_plus_class multiline a p a_class).
  destruct (run_len p (Re.rest st)) as [|m].
  - split; [intros H; contradiction|]. intros (i & Hi & _). lia.
  - rewrite first_down_found. split.
    + intros (i & Hi & H). exists i. split; [lia|].
      apply r_reads in H. unfold Re.set_mark in H. cbn [Re.rest] in H.
      rewrite skip_rest in H. exact H.
    + intros (i & Hi & H). exists i. split; [lia|].
      apply r_reads. unfold Re.set_mark. cbn [Re.rest].
      rewrite skip_rest. exact H.
Qed.

Lemma found_group_star (n : nat) (st : Re.mstate) :
  Re.rmatch multiline (Re.Seq (Re.Group n (Re.Star a)) r) st Some <> None
  <-> exists i, i <= run_len p (Re.rest st) /\ R (skipn i (Re.rest st)).
Proof.
  rewrite rmatch_seq, rmatch_group,
    (@rmatch_star_class multiline a p a_class _ (Re.rest st) st eq_refl).
  rewrite first_down_found. split.
  - intros (i & Hi & H). exists i. split; [lia|].
    apply r_reads in H. unfold Re.set_mark in H. cbn [Re.rest] in H.
    rewrite skip_rest in H. exact H.
  - intros (i & Hi & H). exists i. split; [lia|].
    apply r_reads. unfold Re.set_mark. cbn [Re.rest].
    rewrite skip_rest. exact H.
Qed.

End ClassGroups.

(** ** The title pattern *)

Lemma lit_class (multiline : bool) (c : ascii) (st : Re.mstate)
  (k : Re.mstate -> option Re.mstate) :
  Re.rmatch multiline (Re.Lit c) st k
  = match Re.rest st with
    | x :: _ => if Ascii.eqb x c then k (Re.advance st) else None
    | [] => None
    end.
Proof. reflexivity. Qed.

Lemma notlit_class (multiline : bool) (c : ascii) (st : Re.mstate)
  (k : Re.mstate -> option Re.mstate) :
  Re.rmatch multiline (Re.NotLit c) st k
  = match Re.rest st with
    | x :: _ => if negb (Ascii.eqb x c) then k (Re.advance st) else None
    | [] => None
    end.
Proof.
  cbn [Re.rmatch]. destruct (Re.rest st) as [|x u]; [reflexivity|].
  destruct (Ascii.eqb x c); reflexivity.
Qed.

Lemma title_tail_rmatch (st : Re.mstate) :
  Re.rmatch false (Re.Seq (Re.Opt (Re.Lit " "%char)) Re.Eol) st Some <> None
  <-> title_tail (Re.rest st) = true.
Proof.
  destruct st as [ps pv rs ms]. cbn [Re.rmatch Re.rest].
  unfold Re.at_eol, Re.advance. cbn [Re.rest].
  destruct rs as [|c [|d [|e rs]]]; cbn [title_tail Re.rest orb andb];
    try (destruct (Ascii.eqb c " "%char) eqn:Ec;
         [apply Ascii.eqb_eq in Ec; subst c;
          change (Ascii.eqb " "%char nl) with false|]);
    try destruct (Ascii.eqb c nl);
    try destruct (Ascii.eqb d nl);
    cbn [Re.rest orb andb];
    split; intros H; try reflexivity; try discriminate; congruence.
Qed.

Lemma title_rmatch (st : Re.mstate) :
  Re.prev st = None ->
  Re.rmatch false title_search st Some <> None
  <-> exists i,
      S i <= run_len is_eq_sign (Re.rest st) /\
      exists j,
        j <= run_len (fun c => negb (is_eq_sign c)) (skipn (S i) (Re.rest st)) /\
        exists l,
          S l <= run_len is_eq_sign (skipn j (skipn (S i) (Re.rest st))) /\
          title_tail (skipn (S l) (skipn j (skipn (S i) (Re.rest st)))) = true.
Proof.
  intros Hp.
  set (R3 := fun sp : str => title_tail sp = true).
  set (R2 := fun u : str => exists l, S l <= run_len is_eq_sign u /\ R3 (skipn (S l) u)).
  set (R1 := fun u : str =>
               exists j, j <= run_len (fun c => negb (is_eq_sign c)) u /\ R2 (skipn j u)).
  set (r3 := Re.Seq (Re.Opt (Re.Lit " "%char)) Re.Eol).
  set (r2 := Re.Seq (Re.Group 3 (Re.Plus (Re.Lit "="%char))) r3).
  set (r1 := Re.Seq (Re.Group 2 (Re.Star (Re.NotLit "="%char))) r2).
  pose proof (@found_group_plus false (Re.Lit "="%char) is_eq_sign
                (lit_class false "="%char) r3 R3 title_tail_rmatch 3) as H3.
  pose proof (@found_group_star false (Re.NotLit "="%char)
                (fun c => negb (is_eq_sign c))
                (notlit_class false "="%char) r2 R2 H3 2) as H2.
  pose proof (@found_group_plus false (Re.Lit "="%char) is_eq_sign
                (lit_class false "="%char) r1 R1 H2 1) as H1.
  unfold title_search. rewrite rmatch_seq. cbn [Re.rmatch].
  unfold Re.at_bol. rewrite Hp. exact (H1 st).
Qed.

Lemma title_rmatch_later (st : Re.mstate) (k : Re.mstate -> option Re.mstate) :
  Re.prev st <> None -> Re.rmatch false title_search st k = None.
Proof.
  intros Hp. unfold title_search. rewrite rmatch_seq. cbn [Re.rmatch].
  unfold Re.at_bol. destruct (Re.prev st); [reflexivity|contradiction].
Qed.

Lemma skip_prev (j : nat) (st : Re.mstate) :
  S j <= length (Re.rest st) -> Re.prev (skip (S j) st) <> None.
Proof.
  intros Hj. rewrite skip_succ. unfold Re.advance.
  pose proof (skip_rest j st) as Hr.
  destruct (Re.rest (skip j st)) as [|c u] eqn:E.
  - exfalso. symmetry in Hr. apply (f_equal (@length ascii)) in Hr.
    rewrite length_skipn in Hr. simpl in Hr. lia.
  - cbn [Re.prev]. discriminate.
Qed.

Lemma find_title_rmatch (line : str) :
  _find_title line = true
  <-> Re.rmatch false title_search (Re.MState 0 None line []) Some <> None.
Proof.
  unfold _find_title, Re.search. split.
  - destruct (Re.search_at false title_search 0 None line) as [m|] eqn:E;
      [|discriminate].
    intros _. apply search_at_some_gen in E. destruct E as (k & e & Hk & _ & _ & He).
    destruct k as [|k]; [cbn [skip] in He; congruence|].
    rewrite title_rmatch_later in He; [discriminate|].
    apply skip_prev. exact Hk.
  - intros H.
    destruct (Re.search_at false title_search 0 None line) as [m|] eqn:E;
      [reflexivity|exfalso].
    rewrite search_at_none_gen in E. apply H. exact (E 0 (Nat.le_0_l _)).
Qed.

Lemma all_eq_sign (x : str) :
  Forall (fun c => is_eq_sign c = true) x -> x = repeat "="%char (length x).
Proof.
  induction 1 as [|c x Hc _ IH]; simpl; [reflexivity|].
  apply Ascii.eqb_eq in Hc. rewrite Hc, <- IH. reflexivity.
Qed.

Lemma repeat_eq_sign (n : nat) :
  Forall (fun c => is_eq_sign c = true) (repeat "="%char n).
Proof. induction n as [|n IH]; simpl; constructor; [reflexivity|exact IH]. Qed.

Lemma title_tail_cases (sp : str) :
  title_tail sp = true
  <-> sp = [] \/ sp = [" "%char] \/ sp = [nl] \/ sp = [" "%char; nl].
Proof.
  split.
  - destruct sp as [|c [|d [|e sp]]]; cbn [title_tail]; intros H.
    + left. reflexivity.
    + apply orb_true_iff in H. destruct H as [H|H]; apply Ascii.eqb_eq in H; subst c.
      * right. left. reflexivity.
      * right. right. left. reflexivity.
    + apply andb_true_iff in H. destruct H as [H1 H2].
      apply Ascii.eqb_eq in H1, H2. subst c d. right. right. right. reflexivity.
    + discriminate.
  - intros [ -> | [ -> | [ -> | -> ]]]; reflexivity.
Qed.

Lemma title_shape_iff (line : str) :
  _find_title line = true <-> title_shape line.
Proof.
  rewrite find_title_rmatch, title_rmatch by reflexivity. cbn [Re.rest].
  unfold title_shape. split.
  - intros (i & Hi & j & Hj & l & Hl & Ht).
    set (u1 := skipn (S i) line) in *. set (u2 := skipn j u1) in *.
    exists (S i), (firstn j u1), (S l), (skipn (S l) u2).
    pose proof (run_len_le is_eq_sign line) as L0.
    pose proof (run_len_le (fun c => negb (is_eq_sign c)) u1) as L1.
    pose proof (run_len_le is_eq_sign u2) as L2.
    split; [|split; [lia|split; [lia|split]]].
    + pose proof (all_eq_sign (run_len_firstn is_eq_sign line Hi)) as E0.
      rewrite length_firstn in E0. replace (Nat.min (S i) (length line)) with (S i) in E0 by lia.
      pose proof (all_eq_sign (run_len_firstn is_eq_sign u2 Hl)) as E2.
      rewrite length_firstn in E2. replace (Nat.min (S l) (length u2)) with (S l) in E2 by lia.
      rewrite <- E0, <- E2, (firstn_skipn (S l) u2).
      unfold u2. rewrite (firstn_skipn j u1). unfold u1.
      symmetry. apply firstn_skipn.
    + pose proof (run_len_firstn (fun c => negb (is_eq_sign c)) u1 Hj) as Hb.
      eapply Forall_impl; [|exact Hb]. cbv beta. intros c Hc ->.
      discriminate.
    + apply title_tail_cases. exact Ht.
  - intros (a & b & c & sp & -> & Ha & Hc & Hb & Hsp).
    destruct a as [|i]; [lia|]. destruct c as [|l]; [lia|].
    assert (Hb' : Forall (fun c => negb (is_eq_sign c) = true) b).
    { eapply Forall_impl; [|exact Hb]. cbv beta. intros c Hc'.
      unfold is_eq_sign. destruct (Ascii.eqb c "="%char) eqn:E; [|reflexivity].
      apply Ascii.eqb_eq in E. contradiction. }
    assert (S1 : skipn (S i) (repeat "="%char (S i) ++ b ++ repeat "="%char (S l) ++ sp)
                 = b ++ repeat "="%char (S l) ++ sp).
    { rewrite <- (repeat_length "="%char (S i)) at 1. apply skipn_length_app. }
    assert (S3 : skipn (S l) (repeat "="%char (S l) ++ sp) = sp).
    { rewrite <- (repeat_length "="%char (S l)) at 1. apply skipn_length_app. }
    exists i. split.
    { rewrite (@run_len_app is_eq_sign _ _ (repeat_eq_sign (S i))), repeat_length. lia. }
    rewrite S1. exists (length b). split.
    { rewrite (@run_len_app _ _ _ Hb'). lia. }
    rewrite (skipn_length_app b). exists l. split.
    { rewrite (@run_len_app is_eq_sign _ _ (repeat_eq_sign (S l))), repeat_length. lia. }
    rewrite S3. apply title_tail_cases. exact Hsp.
Qed.

(** X4: the lines the bot takes for titles: one or more [=], a part
    without [=] (it may hold newlines), one or more [=], then at most a
    space and at most a final newline. *)
Theorem find_title_shape (line : str) :
  _find_title line = true <-> title_shape line.
Proof. apply title_shape_iff. Qed.

Lemma section_of_is_title (title : str) :
  Forall (fun x => x <> "="%char) title ->
  _find_title (section_of title) = true.
Proof.
  intros H. apply title_shape_iff. unfold title_shape.
  exists 2, title, 2, []. split; [reflexivity|].
  split; [lia|]. split; [lia|]. split; [exact H|]. left. reflexivity.
Qed.

(** X5: the heading that [_add_to_list] writes for a source page whose
    title holds no [=] is a title for [_find_title]. *)
Theorem section_heading_is_title (title : str) :
  Forall (fun x => x <> "="%char) title ->
  _find_title (section_of title) = true.
Proof. apply section_of_is_title. Qed.

Lemma section_heading_is_title_witness :
  _find_title (section_of (lit "Fruit basket")) = true.
Proof.
  apply (@section_heading_is_title (lit "Fruit basket")).
  repeat constructor; discriminate.
Defined.

(** * The scanner on whole blocks *)

Lemma find_list_content_start_nonempty (line name : str) :
  _find_list_content_start line = Some name -> name <> [].
Proof.
  unfold _find_list_content_start, Re.search.
  destruct (Re.search_at false list_content_start 0 None line) as [m|] eqn:E;
    [|discriminate].
  intros H. injection H as <-.
  apply search_at_some_gen in E. destruct E as (k & e & _ & _ & -> & He).
  pose proof (content_start_rmatch_name k line) as Hn. rewrite He in Hn.
  apply start_name_at_some in Hn. destruct Hn as (post & _ & Hne & _).
  exact Hne.
Qed.

(** Inside a block, lines that are not content-end markers are
    collected, except those that are titles. *)
Lemma scan_lines_inside (page name : str) (body : list str) :
  name <> [] ->
  Forall (fun l => _find_list_content_end l = false) body ->
  forall acc w,
    scan_lines page (MkScan (Some name) acc w) body
    = MkScan (Some name) (acc ++ filter (fun l => negb (_find_title l)) body) w.
Proof.
  intros Hne. induction 1 as [|line body Hline _ IH]; intros acc w.
  - simpl. rewrite app_nil_r. reflexivity.
  - unfold scan_lines in *. cbn [fold_left filter].
    unfold scan_line at 2. cbn [in_list list_content site].
    destruct name as [|c name]; [contradiction|].
    rewrite Hline. destruct (negb (_find_title line)).
    + rewrite IH, <- app_assoc. reflexivity.
    + apply IH.
Qed.

Lemma scan_lines_block
  (page : str) (w : Site) (start_line end_line name : str) (body : list str) :
  _find_list_content_start start_line = Some name ->
  Forall (fun l => _find_list_content_end l = false) body ->
  _find_list_content_end end_line = true ->
  scan_lines page (MkScan None [] w) (start_line :: body ++ [end_line])
  = MkScan None []
           (_add_to_list w (filter (fun l => negb (_find_title l)) body) page name).
Proof.
  intros Hstart Hbody Hend.
  pose proof (find_list_content_start_nonempty _ Hstart) as Hne.
  change (start_line :: body ++ [end_line]) with ([start_line] ++ body ++ [end_line]).
  rewrite scan_lines_app, scan_lines_app.
  assert (H1 : scan_lines page (MkScan None [] w) [start_line] = MkScan (Some name) [] w).
  { unfold scan_lines, scan_line. simpl. rewrite Hstart. reflexivity. }
  rewrite H1, (scan_lines_inside page Hne Hbody).
  unfold scan_lines, scan_line. cbn [fold_left in_list list_content site app].
  destruct name as [|c name]; [contradiction|].
  rewrite Hend. reflexivity.
Qed.

(** X6: a block from a content-start line to the first content-end line
    after it: the lines between them that are not titles go to
    [_add_to_list], in their order, under the name found on the start
    line and with the page as the section; the scanner is outside any
    block afterwards, with nothing collected. *)
Theorem closed_block_is_added
  (page : str) (w : Site) (start_line end_line name : str) (body : list str) :
  _find_list_content_start start_line = Some name ->
  Forall (fun l => _find_list_content_end l = false) body ->
  _find_list_content_end end_line = true ->
  scan_lines page (MkScan None [] w) (start_line :: body ++ [end_line])
  = MkScan None []
           (_add_to_list w (filter (fun l => negb (_find_title l)) body) page name).
Proof. apply scan_lines_block. Qed.

Lemma closed_block_is_added_witness :
  scan_lines (lit "Doc") (MkScan None [] Sample.wiki)
             (lit "{{ListGenBot-SourceStart|X}}"
              :: [lit "pear"; lit "==Notes=="; lit "plum"]
              ++ [lit "{{ListGenBot-SourceEnd}}"])
  = MkScan None []
           (_add_to_list Sample.wiki
              (filter (fun l => negb (_find_title l))
                      [lit "pear"; lit "==Notes=="; lit "plum"])
              (lit "Doc") (lit "X")).
Proof.
  apply (@closed_block_is_added (lit "Doc") Sample.wiki
           (lit "{{ListGenBot-SourceStart|X}}") (lit "{{ListGenBot-SourceEnd}}")
           (lit "X") [lit "pear"; lit "==Notes=="; lit "plum"]).
  - reflexivity.
  - repeat constructor.
  - reflexivity.
Defined.

(** * What a run touches *)

Lemma list_page_name_is_list_page (list_name : str) :
  is_list_page (list_page_name list_name) = true.
Proof. unfold is_list_page, list_page_name. apply prefixb_app. Qed.

Lemma not_list_page_neq (name list_name : str) :
  is_list_page name = false -> name <> list_page_name list_name.
Proof.
  intros H E. rewrite E, list_page_name_is_list_page in H. discriminate.
Qed.

Lemma scan_line_frame (page : str) (st : scan_state) (line name : str) :
  is_list_page name = false ->
  pages (site (scan_line page st line)) name = pages (site st) name.
Proof.
  intros H. unfold scan_line.
  destruct (in_list st) as [[|c n]|]; try reflexivity.
  destruct (_find_list_content_end line).
  - cbn [site]. apply _add_to_list_other. apply not_list_page_neq. exact H.
  - destruct (negb (_find_title line)); reflexivity.
Qed.

Lemma scan_lines_frame (page name : str) (page_lines : list str) :
  is_list_page name = false ->
  forall st, pages (site (scan_lines page st page_lines)) name = pages (site st) name.
Proof.
  intros H. induction page_lines as [|line page_lines IH]; intros st; [reflexivity|].
  unfold scan_lines in *. cbn [fold_left]. rewrite IH.
  apply scan_line_frame. exact H.
Qed.

Lemma main_function_frame (w : Site) (page name : str) :
  is_list_page name = false ->
  pages (main_function w page) name = pages w name.
Proof.
  intros H. unfold main_function. rewrite render_page_never_saves.
  apply (@scan_lines_frame page name _ H).
Qed.

Lemma scan_line_saves (page : str) (st : scan_state) (line : str) :
  exists new,
    saves (site (scan_line page st line)) = new ++ saves (site st) /\
    Forall upsert_save new.
Proof.
  unfold scan_line.
  destruct (in_list st) as [[|c n]|]; try (exists []; split; [reflexivity|constructor]).
  destruct (_find_list_content_end line).
  - eexists [_]. split; [reflexivity|]. constructor; [|constructor].
    split; [apply list_page_name_is_list_page|reflexivity].
  - destruct (negb (_find_title line)); exists []; split; try reflexivity; constructor.
Qed.

Lemma scan_lines_saves (page : str) (page_lines : list str) :
  forall st,
  exists new,
    saves (site (scan_lines page st page_lines)) = new ++ saves (site st) /\
    Forall upsert_save new.
Proof.
  induction page_lines as [|line page_lines IH]; intros st.
  - exists []. split; [reflexivity|constructor].
  - unfold scan_lines in *. cbn [fold_left].
    destruct (IH (scan_line page st line)) as (n2 & E2 & F2).
    destruct (scan_line_saves page st line) as (n1 & E1 & F1).
    exists (n2 ++ n1). split.
    + rewrite E2, E1, app_assoc. reflexivity.
    + apply Forall_app. split; assumption.
Qed.

(** X7: processing a page changes no page outside the list pages: the
    page itself (unless it is a list page) and every other page keep
    their text. *)
Theorem main_function_changes_list_pages_only (w : Site) (page name : str) :
  is_list_page name = false ->
  pages (main_function w page) name = pages w name.
Proof. apply main_function_frame. Qed.

Lemma main_function_changes_list_pages_only_witness :
  pages (main_function Sample.wiki (lit "Stale")) (lit "Stale")
  = pages Sample.wiki (lit "Stale").
Proof.
  apply (@main_function_changes_list_pages_only Sample.wiki (lit "Stale") (lit "Stale")).
  reflexivity.
Defined.

(** X8: the saves of [main_function] are those of [_add_to_list]: the
    log of saves grows at its head by saves of list pages with the
    summary of [_add_to_list], and none with the summary of the render
    step. *)
Theorem main_function_saves (w : Site) (page : str) :
  exists new,
    saves (main_function w page) = new ++ saves w /\
    Forall upsert_save new /\
    Forall (fun s => s_summary s <> lit "Render lists") new.
Proof.
  unfold main_function. rewrite render_page_never_saves.
  destruct (scan_lines_saves page (_get_page_text w page) (MkScan None [] w))
    as (new & E & F).
  exists new. split; [exact E|]. split; [exact F|].
  eapply Forall_impl; [|exact F]. intros s (_ & Hs). rewrite Hs. discriminate.
Qed.

Lemma run_pages_frame (name : str) (titles : list str) :
  is_list_page name = false ->
  forall acc : str * Site,
    pages (snd (fold_left (fun acc page => (page, main_function (snd acc) page))
                          titles acc)) name
    = pages (snd acc) name.
Proof.
  intros H. induction titles as [|t titles IH]; intros acc; [reflexivity|].
  cbn [fold_left]. rewrite IH. cbn [snd]. apply main_function_frame. exact H.
Qed.

Lemma pages_set_page_start_other (ref : str) (w : Site) (new_start name : str) :
  name <> ref -> pages (_set_page_start ref w new_start) name = pages w name.
Proof.
  intros H. unfold _set_page_start. apply pages_page_save_other. exact H.
Qed.

(** X9: a run changes the list pages and the cursor page, and no other
    page. *)
Theorem run_changes_list_pages_and_cursor_only
  (reference_page_title : str) (_pages_from : Site -> str -> list str)
  (w : Site) (name : str) :
  is_list_page name = false ->
  name <> reference_page_title ->
  pages (run reference_page_title _pages_from w) name = pages w name.
Proof.
  intros Hl Hr. unfold run, run_pages.
  set (titles := _pages_from w (_get_page_start reference_page_title w)).
  pose proof (@run_pages_frame name titles Hl ([], w)) as Hf.
  destruct (fold_left (fun acc page => (page, main_function (snd acc) page))
                      titles ([], w)) as [seen w'] eqn:E.
  cbn [snd] in Hf.
  destruct (length titles <? PAGES_TO_GO_THROUGH);
    rewrite pages_set_page_start_other by exact Hr; exact Hf.
Qed.

Lemma run_changes_list_pages_and_cursor_only_witness :
  pages (run STORAGE_PAGE (Sample.enumerate Sample.short_batch) Sample.wiki)
        (lit "Unterminated")
  = pages Sample.wiki (lit "Unterminated").
Proof.
  apply (@run_changes_list_pages_and_cursor_only STORAGE_PAGE
           (Sample.enumerate Sample.short_batch) Sample.wiki (lit "Unterminated")).
  - reflexivity.
  - discriminate.
Defined.

Lemma hd_split_nl (t : str) : hd [] (Py.split_nl t) = firstn (line_len t) t.
Proof.
  induction t as [|c t IH]; [reflexivity|].
  cbn [Py.split_nl line_len]. destruct (Ascii.eqb c nl); [reflexivity|].
  cbn [firstn]. rewrite <- IH.
  destruct (Py.split_nl t); reflexivity.
Qed.

(** X10: the cursor read back after it was stored is the first line of
    what was stored; a title without a newline is read back as it is. *)
Theorem page_start_round_trip (reference_page_title : str) (w : Site) (new_start : str) :
  _get_page_start reference_page_title
                  (_set_page_start reference_page_title w new_start)
  = firstn (line_len new_start) new_start
  /\ (no_nl new_start ->
      _get_page_start reference_page_title
                      (_set_page_start reference_page_title w new_start)
      = new_start).
Proof.
  assert (H : _get_page_start reference_page_title
                (_set_page_start reference_page_title w new_start)
              = firstn (line_len new_start) new_start).
  { unfold _get_page_start, page_text, _get_page. cbn [p_text p_title].
    rewrite pages_set_page_start. apply hd_split_nl. }
  split; [exact H|].
  intros Hn. rewrite H, Hn. apply firstn_all.
Qed.

Lemma pages_run_reference
  (reference_page_title : str) (_pages_from : Site -> str -> list str) (w : Site) :
  let titles := _pages_from w (_get_page_start reference_page_title w) in
  pages (run reference_page_title _pages_from w) reference_page_title
  = if length titles <? PAGES_TO_GO_THROUGH then [] else last titles [].
Proof.
  intros titles. unfold run. fold titles.
  rewrite <- (run_pages_fst titles w []).
  change (fold_left _ titles ([], w)) with (run_pages w titles).
  destruct (run_pages w titles) as [seen w'].
  destruct (length titles <? PAGES_TO_GO_THROUGH);
    rewrite pages_set_page_start; reflexivity.
Qed.

(** X11: where the next run starts: at the beginning when the enumerator
    gave fewer titles than [PAGES_TO_GO_THROUGH], otherwise at the first
    line of the last title of the batch. *)
Theorem next_start_after_run
  (reference_page_title : str) (_pages_from : Site -> str -> list str) (w : Site) :
  let titles := _pages_from w (_get_page_start reference_page_title w) in
  _get_page_start reference_page_title (run reference_page_title _pages_from w)
  = if length titles <? PAGES_TO_GO_THROUGH then []
    else firstn (line_len (last titles [])) (last titles []).
Proof.
  intros titles.
  unfold _get_page_start at 1. unfold page_text, _get_page. cbn [p_text p_title].
  rewrite pages_run_reference. fold titles.
  destruct (length titles <? PAGES_TO_GO_THROUGH); [reflexivity|apply hd_split_nl].
Qed.

(** * Upsert on the whole list page *)

(** X12: the section of the source page is on the list page, after the
    first line, and is followed by the end of the page or by a title
    line: the section (heading and body) is cut out, the other lines
    keep their order, and the new section, when it has lines, is put at
    the end of the page, not where the old one was. *)
Theorem upsert_moves_section_to_end
  (w : Site) (content : list str) (title list_name : str)
  (before body rest : list str) :
  _get_page_text w (list_page_name list_name)
  = before ++ section_of title :: body ++ rest ->
  before <> [] ->
  ~ In (section_of title) before ->
  Forall (body_line (section_of title)) body ->
  (rest = [] \/
   exists next after,
     rest = next :: after /\ next <> section_of title /\ _find_title next = true) ->
  pages (_add_to_list w content title list_name) (list_page_name list_name)
  = Py.join_nl (add_content (section_of title) content (before ++ rest)).
Proof.
  intros Htext Hne Hbefore Hbody Hrest.
  rewrite _add_to_list_text, Htext. unfold added_lines. f_equal. f_equal.
  destruct Hrest as [->|(next & after & -> & Hnext & Htitle)].
  - rewrite !app_nil_r. apply remove_section_last; assumption.
  - apply remove_section_inner; assumption.
Qed.

Lemma upsert_moves_section_to_end_witness :
  pages (_add_to_list (_add_to_list Sample.wiki [lit "kiwi"] (lit "B") (lit "X"))
                      [lit "fig"] (lit "B") (lit "X"))
        (list_page_name (lit "X"))
  = Py.join_nl (add_content (section_of (lit "B")) [lit "fig"]
                            ([lit "==A=="; lit "banana"; lit "apple"] ++ [])).
Proof.
  apply (@upsert_moves_section_to_end
           (_add_to_list Sample.wiki [lit "kiwi"] (lit "B") (lit "X"))
           [lit "fig"] (lit "B") (lit "X")
           [lit "==A=="; lit "banana"; lit "apple"] [lit "kiwi"] []).
  - reflexivity.
  - discriminate.
  - simpl. intuition discriminate.
  - repeat constructor; discriminate.
  - left. reflexivity.
Defined.

(** X13: the heading of the source page is not a line of the list page:
    every line of the list page is deleted, and the page becomes the
    new section alone (the empty page when the block has no lines). *)
Theorem upsert_without_heading
  (w : Site) (content : list str) (title list_name : str) :
  ~ In (section_of title) (_get_page_text w (list_page_name list_name)) ->
  pages (_add_to_list w content title list_name) (list_page_name list_name)
  = Py.join_nl (add_content (section_of title) content []).
Proof.
  intros H. rewrite _add_to_list_text. unfold added_lines.
  rewrite remove_section_absent by exact H. reflexivity.
Qed.

Lemma upsert_without_heading_witness :
  pages (_add_to_list Sample.wiki [lit "fig"] (lit "Orchard") (lit "X"))
        (list_page_name (lit "X"))
  = Py.join_nl (add_content (section_of (lit "Orchard")) [lit "fig"] []).
Proof.
  apply (@upsert_without_heading Sample.wiki [lit "fig"] (lit "Orchard") (lit "X")).
  simpl. intuition discriminate.
Defined.

(** X14: the heading of the source page is the first line of the list
    page and no other line: every line of the list page is deleted, the
    sections that follow included, and the page becomes the new section
    alone. *)
Theorem upsert_with_heading_on_first_line
  (w : Site) (content : list str) (title list_name : str) (rest : list str) :
  _get_page_text w (list_page_name list_name) = section_of title :: rest ->
  ~ In (section_of title) rest ->
  pages (_add_to_list w content title list_name) (list_page_name list_name)
  = Py.join_nl (add_content (section_of title) content []).
Proof.
  intros Htext H. rewrite _add_to_list_text, Htext. unfold added_lines.
  rewrite remove_section_first by exact H. reflexivity.
Qed.

Lemma upsert_with_heading_on_first_line_witness :
  pages (_add_to_list Sample.wiki [lit "fig"] (lit "A") (lit "X"))
        (list_page_name (lit "X"))
  = Py.join_nl (add_content (section_of (lit "A")) [lit "fig"] []).
Proof.
  apply (@upsert_with_heading_on_first_line Sample.wiki [lit "fig"] (lit "A") (lit "X")
           [lit "banana"; lit "apple"; lit "==B=="; lit "cherry"]).
  - reflexivity.
  - simpl. intuition discriminate.
Defined.

(** X16: upsert keeps the heading of a source page unique: when it
    occurs at most once among the lines of the list page and is not a
    line of the block, it occurs at most once among the lines after the
    upsert, and exactly when the block has lines. *)
Theorem upsert_keeps_heading_unique (page_lines content : list str) (title : str) :
  at_most_once (section_of title) page_lines ->
  ~ In (section_of title) content ->
  at_most_once (section_of title) (added_lines page_lines content title) /\
  (In (section_of title) (added_lines page_lines content title) <-> content <> []).
Proof.
  intros Honce Hcontent.
  pose proof (remove_section_no_heading Honce) as Hgone.
  unfold added_lines, add_content.
  destruct content as [|c content].
  - split; [left; exact Hgone|]. split; [intros H; contradiction|].
    intros H. contradiction.
  - split.
    + right. exists (remove_section (section_of title) page_lines), (c :: content).
      split; [rewrite <- app_assoc; reflexivity|]. split; assumption.
    + split; [intros _; discriminate|]. intros _.
      apply in_or_app. left. apply in_or_app. right. left. reflexivity.
Qed.

Lemma upsert_keeps_heading_unique_witness :
  at_most_once (section_of (lit "B"))
               (added_lines (Py.split_nl Sample.list_X) [lit "kiwi"] (lit "B")) /\
  (In (section_of (lit "B"))
      (added_lines (Py.split_nl Sample.list_X) [lit "kiwi"] (lit "B"))
   <-> [lit "kiwi"] <> []).
Proof.
  apply (@upsert_keeps_heading_unique (Py.split_nl Sample.list_X) [lit "kiwi"] (lit "B")).
  - right. exists [lit "==A=="; lit "banana"; lit "apple"], [lit "cherry"].
    split; [reflexivity|]. split; simpl; intuition discriminate.
  - simpl. intuition discriminate.
Defined.

(* ================================================================= *)
(** * Which texts the render pattern matches *)

Section DirectiveShape.

Variables L1 ST CL EN : str.

Lemma has_end_found (g5 post : str) :
  no_nl g5 -> is_some (has_end EN (g5 ++ EN ++ post)) = true.
Proof.
  intros H. unfold has_end. apply (@last_idx_is_some _ _ (length g5)).
  - rewrite line_len_app by exact H. lia.
  - rewrite skipn_length_app. apply prefixb_app.
Qed.

Lemma closeable_found (g5 post : str) :
  no_nl g5 -> closeable L1 EN (L1 ++ g5 ++ EN ++ post) = true.
Proof.
  intros H. unfold closeable. rewrite prefixb_app, skipn_length_app.
  rewrite has_end_found by exact H. reflexivity.
Qed.

Lemma closeable_shape (y : str) :
  closeable L1 EN y = true ->
  exists g5 post, y = L1 ++ g5 ++ EN ++ post /\ no_nl g5.
Proof.
  unfold closeable. intros H. apply andb_true_iff in H. destruct H as [Hp He].
  apply prefixb_true in Hp. apply is_some_true in He. destruct He as [i Hi].
  unfold has_end in Hi. apply last_idx_some in Hi. destruct Hi as (Hi & Hpe & _).
  set (y1 := skipn (length L1) y) in *.
  apply prefixb_true in Hpe.
  exists (firstn i y1), (skipn (length EN) (skipn i y1)). split.
  - rewrite <- Hpe, firstn_skipn. exact Hp.
  - apply no_nl_firstn_line. exact Hi.
Qed.

Lemma directive_matchable (u : str) :
  directive_at L1 ST CL EN u -> matchable L1 ST CL EN u = true.
Proof.
  intros (g2 & g3 & tail & mid & g5 & post & -> & H2 & Hne & H3 & Ht & H5).
  unfold matchable. rewrite prefixb_app, skipn_length_app. cbn [andb].
  unfold find_g2. apply (@last_idx_is_some _ _ (length g2)).
  { rewrite line_len_app by exact H2. lia. }
  unfold g2_ok. rewrite skipn_length_app, prefixb_app. cbn [andb].
  rewrite skipn_length_app_add, skipn_length_app.
  unfold find_g3. apply (@last_idx_is_some _ _ (length g3)).
  { rewrite line_len_app by exact H3. lia. }
  unfold g3_ok. rewrite skipn_length_app, prefixb_app.
  rewrite skipn_length_app_add, skipn_length_app.
  rewrite after_ok_line by exact Ht.
  rewrite find_close_exists by (apply closeable_found; exact H5).
  destruct g3 as [|c g3]; [contradiction|]. reflexivity.
Qed.

Lemma picks_directive (q : pieces) :
  picks L1 ST CL EN q -> directive_at L1 ST CL EN (t_u L1 ST CL EN q) /\ no_nl (p_g5 q).
Proof.
  intros Hq. destruct (picks_lines Hq) as (H2 & H3 & Hne & _).
  destruct Hq as (Ht & _ & _ & _ & H5).
  assert (Hg5 : no_nl (p_g5 q)).
  { unfold has_end in H5. apply last_idx_some in H5. destruct H5 as (Hi & _ & _).
    rewrite <- (firstn_length_app (p_g5 q) (EN ++ p_post q)).
    apply no_nl_firstn_line. exact Hi. }
  split; [|exact Hg5].
  exists (p_g2 q), (p_g3 q), (p_tail q), (p_mid q), (p_g5 q), (p_post q).
  split; [|split; [exact H2|split; [|split; [exact H3|split; [exact Ht|exact Hg5]]]]].
  - unfold t_u, t_a, t_c, t_w, t_v, t_y, t_y1. reflexivity.
  - intros E. rewrite E in Hne. simpl in Hne. lia.
Qed.

Lemma matchable_directive (u : str) :
  matchable L1 ST CL EN u = true -> directive_at L1 ST CL EN u.
Proof.
  intros H.
  destruct (match_at L1 ST CL EN (Re.MState 0 None u [])) as [e|] eqn:E.
  - apply match_at_picks in E. destruct E as (q & Hu & Hq & _).
    cbn [Re.rest] in Hu. rewrite Hu. apply picks_directive. exact Hq.
  - apply match_at_none in E. cbn [Re.rest] in E. congruence.
Qed.

Lemma search_template_found (multiline : bool) (text : str) :
  Re.search multiline (template L1 ST CL EN) text <> None
  <-> exists pre u, text = pre ++ u /\ directive_at L1 ST CL EN u.
Proof.
  unfold Re.search. split.
  - intros H.
    destruct (Re.search_at multiline (template L1 ST CL EN) 0 None text) as [m|] eqn:E;
      [|contradiction].
    apply search_pieces in E. destruct E as (q & _ & Hu & Hq & _).
    exists (firstn (Re.m_start m) text), (t_u L1 ST CL EN q). split.
    + rewrite <- Hu. symmetry. apply firstn_skipn.
    + apply picks_directive. exact Hq.
  - intros (pre & u & -> & Hu) E. rewrite search_at_none in E.
    specialize (E (length pre)). rewrite skipn_length_app in E.
    rewrite directive_matchable in E by exact Hu.
    rewrite length_app in E.
    assert (Hf : true = false) by (apply E; lia). discriminate Hf.
Qed.

End DirectiveShape.

Lemma render_pattern_shape_aux (text : str) :
  Re.search true list_render_template text <> None -> directive_shape text.
Proof.
  rewrite list_render_template_is_template. apply search_template_found.
Qed.

(** X17: the render pattern finds something in a text exactly when the
    text holds a render directive: an open marker with both its parts
    on one line (the second not empty), a newline after it, and further
    on a close marker on one line. *)
Theorem render_pattern_finds_directives (text : str) :
  Re.search true list_render_template text <> None <-> directive_shape text.
Proof.
  rewrite list_render_template_is_template. apply search_template_found.
Qed.

Lemma directive_shape_has_newline (text : str) : directive_shape text -> In nl text.
Proof.
  intros (pre & u & -> & g2 & g3 & tail & mid & g5 & post & -> & _).
  repeat (apply in_or_app; right). left. reflexivity.
Qed.

(** X18: a text that holds no render directive is left as it is by the
    render pass. *)
Theorem render_without_directive (w : Site) (text : str) :
  ~ directive_shape text -> render w text = text.
Proof.
  intros H. apply render_no_match.
  destruct (Re.search true list_render_template text) as [m|] eqn:E; [|reflexivity].
  exfalso. apply H. apply render_pattern_shape_aux. rewrite E. discriminate.
Qed.

Lemma render_without_directive_witness :
  render Sample.wiki (lit "{{ListGenBot-ListSectionedStart|X}} {{ListGenBot-ListSectionedEnd}}")
  = lit "{{ListGenBot-ListSectionedStart|X}} {{ListGenBot-ListSectionedEnd}}".
Proof.
  apply (@render_without_directive Sample.wiki
           (lit "{{ListGenBot-ListSectionedStart|X}} {{ListGenBot-ListSectionedEnd}}")).
  intros H. apply directive_shape_has_newline in H.
  simpl in H. intuition discriminate.
Defined.

Lemma no_close_marker_after (q : pieces) :
  picks open_lit start_lit braces_lit end_lit q -> ~ close_marker_in (p_post q).
Proof.
  intros Hq (x & g & y & Hpost & Hg).
  destruct (picks_directive Hq) as (_ & H5).
  destruct Hq as (_ & _ & _ & Hclose & _).
  unfold t_v in Hclose. apply find_close_suffix in Hclose. destruct Hclose as [_ Hmax].
  set (head := open_lit ++ p_g5 q ++ end_lit ++ x).
  assert (Hy : t_y open_lit end_lit q = head ++ open_lit ++ g ++ end_lit ++ y).
  { unfold t_y, t_y1, head. rewrite Hpost, <- !app_assoc. reflexivity. }
  assert (Hlen : 0 < length head).
  { unfold head. rewrite length_app. change (length open_lit) with 17. lia. }
  specialize (Hmax (length head) Hlen).
  rewrite Hy, skipn_length_app, closeable_found in Hmax by exact Hg.
  assert (Hf : true = false) by (apply Hmax; rewrite length_app; lia).
  discriminate Hf.
Qed.

(** X19: one render pass rewrites at most one span.  When the pattern
    finds a match, the text before it and the text after it are kept,
    as are the two markers; what was between the markers (it held a
    newline) is replaced by a newline, the list body and a newline.
    The match starts at the first directive of the text and runs up to
    the last close marker: none is left after it. *)
Theorem render_rewrites_one_span (w : Site) (text : str) :
  match Re.search true list_render_template text with
  | None => render w text = text
  | Some m =>
      let before := firstn (Re.m_start m) text in
      let after := Re.rest (Re.m_end m) in
      let body := Py.join_nl (render_lines w (Re.group m 2) (Re.group m 5) (Re.group m 3)) in
      (exists between,
          text = before ++ Re.group m 1 ++ between ++ Re.group m 4 ++ after /\
          In nl between) /\
      render w text = before ++ Re.group m 1 ++ nl :: body ++ nl :: Re.group m 4 ++ after /\
      ~ close_marker_in after /\
      (forall pre u,
          text = pre ++ u ->
          directive_at open_lit start_lit braces_lit end_lit u ->
          Re.m_start m <= length pre)
  end.
Proof.
  destruct (Re.search true list_render_template text) as [m|] eqn:E;
    [|apply render_no_match; exact E].
  cbv zeta. split; [exact (@match_span text m E)|]. split; [|split].
  - rewrite (@render_once w text m E). unfold _render_list. cbv zeta.
    rewrite <- !app_assoc. cbn [app]. rewrite <- !app_assoc. reflexivity.
  - rewrite list_render_template_is_template in E.
    destruct (@search_pieces true open_lit start_lit braces_lit end_lit text m E)
      as (q & _ & _ & Hq & _ & Hr & _).
    rewrite Hr. apply no_close_marker_after. exact Hq.
  - intros pre u -> Hu.
    rewrite list_render_template_is_template in E.
    destruct (@search_pieces true open_lit start_lit braces_lit end_lit _ m E)
      as (q & _ & _ & _ & Hmin & _).
    destruct (le_lt_dec (Re.m_start m) (length pre)) as [Hc|Hc]; [exact Hc|exfalso].
    specialize (Hmin (length pre) Hc).
    rewrite skipn_length_app, directive_matchable in Hmin by exact Hu.
    discriminate Hmin.
Qed.

(* ================================================================= *)
(** * The list bodies *)

(** ** [sorted] *)

Lemma str_leb_total (a b : str) : Py.str_leb a b = false -> Py.str_leb b a = true.
Proof.
  revert b. induction a as [|x a IH]; intros [|y b]; cbn [Py.str_leb]; cbv zeta;
    try discriminate; try reflexivity.
  destruct (nat_of_ascii x <? nat_of_ascii y) eqn:E1; [discriminate|].
  destruct (nat_of_ascii y <? nat_of_ascii x) eqn:E2; [reflexivity|].
  apply IH.
Qed.

Lemma insert_sorted_hd (x y : str) (ls : list str) :
  str_le y x -> HdRel str_le y ls -> HdRel str_le y (Py.insert_sorted x ls).
Proof.
  intros Hyx H. destruct ls as [|z ls]; cbn [Py.insert_sorted].
  - constructor. exact Hyx.
  - inversion H as [|? ? Hyz]. subst.
    destruct (Py.str_leb z x); constructor; assumption.
Qed.

Lemma insert_sorted_sorted (x : str) (ls : list str) :
  Sorted str_le ls -> Sorted str_le (Py.insert_sorted x ls).
Proof.
  induction 1 as [|y ls Hs IH Hhd]; cbn [Py.insert_sorted].
  - constructor; constructor.
  - destruct (Py.str_leb y x) eqn:E.
    + constructor; [exact IH|]. apply insert_sorted_hd; assumption.
    + constructor; [constructor; assumption|].
      constructor. apply str_leb_total. exact E.
Qed.

Lemma insert_sorted_perm (x : str) (ls : list str) :
  Permutation (Py.insert_sorted x ls) (x :: ls).
Proof.
  induction ls as [|y ls IH]; cbn [Py.insert_sorted]; [apply Permutation_refl|].
  destruct (Py.str_leb y x); [|apply Permutation_refl].
  apply perm_trans with (y :: x :: ls); [apply perm_skip; exact IH|apply perm_swap].
Qed.

Lemma sorted_fold (ls : list str) :
  forall acc,
    Sorted str_le acc ->
    Sorted str_le (fold_left (fun acc x => Py.insert_sorted x acc) ls acc) /\
    Permutation (fold_left (fun acc x => Py.insert_sorted x acc) ls acc) (ls ++ acc).
Proof.
  induction ls as [|x ls IH]; intros acc Hacc; cbn [fold_left app].
  - split; [exact Hacc|apply Permutation_refl].
  - destruct (IH (Py.insert_sorted x acc) (insert_sorted_sorted x Hacc)) as [Hs Hp].
    split; [exact Hs|].
    apply perm_trans with (ls ++ Py.insert_sorted x acc); [exact Hp|].
    apply perm_trans with (ls ++ x :: acc).
    + apply Permutation_app_head. apply insert_sorted_perm.
    + apply Permutation_sym. apply Permutation_middle.
Qed.

(** X20: the body of an [Alphabetical] list: the lines of the list page
    that are not titles, each as often as on the page, in ascending
    order. *)
Theorem alphabetical_body_is_sorted (w : Site) (list_name : str) :
  let body := render_lines w (lit "Alphabetical") (lit "Alphabetical") list_name in
  Sorted str_le body /\
  Permutation body
              (filter (fun x => negb (_find_title x))
                      (_get_page_text w (list_page_name list_name))).
Proof.
  cbv zeta. unfold render_lines. rewrite str_eqb_refl.
  change (Py.str_eqb (lit "Alphabetical") (lit "Sectioned")) with false. cbv iota.
  unfold Py.sorted.
  destruct (sorted_fold (filter (fun x => negb (_find_title x))
                                (_get_page_text w (list_page_name list_name)))
                        (Sorted_nil str_le)) as [Hs Hp].
  split; [exact Hs|]. rewrite app_nil_r in Hp. exact Hp.
Qed.

(** ** [strip] *)

Lemma lstrip_id (c : ascii) (s : str) :
  Forall (fun x => x <> c) s -> Py.lstrip c s = s.
Proof.
  intros H. destruct s as [|x s]; [reflexivity|]. cbn [Py.lstrip].
  inversion H as [|? ? Hx _]. subst.
  destruct (Ascii.eqb x c) eqn:E; [|reflexivity].
  apply Ascii.eqb_eq in E. contradiction.
Qed.

Lemma strip_section_of (title : str) :
  Forall (fun x => x <> "="%char) title ->
  Py.strip "="%char (section_of title) = title.
Proof.
  intros H. unfold Py.strip, section_of.
  change (Py.lstrip "="%char (lit "==" ++ title ++ lit "=="))
    with (Py.lstrip "="%char (title ++ lit "==")).
  destruct title as [|x title].
  - reflexivity.
  - assert (E : Py.lstrip "="%char ((x :: title) ++ lit "==") = (x :: title) ++ lit "==").
    { cbn [app Py.lstrip]. inversion H as [|? ? Hx _]. subst.
      destruct (Ascii.eqb x "="%char) eqn:E; [|reflexivity].
      apply Ascii.eqb_eq in E. contradiction. }
    rewrite E. unfold Py.rstrip. rewrite rev_app_distr.
    change (rev (lit "==") ++ rev (x :: title))
      with ("="%char :: "="%char :: rev (x :: title)).
    change (Py.lstrip "="%char ("="%char :: "="%char :: rev (x :: title)))
      with (Py.lstrip "="%char (rev (x :: title))).
    rewrite lstrip_id by (apply Forall_rev; exact H).
    apply rev_involutive.
Qed.

(** X21: the body of a [Sectioned] list has one line for each line of
    the list page: a line that is not a title is kept as it is, and the
    heading that [_add_to_list] wrote for a source page whose title
    holds no [=] becomes a link to that page. *)
Theorem sectioned_body_links_sources (w : Site) (list_name : str) :
  let page_lines := _get_page_text w (list_page_name list_name) in
  let body := render_lines w (lit "Sectioned") (lit "Sectioned") list_name in
  length body = length page_lines /\
  forall i line,
    nth_error page_lines i = Some line ->
    (_find_title line = false -> nth_error body i = Some line) /\
    (forall title,
        line = section_of title ->
        Forall (fun x => x <> "="%char) title ->
        nth_error body i = Some (lit "===([[" ++ title ++ lit "]])===")).
Proof.
  cbv zeta. unfold render_lines. rewrite str_eqb_refl. cbv iota.
  split; [apply length_map|].
  intros i line Hi.
  apply (map_nth_error
           (fun line => if negb (_find_title line) then line
                        else lit "===([[" ++ Py.strip "="%char line ++ lit "]])===")) in Hi.
  rewrite Hi. split.
  - intros Hf. rewrite Hf. reflexivity.
  - intros title -> Ht. rewrite (section_of_is_title Ht). cbn [negb].
    rewrite (strip_section_of Ht). reflexivity.
Qed.

(* ================================================================= *)
(** * Lines of a page *)

Lemma split_nl_nonempty (s : str) : Py.split_nl s <> [].
Proof.
  destruct s as [|c s]; cbn [Py.split_nl]; [discriminate|].
  destruct (Ascii.eqb c nl); [discriminate|].
  destruct (Py.split_nl s); discriminate.
Qed.

Lemma join_split (s : str) : Py.join_nl (Py.split_nl s) = s.
Proof.
  induction s as [|c s IH]; [reflexivity|]. cbn [Py.split_nl].
  pose proof (split_nl_nonempty s) as Hne.
  destruct (Ascii.eqb c nl) eqn:E.
  - apply Ascii.eqb_eq in E. subst c.
    destruct (Py.split_nl s) as [|l ls]; [contradiction|].
    cbn [Py.join_nl app]. cbn [Py.join_nl] in IH. rewrite IH. reflexivity.
  - destruct (Py.split_nl s) as [|l ls]; [contradiction|].
    destruct ls as [|l' ls]; cbn [Py.join_nl app] in *; rewrite IH; reflexivity.
Qed.

(** X22: the lines of a page: there is at least one, none holds a
    newline, and joined with newlines, as [_add_to_list] does before it
    saves, they are the text of the page again. *)
Theorem page_lines_round_trip (w : Site) (page_name : str) :
  let page_lines := _get_page_text w page_name in
  page_lines <> [] /\
  Forall no_nl page_lines /\
  Py.join_nl page_lines = pages w page_name.
Proof.
  cbv zeta. unfold _get_page_text, page_text, _get_page. cbn [p_text p_title].
  split; [apply split_nl_nonempty|]. split; [apply split_nl_lines|apply join_split].
Qed.

(** * Pages without content blocks *)

Lemma scan_lines_no_start (page : str) (w : Site) (page_lines : list str) :
  Forall (fun l => _find_list_content_start l = None) page_lines ->
  scan_lines page (MkScan None [] w) page_lines = MkScan None [] w.
Proof.
  induction 1 as [|line page_lines Hline _ IH]; [reflexivity|].
  unfold scan_lines in *. cbn [fold_left]. unfold scan_line at 2.
  cbn [in_list list_content site]. rewrite Hline. exact IH.
Qed.

(** X23: a page none of whose lines holds a content-start marker is
    processed without any change to the wiki: no page text changes and
    nothing is saved. *)
Theorem page_without_blocks_is_untouched (w : Site) (page : str) :
  Forall (fun l => _find_list_content_start l = None) (_get_page_text w page) ->
  main_function w page = w.
Proof.
  intros H. unfold main_function. rewrite render_page_never_saves.
  rewrite (@scan_lines_no_start page w _ H). reflexivity.
Qed.

Lemma page_without_blocks_is_untouched_witness :
  main_function Sample.wiki (lit "Stale") = Sample.wiki.
Proof.
  apply (@page_without_blocks_is_untouched Sample.wiki (lit "Stale")).
  change (_get_page_text Sample.wiki (lit "Stale"))
    with [lit "intro"; lit "{{ListGenBot-ListAlphabeticalStart|X}}"; lit "old body";
          lit "{{ListGenBot-ListAlphabeticalEnd}}"; lit "outro"].
  repeat (apply Forall_cons; [vm_compute; reflexivity|]). apply Forall_nil.
Defined.

(** * Pages with one content block *)

(** X24: a page with one content block, no content-start marker before
    it or after it: processing the page is one call of [_add_to_list]
    with the lines of the block that are not titles, the page as the
    section and the name found on the start line. *)
Theorem page_with_one_block
  (w : Site) (page : str) (pre body post : list str) (start_line end_line name : str) :
  _get_page_text w page = pre ++ start_line :: body ++ end_line :: post ->
  Forall (fun l => _find_list_content_start l = None) pre ->
  _find_list_content_start start_line = Some name ->
  Forall (fun l => _find_list_content_end l = false) body ->
  _find_list_content_end end_line = true ->
  Forall (fun l => _find_list_content_start l = None) post ->
  main_function w page
  = _add_to_list w (filter (fun l => negb (_find_title l)) body) page name.
Proof.
  intros Htext Hpre Hstart Hbody Hend Hpost.
  unfold main_function. rewrite render_page_never_saves, Htext.
  replace (pre ++ start_line :: body ++ end_line :: post)
    with (pre ++ (start_line :: body ++ [end_line]) ++ post)
    by (cbn [app]; rewrite <- app_assoc; reflexivity).
  rewrite !scan_lines_app.
  rewrite (@scan_lines_no_start page w pre Hpre).
  rewrite (@scan_lines_block page w start_line end_line name body Hstart Hbody Hend).
  rewrite (@scan_lines_no_start page _ post Hpost). reflexivity.
Qed.

Lemma page_with_one_block_witness :
  let w := MkSite (fun name => if Py.str_eqb name (lit "Doc")
                               then lit "intro
{{ListGenBot-SourceStart|X}}
pear
{{ListGenBot-SourceEnd}}
outro"
                               else pages Sample.wiki name) [] in
  main_function w (lit "Doc")
  = _add_to_list w (filter (fun l => negb (_find_title l)) [lit "pear"])
                 (lit "Doc") (lit "X").
Proof.
  intros w.
  apply (@page_with_one_block w (lit "Doc") [lit "intro"] [lit "pear"] [lit "outro"]
           (lit "{{ListGenBot-SourceStart|X}}") (lit "{{ListGenBot-SourceEnd}}") (lit "X")).
  - reflexivity.
  - apply Forall_cons; [vm_compute; reflexivity|apply Forall_nil].
  - vm_compute. reflexivity.
  - apply Forall_cons; [vm_compute; reflexivity|apply Forall_nil].
  - vm_compute. reflexivity.
  - apply Forall_cons; [vm_compute; reflexivity|apply Forall_nil].
Defined.

(** * A later block of the same page *)

Lemma added_lines_replace (page_lines first second : list str) (title : str) :
  first <> [] ->
  Forall (body_line (section_of title)) first ->
  at_most_once (section_of title) page_lines ->
  added_lines (added_lines page_lines first title) second title
  = added_lines page_lines second title.
Proof.
  intros Hne Hbody Honce. unfold added_lines.
  pose proof (remove_section_no_heading Honce) as Hgone.
  set (kept := remove_section (section_of title) page_lines) in *.
  destruct first as [|c first]; [contradiction|].
  unfold add_content at 2. rewrite <- !app_assoc. cbn [app].
  rewrite remove_section_last by assumption. reflexivity.
Qed.

(** X25: two blocks of one source page for the same list: the second
    upsert cuts the section that the first one wrote, so the list page
    ends up as if only the second block had been merged.  This holds
    when the first block has lines, none of them the heading or a
    title, and the heading occurs at most once on the list page. *)
Theorem later_block_replaces_earlier
  (w : Site) (first second : list str) (title list_name : str) :
  first <> [] ->
  no_nl title ->
  Forall no_nl first ->
  Forall (body_line (section_of title)) first ->
  at_most_once (section_of title) (_get_page_text w (list_page_name list_name)) ->
  forall name,
    pages (_add_to_list (_add_to_list w first title list_name) second title list_name) name
    = pages (_add_to_list w second title list_name) name.
Proof.
  intros Hne Htitle Hlines Hbody Honce name.
  destruct (Py.str_eqb name (list_page_name list_name)) eqn:E.
  - apply str_eqb_eq in E. subst name.
    rewrite !_add_to_list_text.
    set (page_lines := _get_page_text w (list_page_name list_name)) in *.
    assert (Hsplit : _get_page_text (_add_to_list w first title list_name)
                                    (list_page_name list_name)
                     = added_lines page_lines first title).
    { unfold _get_page_text at 1. unfold page_text. cbn [p_text _get_page p_title].
      rewrite _add_to_list_text. fold page_lines.
      apply split_join.
      - unfold added_lines, add_content.
        destruct first as [|c first]; [contradiction|].
        intros H. apply app_eq_nil in H. destruct H as [_ H]. discriminate.
      - unfold added_lines, add_content.
        destruct first as [|c first]; [contradiction|].
        apply Forall_app. split; [apply Forall_app; split|exact Hlines].
        + apply Forall_forall. intros x Hx. apply in_remove_section in Hx.
          pose proof (split_nl_lines (page_text w (_get_page (list_page_name list_name))))
            as Hall.
          rewrite Forall_forall in Hall. apply Hall. exact Hx.
        + constructor; [apply no_nl_section_of; exact Htitle|constructor]. }
    rewrite Hsplit, added_lines_replace by assumption. reflexivity.
  - apply str_eqb_neq in E.
    rewrite !_add_to_list_other by exact E. reflexivity.
Qed.

Lemma later_block_replaces_earlier_witness :
  pages (_add_to_list (_add_to_list Sample.wiki [lit "kiwi"] (lit "B") (lit "X"))
                      [lit "fig"; lit "lime"] (lit "B") (lit "X")) (lit "ListGenBot X")
  = pages (_add_to_list Sample.wiki [lit "fig"; lit "lime"] (lit "B") (lit "X"))
          (lit "ListGenBot X").
Proof.
  apply (fun h1 h2 h3 h4 h5 =>
           @later_block_replaces_earlier Sample.wiki [lit "kiwi"] [lit "fig"; lit "lime"]
             (lit "B") (lit "X") h1 h2 h3 h4 h5 (lit "ListGenBot X")).
  - discriminate.
  - reflexivity.
  - repeat constructor.
  - repeat constructor; discriminate.
  - right. exists [lit "==A=="; lit "banana"; lit "apple"], [lit "cherry"].
    split; [reflexivity|]. split.
    + simpl. intuition discriminate.
    + simpl. intuition discriminate.
Defined.

(* ================================================================= *)
(** * A lone directive *)

(** ** Where a text can occur *)







(** ** What the pattern picks in a lone directive *)











